(** * ActivityNet captions: dataset sampling and training orchestration

  A shallow embedding of the three Python sources

    - [dataset/activitynet_train.py]     (module [Train])
    - [dataset/activitynet_captions.py]  (module [Captions])
    - [train/train.py]                   (module [TrainScript])

  together with the fragment of the Python runtime they rely on
  (module [Py]): exceptions, numbers, [range], list indexing, string
  formatting and [os.path].  Decoded JSON documents are the inputs of
  the model; tensors are represented by their shapes and provenance. *)

From Stdlib Require Import Floats ZArith DecimalString Ascii String List Sorted Lia.
From Stdlib Require DecimalN.
From stdpp Require Import gmap strings list.

Open Scope Z_scope.

(* ===================================================================== *)
(** * The Python fragment                                                 *)
(* ===================================================================== *)

Module Py.

(** Exceptions raised by the modelled code. *)
Inductive exn : Type :=
| IndexError
| KeyError (key : string)
| TypeError
| ValueError
| OverflowError
| RuntimeError
| AttributeError (attr : string)
| NameError (name : string)
| FileNotFoundError (path : string)
| AssertionError (msg : string).

(** A computation either returns or raises. *)
Inductive res (A : Type) : Type :=
| Ok (a : A)
| Raise (e : exn).
Arguments Ok {A} a.
Arguments Raise {A} e.

Definition bind {A B} (c : res A) (k : A -> res B) : res B :=
  match c with
  | Ok a => k a
  | Raise e => Raise e
  end.

Definition is_ok {A} (c : res A) : bool :=
  match c with Ok _ => true | Raise _ => false end.

(** [for x in l: acc = f(acc, x)] where the body may raise. *)
Fixpoint foldM {A B} (f : A -> B -> res A) (l : list B) (a : A) : res A :=
  match l with
  | [] => Ok a
  | x :: l' => bind (f a x) (foldM f l')
  end.

(** [[f(x) for x in l]] where [f] may raise. *)
Fixpoint mapM {A B} (f : A -> res B) (l : list A) : res (list B) :=
  match l with
  | [] => Ok []
  | x :: l' =>
      bind (f x) (fun y => bind (mapM f l') (fun ys => Ok (y :: ys)))
  end.

(** ** Numbers: Python [int] and [float] (IEEE 754 binary64). *)
Inductive number : Type :=
| PyInt (z : Z)
| PyFloat (f : float).

(** [float(z)]: round to nearest even; too large an int overflows. *)
Definition float_of_int (z : Z) : res float :=
  match binary_normalize 53 1024 z 0 false with
  | S754_infinity _ => Raise OverflowError
  | sf => Ok (SF2Prim sf)
  end.

(** [a * b] on numbers. *)
Definition mul (a b : number) : res number :=
  match a, b with
  | PyInt x, PyInt y => Ok (PyInt (x * y))
  | PyInt x, PyFloat g =>
      bind (float_of_int x) (fun f => Ok (PyFloat (f * g)%float))
  | PyFloat f, PyInt y =>
      bind (float_of_int y) (fun g => Ok (PyFloat (f * g)%float))
  | PyFloat f, PyFloat g => Ok (PyFloat (f * g)%float)
  end.

(** [int(x)]: truncation toward zero; NaN and infinities raise. *)
Definition int (x : number) : res Z :=
  match x with
  | PyInt z => Ok z
  | PyFloat f =>
      match Prim2SF f with
      | S754_zero _ => Ok 0
      | S754_finite s m e =>
          let mag := if 0 <=? e then Z.pos m * 2 ^ e
                     else Z.pos m / 2 ^ (- e) in
          Ok (if s then - mag else mag)
      | S754_infinity _ => Raise OverflowError
      | S754_nan => Raise ValueError
      end
  end.

(** ** Sequences *)

(** [list(range(a, b))]. *)
Definition range (a b : Z) : list Z :=
  List.map (fun k => a + Z.of_nat k) (seq 0 (Z.to_nat (b - a))).

(** [l[i]], negative indices counting from the end. *)
Definition index {A} (l : list A) (i : Z) : res A :=
  let n := Z.of_nat (length l) in
  let j := if i <? 0 then i + n else i in
  if (0 <=? j) && (j <? n) then
    match l !! Z.to_nat j with
    | Some x => Ok x
    | None => Raise IndexError
    end
  else Raise IndexError.

(** [enumerate(l)]. *)
Definition enumerate {A} (l : list A) : list (nat * A) :=
  combine (seq 0 (length l)) l.

(** ** Strings *)

(** [s[n:]]. *)
Fixpoint str_drop (n : nat) (s : string) : string :=
  match n, s with
  | O, _ => s
  | S _, EmptyString => EmptyString
  | S n', String _ s' => str_drop n' s'
  end.

(** ['{}'.format(z)] for an int. *)
Definition str_int (z : Z) : string :=
  NilZero.string_of_int (Z.to_int z).

Fixpoint zeros (n : nat) : string :=
  match n with
  | O => EmptyString
  | S n' => String "0"%char (zeros n')
  end.

(** ['{:0Wd}'.format(z)]: sign-aware zero padding to width [w]; longer
    numbers are never truncated. *)
Definition format_0d (w : nat) (z : Z) : string :=
  let digits := NilZero.string_of_uint (N.to_uint (Z.to_N (Z.abs z))) in
  if z <? 0 then
    String "-"%char (zeros (w - 1 - String.length digits) +:+ digits)
  else zeros (w - String.length digits) +:+ digits.

Fixpoint ends_with_slash (s : string) : bool :=
  match s with
  | EmptyString => false
  | String c EmptyString => Ascii.eqb c "/"%char
  | String _ s' => ends_with_slash s'
  end.

(** [os.path.join(a, b)] (POSIX). *)
Definition path_join (a b : string) : string :=
  match b with
  | String "/"%char _ => b
  | _ =>
      match a with
      | EmptyString => b
      | _ => if ends_with_slash a then a +:+ b else a +:+ "/" +:+ b
      end
  end.

(** Whitespace, for ASCII text. *)
Definition is_space (c : ascii) : bool :=
  let n := nat_of_ascii c in
  ((9 <=? n)%nat && (n <=? 13)%nat) || ((28 <=? n)%nat && (n <=? 32)%nat).

Fixpoint lstrip (s : string) : string :=
  match s with
  | String c s' => if is_space c then lstrip s' else s
  | EmptyString => EmptyString
  end.

Fixpoint rstrip (s : string) : string :=
  match s with
  | EmptyString => EmptyString
  | String c s' =>
      match rstrip s' with
      | EmptyString => if is_space c then EmptyString else String c EmptyString
      | r => String c r
      end
  end.

(** [s.strip()]. *)
Definition strip (s : string) : string := rstrip (lstrip s).

(** The file system: the set of paths (files and directories) that
    exist.  [os.path.exists] is membership. *)
Definition path_exists (fs : gset string) (p : string) : bool :=
  bool_decide (p ∈ fs).

Fixpoint strip_prefix (pre s : string) : option string :=
  match pre, s with
  | EmptyString, _ => Some s
  | String a pre', String b s' =>
      if Ascii.eqb a b then strip_prefix pre' s' else None
  | String _ _, EmptyString => None
  end.

Fixpoint has_slash (s : string) : bool :=
  match s with
  | EmptyString => false
  | String c s' => Ascii.eqb c "/"%char || has_slash s'
  end.

(** The name of [p] inside directory [d], when [p] is a direct child. *)
Definition child_name (d p : string) : option string :=
  match strip_prefix (path_join d "") p with
  | Some (String c name) =>
      if has_slash (String c name) then None else Some (String c name)
  | _ => None
  end.

(** [os.listdir(d)], in arbitrary order. *)
Definition listdir (fs : gset string) (d : string) : res (list string) :=
  if path_exists fs d then Ok (omap (child_name d) (elements fs))
  else Raise (FileNotFoundError d).

Fixpoint insert_sorted (x : string) (l : list string) : list string :=
  match l with
  | [] => [x]
  | y :: l' => if String.leb x y then x :: l else y :: insert_sorted x l'
  end.

(** [sorted(l)] on strings. *)
Definition sorted (l : list string) : list string :=
  fold_right insert_sorted [] l.

Definition is_digit (c : ascii) : bool :=
  let n := nat_of_ascii c in (48 <=? n)%nat && (n <=? 57)%nat.

Fixpoint take_digits (s : string) : string :=
  match s with
  | String c s' => if is_digit c then String c (take_digits s') else EmptyString
  | EmptyString => EmptyString
  end.

(** [re.findall(r'\d+', s)[0]]. *)
Fixpoint first_digits (s : string) : res string :=
  match s with
  | EmptyString => Raise IndexError
  | String c s' => if is_digit c then Ok (take_digits s) else first_digits s'
  end.

(** [int(s)] on a string of decimal digits. *)
Definition int_of_digits (s : string) : Z :=
  fold_left (fun acc c => 10 * acc + (Z.of_nat (nat_of_ascii c) - 48))
            (list_ascii_of_string s) 0.

(** [p[:i], p[i:]] for [i = p.rfind('/') + 1]. *)
Fixpoint rsplit_slash (p : string) : string * string :=
  match p with
  | EmptyString => (EmptyString, EmptyString)
  | String c p' =>
      if has_slash p' then
        let '(h, t) := rsplit_slash p' in (String c h, t)
      else if Ascii.eqb c "/"%char then (String c EmptyString, p')
      else (EmptyString, p)
  end.

(** [s.rstrip('/')]. *)
Fixpoint rstrip_slash (s : string) : string :=
  match s with
  | EmptyString => EmptyString
  | String c s' =>
      match rstrip_slash s' with
      | EmptyString =>
          if Ascii.eqb c "/"%char then EmptyString else String c EmptyString
      | r => String c r
      end
  end.

(** [os.path.split(p)] (POSIX): the head loses its trailing slashes
    unless it is made of slashes only. *)
Definition path_split (p : string) : string * string :=
  let '(head, tail) := rsplit_slash p in
  match rstrip_slash head with
  | EmptyString => (head, tail)
  | stripped => (stripped, tail)
  end.

Definition nonempty (s : string) : bool :=
  match s with EmptyString => false | String _ _ => true end.

(** [os.makedirs(name)], by its recursion on the head of the path: a
    missing head is made first, with all of its own missing ancestors,
    then [mkdir(name)] adds the leaf (nothing is added for a leaf '.'
    whose head was just made).  The result is the set of paths that
    exist afterwards; [mkdir] of a head that turns out to exist raises
    [FileExistsError], which the calling level swallows, and that is no
    change of the set.  Paths are known as they are written.  Each
    call works on a strictly shorter path, so the length of [name]
    bounds the depth; [fuel] counts it down. *)
Fixpoint makedirs_from (fuel : nat) (fs : gset string) (name : string)
  : gset string :=
  match fuel with
  | O => {[name]} ∪ fs
  | S fuel' =>
      let '(head, tail) :=
        let '(head, tail) := path_split name in
        if nonempty tail then (head, tail) else path_split head in
      if nonempty head && nonempty tail && negb (path_exists fs head) then
        let made := makedirs_from fuel' fs head in
        if String.eqb tail "." then made else {[name]} ∪ made
      else {[name]} ∪ fs
  end.

Definition makedirs (fs : gset string) (name : string) : gset string :=
  makedirs_from (String.length name) fs name.

End Py.

Import Py.

Declare Scope py_scope.
Notation "x <- c ;; k" := (Py.bind c (fun x => k))
  (at level 100, c at next level, right associativity) : py_scope.
Open Scope py_scope.

(* ===================================================================== *)
(** * Tensors, as far as the datasets look at them                        *)
(* ===================================================================== *)

Module Torch.

(** A tensor is known by its provenance: the image and transform
    parameters it was computed from, or the operation that built it.
    Only [size] is ever inspected by the modelled code. *)
#[warnings="-register-all"]
Inductive Tensor (Image : Type) : Type :=
| Transformed (shape : list nat) (img : Image) (params : nat)
| Stack (ts : list (Tensor Image))
| Permute (dims : list nat) (t : Tensor Image).
Arguments Transformed {Image} shape img params.
Arguments Stack {Image} ts.
Arguments Permute {Image} dims t.

(** What a clip holds before stacking: decoded images when no spatial
    transform is configured, otherwise whatever the transform returns. *)
Inductive Frame (Image : Type) : Type :=
| Pic (img : Image)
| Ten (t : Tensor Image).
Arguments Pic {Image} img.
Arguments Ten {Image} t.

(** [t.size()]. *)
Fixpoint size {Image} (t : Tensor Image) : list nat :=
  match t with
  | Transformed shape _ _ => shape
  | Stack ts =>
      length ts :: match ts with
                   | [] => []
                   | t0 :: _ => size t0
                   end
  | Permute dims t' => List.map (fun d => nth d (size t') 0%nat) dims
  end.

(** [t.size(d)]. *)
Definition size_at {Image} (t : Tensor Image) (d : nat) : res Z :=
  match size t !! d with
  | Some n => Ok (Z.of_nat n)
  | None => Raise IndexError
  end.

Definition as_tensor {Image} (f : Frame Image) : res (Tensor Image) :=
  match f with
  | Ten t => Ok t
  | Pic _ => Raise TypeError
  end.

(** [torch.stack(clip, 0)]: every element must be a tensor, the list
    must not be empty, and all sizes must agree. *)
Definition stack {Image} (clip : list (Frame Image)) : res (Tensor Image) :=
  ts <- mapM as_tensor clip;;
  match ts with
  | [] => Raise RuntimeError
  | t0 :: rest =>
      if forallb (fun t => bool_decide (size t = size t0)) rest
      then Ok (Stack ts)
      else Raise RuntimeError
  end.

(** [t.permute(d0, d1, ...)]: [dims] must rearrange exactly the dimensions
    of [t]. *)
Definition permute {Image} (dims : list nat) (t : Tensor Image)
  : res (Tensor Image) :=
  if bool_decide (length dims = length (size t))
     && forallb (fun d => bool_decide (d ∈ dims)) (seq 0 (length dims))
  then Ok (Permute dims t)
  else Raise RuntimeError.

End Torch.

Import Torch.

(* ===================================================================== *)
(** * dataset/activitynet_train.py                                        *)
(* ===================================================================== *)

Module Train.

(** One element of [self.data]. *)
Record VideoRecord : Type := {
  id : string;
  duration : Z;
  sentences : list string;
  timestamps : list (Z * Z);
  fps : number
}.

(** The randomness consumed by one pass through the sampling loop:
    the raw value behind [np.random.randint], and the random state the
    temporal transform and [randomize_parameters] draw from. *)
Record Entropy : Type := {
  rnd_segment : Z;
  rnd_temporal : nat;
  rnd_spatial : nat
}.

(** [np.random.randint(low, high)]. *)
Definition randint (low high : Z) (raw : Z) : res Z :=
  if high <=? low then Raise ValueError
  else Ok (low + raw mod (high - low)).

(** How a run of [__getitem__] ends.  [Retrying] says that the entropy
    supplied was used up while the loop was still going. *)
Inductive outcome (A : Type) : Type :=
| Returned (a : A)
| Raised (e : exn)
| Retrying.
Arguments Returned {A} a.
Arguments Raised {A} e.
Arguments Retrying {A}.

(** [str(l)] for a list of ints, as [print] shows it. *)
Definition repr_list (l : list Z) : string :=
  "[" +:+ String.concat ", " (List.map str_int l) +:+ "]".

(** The loop of lines 137-144, with its three accumulators. *)
Fixpoint collect (n_actions num : Z) (segs : list (string * (Z * Z)))
    (sentences : list string) (timestamps : list (Z * Z))
    (fidlist : list (list Z))
  : list string * list (Z * Z) * list (list Z) :=
  match segs with
  | [] => (sentences, timestamps, fidlist)
  | (sentence, timestamp) :: segs' =>
      if num =? n_actions then (sentences, timestamps, fidlist)
      else if timestamp.1 <? timestamp.2 then
        collect n_actions (num + 1) segs'
                (sentences ++ [sentence]) (timestamps ++ [timestamp])
                (fidlist ++ [range timestamp.1 timestamp.2])
      else collect n_actions (num + 1) segs' sentences timestamps fidlist
  end.

(** Lines 132-144: the parallel lists [sentences], [timestamps] and
    [fidlist] of one record. *)
Definition candidates (n_actions : Z) (r : VideoRecord)
  : list string * list (Z * Z) * list (list Z) :=
  collect n_actions 0 (combine (sentences r) (timestamps r)) [] [] [].

(** One value of the decoded annotation JSON. *)
Record Annotation : Type := {
  ann_fps : option number;
  ann_sentences : list string;
  ann_timestamps : list (list number)
}.

(** Lines 100-102: one [[start_sec, end_sec]] entry to frames. *)
Definition frame_pair (fpsv : number) (lastframenum : Z) (t : list number)
  : res (Z * Z) :=
  t0 <- index t 0;;
  p0 <- mul t0 fpsv;;
  i0 <- int p0;;
  let startframe := Z.max 1 i0 in
  t1 <- index t 1;;
  p1 <- mul t1 fpsv;;
  i1 <- int p1;;
  let endframe := Z.min lastframenum i1 in
  Ok (startframe, endframe).

(** Lines 94-95: the number in the name of the last frame file. *)
Definition last_frame_number (fs : gset string) (dir : string) : res Z :=
  names <- listdir fs dir;;
  lastfile <- index (sorted names) (-1);;
  digits <- first_digits lastfile;;
  Ok (int_of_digits digits).

(** Lines 92-104: the record built for one annotated video. *)
Definition make_record (fs : gset string) (frm_path : string)
    (vid : string) (obj : Annotation) (fpsv : number) : res VideoRecord :=
  lastframenum <- last_frame_number fs (path_join frm_path vid);;
  timestamps <- mapM (frame_pair fpsv lastframenum) (ann_timestamps obj);;
  Ok {| id := vid;
        duration := lastframenum;
        sentences := List.map strip (ann_sentences obj);
        timestamps := timestamps;
        fps := fpsv |}.

(** Lines 88-105 of [__init__]: [ann] is the decoded annotation file,
    in the order of [ann.items()]. *)
Definition init_data (fs : gset string) (root_path frame_path : string)
    (ann : list (string * Annotation)) : res (list VideoRecord) :=
  let frm_path := path_join root_path frame_path in
  foldM (fun data '(vid, obj) =>
           match ann_fps obj with
           | None => Ok data
           | Some fpsv =>
               if (length (ann_sentences obj) <? 1)%nat then Ok data
               else content <- make_record fs frm_path vid obj fpsv;;
                    Ok (data ++ [content])
           end)
        ann [].

Section dataset.

Context {Image : Type}.
Variable image_loader : string -> Image.

Definition frame_file (video_dir_path : string) (i : Z) : string :=
  path_join video_dir_path ("image_" +:+ format_0d 5 i +:+ ".jpg").

(** [video_loader]: the printed lines and the returned list. *)
Fixpoint video_loader_from (fs : gset string) (video_dir_path : string)
    (frame_indices : list Z) (video : list Image)
  : list string * list Image :=
  match frame_indices with
  | [] => ([], video)
  | i :: rest =>
      let image_path := frame_file video_dir_path i in
      if path_exists fs image_path then
        video_loader_from fs video_dir_path rest
                          (video ++ [image_loader image_path])
      else ([image_path +:+ " " +:+ " does not exist!!!"], video)
  end.

Definition video_loader (fs : gset string) (video_dir_path : string)
    (frame_indices : list Z) : list string * list Image :=
  video_loader_from fs video_dir_path frame_indices [].

(** The fields of the dataset object that [__getitem__] reads.  The
    transforms are collaborators defined outside these sources; each
    receives the random state of the current pass. *)
Record Dataset : Type := {
  frm_path : string;
  data : list VideoRecord;
  spatial_transform : option (nat -> Image -> Frame Image);
  temporal_transform : option (nat -> list Z -> list Z);
  sample_duration : Z;
  n_actions : Z
}.

(** The dictionary returned by [__getitem__]. *)
Record Sample : Type := {
  s_id : string;
  s_duration : Z;
  s_sentence : string;
  s_timestamp : Z * Z;
  s_fps : number;
  s_clip : Tensor Image
}.

(** Lines 150-152: the frame indices used in a pass. *)
Definition transformed_indices (ds : Dataset) (e : Entropy)
    (frame_indices : list Z) : list Z :=
  match temporal_transform ds with
  | Some transform => transform (rnd_temporal e) frame_indices
  | None => frame_indices
  end.

(** Lines 155-157: the clip handed to [torch.stack]. *)
Definition transformed_clip (ds : Dataset) (e : Entropy)
    (clip : list Image) : list (Frame Image) :=
  match spatial_transform ds with
  | Some transform => List.map (transform (rnd_spatial e)) clip
  | None => List.map Pic clip
  end.

(** Lines 159-160, the body of the [try]. *)
Definition assemble (ds : Dataset) (clip : list (Frame Image))
  : res (Tensor Image) :=
  stacked <- stack clip;;
  clip' <- permute [1; 0; 2; 3]%nat stacked;;
  t <- size_at clip' 1;;
  if t =? sample_duration ds then Ok clip'
  else Raise (AssertionError "").

(** Lines 147-150: the segment drawn in a pass. *)
Definition choose (sentences : list string) (timestamps : list (Z * Z))
    (fidlist : list (list Z)) (e : Entropy)
  : res (string * (Z * Z) * list Z) :=
  actionnum <- randint 0 (Z.of_nat (length sentences)) (rnd_segment e);;
  sentence <- index sentences actionnum;;
  timestamp <- index timestamps actionnum;;
  frame_indices <- index fidlist actionnum;;
  Ok (sentence, timestamp, frame_indices).

(** How one pass through the body of [while True] ends: with an
    exception raised outside the [try], in the [except] branch
    ([continue]), or at [break]. *)
Inductive pass_result : Type :=
| Fatal (e : exn)
| Caught (printed : list string)
| Done (printed : list string) (s : Sample).

(** Lines 147-166, one pass. *)
Definition pass (ds : Dataset) (fs : gset string) (r : VideoRecord)
    (sentences : list string) (timestamps : list (Z * Z))
    (fidlist : list (list Z)) (e : Entropy) : pass_result :=
  match choose sentences timestamps fidlist e with
  | Raise x => Fatal x
  | Ok (sentence, timestamp, frame_indices) =>
      let frame_indices := transformed_indices ds e frame_indices in
      let '(printed, clip) :=
        video_loader fs (path_join (frm_path ds) (id r)) frame_indices in
      let clip := transformed_clip ds e clip in
      match assemble ds clip with
      | Ok clip =>
          Done printed
               {| s_id := id r; s_duration := duration r;
                  s_sentence := sentence; s_timestamp := timestamp;
                  s_fps := fps r; s_clip := clip |}
      | Raise _ =>
          Caught (printed
                    ++ ["stack failed or clip is not right size"%string;
                        id r; repr_list frame_indices])
      end
  end.

(** The [while True] loop of lines 146-166; one [Entropy] per pass. *)
Fixpoint sample_loop (ds : Dataset) (fs : gset string) (r : VideoRecord)
    (sentences : list string) (timestamps : list (Z * Z))
    (fidlist : list (list Z)) (oracle : list Entropy)
  : list string * outcome Sample :=
  match oracle with
  | [] => ([], Retrying)
  | e :: oracle' =>
      match pass ds fs r sentences timestamps fidlist e with
      | Fatal x => ([], Raised x)
      | Done printed s => (printed, Returned s)
      | Caught printed =>
          let '(printed', result) :=
            sample_loop ds fs r sentences timestamps fidlist oracle' in
          (printed ++ printed', result)
      end
  end.

(** [__getitem__]: what is printed, and how the call ends. *)
Definition getitem (ds : Dataset) (fs : gset string) (idx : Z)
    (oracle : list Entropy) : list string * outcome Sample :=
  match index (data ds) idx with
  | Raise x => ([], Raised x)
  | Ok r =>
      let '(sentences, timestamps, fidlist) := candidates (n_actions ds) r in
      sample_loop ds fs r sentences timestamps fidlist oracle
  end.

End dataset.

End Train.

(* ===================================================================== *)
(** * dataset/activitynet_captions.py                                     *)
(* ===================================================================== *)

Module Captions.

(** [video_loader] of this variant: six-digit file names, nothing
    printed. *)
Section loader.

Context {Image : Type}.
Variable image_loader : string -> Image.

Definition frame_file (video_dir_path : string) (i : Z) : string :=
  path_join video_dir_path (format_0d 6 i +:+ ".jpg").

Fixpoint video_loader_from (fs : gset string) (video_dir_path : string)
    (frame_indices : list Z) (video : list Image) : list Image :=
  match frame_indices with
  | [] => video
  | i :: rest =>
      let image_path := frame_file video_dir_path i in
      if path_exists fs image_path then
        video_loader_from fs video_dir_path rest
                          (video ++ [image_loader image_path])
      else video
  end.

Definition video_loader (fs : gset string) (video_dir_path : string)
    (frame_indices : list Z) : list Image :=
  video_loader_from fs video_dir_path frame_indices [].

End loader.

(** [id_loader]: [ids] is the decoded JSON list read from [path].
    The "v_" prefix is removed by the slice [id[2:]], and the
    dictionary is filled in enumeration order, so a later duplicate
    overwrites an earlier one. *)
Definition id_loader (ids : list string)
  : list string * gmap string nat :=
  let id2key := List.map (str_drop 2) ids in
  let key2id :=
    fold_left (fun (d : gmap string nat) '(index, videoid) =>
                 <[videoid := index]> d)
              (enumerate id2key) ∅ in
  (id2key, key2id).

(** ** [preprocess]

    Python dicts are objects: a list slot holds a reference, and a
    write through one reference is seen through all of them.  The
    store maps locations to dict contents; [data] holds [None] or a
    location. *)

#[warnings="-register-all"]
Inductive value : Type :=
| VStr (s : string)
| VNum (n : number)
| VList (l : list value).

Definition loc := nat.

Record Store : Type := {
  heap : gmap loc (gmap string value);
  next : loc
}.

(** [{}]: a fresh empty dict. *)
Definition alloc (st : Store) : loc * Store :=
  (next st, {| heap := <[next st := ∅]> (heap st); next := S (next st) |}).

(** [d[k] = v] through the reference [l]. *)
Definition setitem (l : loc) (k : string) (v : value) (st : Store) : Store :=
  {| heap := alter (fun d => <[k := v]> d) l (heap st); next := next st |}.

(** [d[k]] through the reference [l]. *)
Definition getfield (st : Store) (l : loc) (k : string) : res value :=
  match heap st !! l with
  | Some d =>
      match d !! k with
      | Some v => Ok v
      | None => Raise (KeyError k)
      end
  | None => Raise RuntimeError
  end.

(** [data[idx] = x]. *)
Definition list_set {A} (l : list A) (idx : nat) (x : A) : res (list A) :=
  if (idx <? length l)%nat then Ok (<[idx := x]> l) else Raise IndexError.

(** [data[idx][k]], where the slot may still hold [None]. *)
Definition slot_field (st : Store) (data : list (option loc)) (idx : Z)
    (k : string) : res value :=
  slot <- index data idx;;
  match slot with
  | Some l => getfield st l k
  | None => Raise TypeError
  end.

(** [data[idx][k] = v]. *)
Definition slot_setitem (st : Store) (data : list (option loc)) (idx : Z)
    (k : string) (v : value) : res Store :=
  slot <- index data idx;;
  match slot with
  | Some l => Ok (setitem l k v st)
  | None => Raise TypeError
  end.

(** One entry of the metadata file. *)
Record MetaObj : Type := {
  video_id : string;
  framerate : number;
  num_frames : Z;
  width : Z;
  height : Z
}.

(** One value of the annotation file. *)
Record PreObj : Type := {
  pre_video_id : string;
  pre_timestamps : list (list number);
  pre_captions : list string
}.

Definition key2idx_get (key2idx : gmap string nat) (k : string) : res nat :=
  match key2idx !! k with
  | Some i => Ok i
  | None => Raise (KeyError k)
  end.

(** Lines 91-98.  [tmp] is the one dict made on line 90. *)
Definition preprocess_meta (key2idx : gmap string nat) (tmp : loc)
    (metadata : list MetaObj) (data : list (option loc)) (st : Store)
  : res (list (option loc) * Store) :=
  foldM (fun '(data, st) obj =>
           idx <- key2idx_get key2idx (video_id obj);;
           let st := setitem tmp "video_id" (VStr (video_id obj)) st in
           let st := setitem tmp "framerate" (VNum (framerate obj)) st in
           let st := setitem tmp "num_frames" (VNum (PyInt (num_frames obj))) st in
           let st := setitem tmp "width" (VNum (PyInt (width obj))) st in
           let st := setitem tmp "height" (VNum (PyInt (height obj))) st in
           data <- list_set data idx (Some tmp);;
           Ok (data, st))
        metadata (data, st).

Definition as_number (v : value) : res number :=
  match v with
  | VNum n => Ok n
  | _ => Raise TypeError
  end.

(** Lines 109-113: seconds to frames, region by region. *)
Definition convert_regions (fpsv : number) (regions_sec : list (list number))
  : res (list (list Z)) :=
  mapM (mapM (fun ts => p <- mul ts fpsv;; int p)) regions_sec.

Definition regions_value (regs : list (list Z)) : value :=
  VList (List.map (fun r => VList (List.map (fun z => VNum (PyInt z)) r)) regs).

(** Lines 99-116. *)
Definition preprocess_pre (key2idx : gmap string nat)
    (predata : list (string * PreObj)) (data : list (option loc)) (st : Store)
  : res Store :=
  foldM (fun st '(v_id, obj) =>
           match key2idx_get key2idx (pre_video_id obj) with
           | Raise (KeyError _) => Ok st
           | Raise e => Raise e
           | Ok idx =>
               let idx := Z.of_nat idx in
               f <- slot_field st data idx "framerate";;
               fpsv <- as_number f;;
               regs <- convert_regions fpsv (pre_timestamps obj);;
               st <- slot_setitem st data idx "regions" (regions_value regs);;
               st <- slot_setitem st data idx "captions"
                       (VList (List.map VStr (pre_captions obj)));;
               slot_setitem st data idx "segments"
                       (VNum (PyInt (Z.of_nat (length regs))))
           end)
        predata st.

(** [preprocess]: the returned list and the store its slots point into. *)
Definition preprocess (predata : list (string * PreObj))
    (metadata : list MetaObj) (vidnum : nat) (key2idx : gmap string nat)
  : res (list (option loc) * Store) :=
  let data := replicate vidnum None in
  let '(tmp, st) := alloc {| heap := ∅; next := 0%nat |} in
  filled <- preprocess_meta key2idx tmp metadata data st;;
  let '(data, st) := filled in
  st <- preprocess_pre key2idx predata data st;;
  Ok (data, st).

(** [data[i][k]] on the result of [preprocess]. *)
Definition read (r : list (option loc) * Store) (i : Z) (k : string)
  : res value :=
  slot_field r.2 r.1 i k.

(** ** [ActivityNetCaptions.__getitem__] *)

(** Names bound at module level in this file (imports, functions, the
    class, and [dset] when run as a script). *)
Definition module_globals : list string :=
  ["sys"; "os"; "time"; "Image"; "functools"; "json"; "torch"; "nn";
   "Dataset"; "DataLoader"; "transforms"; "video_loader";
   "get_default_video_loader"; "get_default_image_loader"; "pil_loader";
   "accimage_loader"; "id_loader"; "preprocess"; "ActivityNetCaptions";
   "dset"; "__name__"; "__doc__"; "__file__"; "__builtins__"]%string.

(** Names the function binds: its parameters and assignment targets. *)
Definition getitem_locals : list string :=
  ["self"; "index"; "id"; "num_frames"; "frame_indices"; "clip";
   "target"]%string.

(** The functions and constants of the [builtins] module (exception
    classes, all of whose names end in Error, Exception, Warning, Exit,
    Interrupt, Iteration or Group, are left out). *)
Definition builtin_names : list string :=
  ["abs"; "aiter"; "all"; "anext"; "any"; "ascii"; "bin"; "bool";
   "breakpoint"; "bytearray"; "bytes"; "callable"; "chr"; "classmethod";
   "compile"; "complex"; "copyright"; "credits"; "delattr"; "dict"; "dir";
   "divmod"; "enumerate"; "eval"; "exec"; "exit"; "filter"; "float";
   "format"; "frozenset"; "getattr"; "globals"; "hasattr"; "hash"; "help";
   "hex"; "id"; "input"; "int"; "isinstance"; "issubclass"; "iter"; "len";
   "license"; "list"; "locals"; "map"; "max"; "memoryview"; "min"; "next";
   "object"; "oct"; "open"; "ord"; "pow"; "print"; "property"; "quit";
   "range"; "repr"; "reversed"; "round"; "set"; "setattr"; "slice";
   "sorted"; "staticmethod"; "str"; "sum"; "super"; "tuple"; "type";
   "vars"; "zip"; "__import__"; "None"; "True"; "False"; "Ellipsis";
   "NotImplemented"; "__debug__"]%string.

(** Evaluating a name that is not local to the function: the module
    globals are searched, then the builtins. *)
Definition load_global (name : string) : res unit :=
  if bool_decide (name ∈ module_globals) || bool_decide (name ∈ builtin_names)
  then Ok tt
  else Raise (NameError name).

Section getitem.

Context {Result : Type}.

(** The fields of the dataset object read by [__getitem__]. *)
Record Dataset : Type := {
  data : list (option loc);
  store : Store;
  temporal_transform : option (list Z -> res (list Z))
}.

(** Lines 213-223 once the arguments of the loader call are
    evaluated: loading, transforming and stacking the clip. *)
Variable load_and_stack : Dataset -> Z -> list Z -> res Result.

(** [range(n)] accepts an int only. *)
Definition as_int (v : value) : res Z :=
  match v with
  | VNum (PyInt z) => Ok z
  | _ => Raise TypeError
  end.

(** Lines 206-212. *)
Definition frame_indices_of (ds : Dataset) (idx : Z) : res (list Z) :=
  _ <- slot_field (store ds) (data ds) idx "video_id";;
  n <- slot_field (store ds) (data ds) idx "num_frames";;
  num_frames <- as_int n;;
  let frame_indices := range 0 num_frames in
  match temporal_transform ds with
  | Some transform => transform frame_indices
  | None => Ok frame_indices
  end.

(** [__getitem__].  [path] is not one of [getitem_locals], so line 213
    looks it up as a global. *)
Definition getitem (ds : Dataset) (idx : Z) : res Result :=
  frame_indices <- frame_indices_of ds idx;;
  _ <- (if bool_decide ("path"%string ∈ getitem_locals) then Ok tt
        else load_global "path");;
  load_and_stack ds idx frame_indices.

End getitem.

End Captions.

(* ===================================================================== *)
(** * train/train.py, from the resume step on (lines 87-181)              *)
(* ===================================================================== *)

Module TrainScript.

(** The command-line arguments these lines read. *)
Record Args : Type := {
  model_path : string;
  cnnmethod : string;
  rnnmethod : string;
  start_from_ep : Z;
  num_layers : Z;
  lstm_stacks : Z;
  bs : Z;
  imsize : Z;
  clip_len : Z;
  max_epochs : Z;
  dataparallel : bool
}.

(** What the script meets at run time and these sources do not decide:
    the GPU count, whether a bare sub-model has a [module] attribute
    (an [nn.DataParallel] wrapper always has), and whether the numeric
    work of an epoch (lines 127-158) raises.  Checkpoint files are
    known by their paths only: reading or writing one that can be
    reached succeeds. *)
Record Runtime : Type := {
  n_gpu : Z;
  bare_has_module : bool;
  epoch_error : Z -> option exn
}.

Inductive submodel : Type := Encoder | Decoder.

(** What the script does, in order. *)
Inductive event : Type :=
| Print (line : string)
| LoadState (m : submodel) (path : string)
| CountParams
| TrainEpoch (ep : Z)
| EpochDone (ep : Z)
| MakeDirs (dir : string)
| SaveState (m : submodel) (path : string).

Record Run : Type := {
  trace : list event;
  files : gset string;
  result : res unit
}.

Definition method_dir (a : Args) (method : string) (param : Z) : string :=
  path_join (model_path a) (method +:+ "_" +:+ str_int param).

Definition config_name (a : Args) : string :=
  "b" +:+ format_0d 3 (bs a) +:+ "_s" +:+ format_0d 3 (imsize a)
      +:+ "_l" +:+ format_0d 3 (clip_len a).

Definition enc_dir (a : Args) : string :=
  path_join (method_dir a (cnnmethod a) (num_layers a)) (config_name a).

Definition dec_dir (a : Args) : string :=
  path_join (method_dir a (rnnmethod a) (lstm_stacks a)) (config_name a).

Definition ckpt_name (ep : Z) : string :=
  "ep" +:+ format_0d 4 ep +:+ ".ckpt".

Definition enc_path (a : Args) (ep : Z) : string :=
  path_join (enc_dir a) (ckpt_name ep).

Definition dec_path (a : Args) (ep : Z) : string :=
  path_join (dec_dir a) (ckpt_name ep).

(** Lines 87-101: the epoch to start from, and what was done. *)
Definition resume (a : Args) (fs : gset string) : Z * list event :=
  let offset := start_from_ep a in
  if offset =? 0 then (offset, [])
  else
    let enc_model_path := enc_path a offset in
    let dec_model_path := dec_path a offset in
    if path_exists fs enc_model_path && path_exists fs dec_model_path then
      (offset,
       [LoadState Encoder enc_model_path;
        LoadState Decoder dec_model_path;
        Print ("restarting training from epoch " +:+ str_int offset)])
    else
      (0, [Print "didn't find file, starting encoder from scratch"]).

(** Lines 106-108 and the [.module] accesses of lines 173-175. *)
Definition has_module (a : Args) (rt : Runtime) : bool :=
  ((1 <? n_gpu rt) && dataparallel a) || bare_has_module rt.

(** Lines 168-171: [os.makedirs] behind an existence test. *)
Definition ensure_dir (fs : gset string) (dir : string)
  : list event * gset string :=
  if path_exists fs dir then ([], fs)
  else ([MakeDirs dir], makedirs fs dir).

(** Lines 126-178: the epochs still to run. *)
Fixpoint epochs_loop (a : Args) (rt : Runtime) (fs : gset string)
    (eps : list Z) : Run :=
  match eps with
  | [] => {| trace := []; files := fs; result := Ok tt |}
  | ep :: eps' =>
      match epoch_error rt ep with
      | Some e => {| trace := [TrainEpoch ep]; files := fs; result := Raise e |}
      | None =>
          let '(made1, fs1) := ensure_dir fs (enc_dir a) in
          let '(made2, fs2) := ensure_dir fs1 (dec_dir a) in
          let before_save := [TrainEpoch ep; EpochDone (ep + 1)] ++ made1 ++ made2 in
          if has_module a rt then
            let enc_save_path := enc_path a (ep + 1) in
            let dec_save_path := dec_path a (ep + 1) in
            let rest :=
              epochs_loop a rt ({[enc_save_path; dec_save_path]} ∪ fs2) eps' in
            {| trace :=
                 before_save
                   ++ [SaveState Encoder enc_save_path;
                       Print ("saved encoder model to " +:+ enc_save_path);
                       SaveState Decoder dec_save_path;
                       Print ("saved decoder model to " +:+ dec_save_path)]
                   ++ trace rest;
               files := files rest;
               result := result rest |}
          else
            {| trace := before_save; files := fs2;
               result := Raise (AttributeError "module") |}
      end
  end.

(** Lines 87-181. *)
Definition main (a : Args) (rt : Runtime) (fs : gset string) : Run :=
  let '(offset, resumed) := resume a fs in
  let setup := resumed ++ [CountParams] in
  if offset <? max_epochs a then
    let run := epochs_loop a rt fs (range offset (max_epochs a)) in
    {| trace :=
         setup ++ [Print "start training"] ++ trace run
               ++ (if is_ok (result run) then [Print "end training"] else []);
       files := files run;
       result := result run |}
  else
    {| trace := setup; files := fs;
       result :=
         Raise (AssertionError
                  "already at offset epoch number, aborting training") |}.


End TrainScript.

(* ===================================================================== *)
(** * [ActivityNetCaptions.__init__] and [__len__]                         *)
(* ===================================================================== *)

Module CaptionsDataset.

(** The JSON files, by path, each taken to hold a document of the shape
    its reader expects.  A path without a document cannot be opened. *)
Record Files : Type := {
  ids_files : gmap string (list string);
  ann_files : gmap string (list (string * Captions.PreObj));
  meta_files : gmap string (list Captions.MetaObj)
}.

(** [open(path)] followed by [json.load]. *)
Definition open_json {A} (files : gmap string A) (path : string) : res A :=
  match files !! path with
  | Some doc => Ok doc
  | None => Raise (FileNotFoundError path)
  end.

(** [a is b] on strings.  Different strings are never one object;
    whether equal ones are is up to the interpreter, and is given by
    [same_object]. *)
Definition py_is (same_object : bool) (a b : string) : bool :=
  same_object && String.eqb a b.

(** What the constructor prints. *)
Inductive printed : Type :=
| Line (s : string)
| DataList (data : list (option Captions.loc)) (st : Captions.Store).

(** The attributes of the constructed object. *)
Record Object : Type := {
  idx2key : list string;
  key2idx : gmap string nat;
  category : string;
  annfile : option string;
  predata : list (string * Captions.PreObj);
  meta : list Captions.MetaObj;
  frame_path : string;
  vidnum : nat;
  data : list (option Captions.loc);
  store : Captions.Store
}.

Definition mode_message : string :=
  "mode in ActivityNetCaptions must be one of ['train', 'val', 'test'] True".

(** Lines 156-159: a failed assertion is caught and reported. *)
Definition check_mode (mode : string) : list printed :=
  if bool_decide (mode ∈ ["train"; "val"; "test"]%string) then []
  else [Line mode_message].

(** [__init__], lines 151-181. *)
Definition init (files : Files) (same_object : bool)
    (root_path metadata mode frame_path : string)
  : list printed * res Object :=
  match open_json (ids_files files)
          (path_join root_path (mode +:+ "_ids.json")) with
  | Raise e => ([], Raise e)
  | Ok ids =>
      let '(idx2key, key2idx) := Captions.id_loader ids in
      let out := check_mode mode in
      let category := if py_is same_object mode "val" then "val_1"%string
                      else mode in
      let annfile := if negb (py_is same_object mode "test")
                     then Some (category +:+ ".json") else None in
      match
        (predata_attr <-
           match annfile with
           | Some f =>
               doc <- open_json (ann_files files) (path_join root_path f);;
               Ok (Some doc)
           | None => Ok None
           end;;
         meta <- open_json (meta_files files) (path_join root_path metadata);;
         let vidnum := length meta in
         predata <- match predata_attr with
                    | Some doc => Ok doc
                    | None => Raise (AttributeError "predata")
                    end;;
         built <- Captions.preprocess predata meta vidnum key2idx;;
         Ok {| idx2key := idx2key; key2idx := key2idx; category := category;
               annfile := annfile; predata := predata; meta := meta;
               frame_path := path_join root_path frame_path;
               vidnum := vidnum; data := built.1; store := built.2 |})
      with
      | Raise e => (out, Raise e)
      | Ok obj => (out ++ [DataList (data obj) (store obj)], Ok obj)
      end
  end.

(** [__len__]. *)
Definition len (obj : Object) : nat := vidnum obj.

(** What [__getitem__] reads of the object, without transforms. *)
Definition as_dataset (obj : Object) : Captions.Dataset :=
  {| Captions.data := data obj;
     Captions.store := store obj;
     Captions.temporal_transform := None |}.

End CaptionsDataset.

(* ===================================================================== *)
(** * The specification's vocabulary                                      *)
(* ===================================================================== *)

Module Spec.

(** A segment is usable when it starts strictly before it ends. *)
Definition valid_segment (seg : string * (Z * Z)) : bool :=
  seg.2.1 <? seg.2.2.

(** The frame-index range of a segment. *)
Definition segment_range (seg : string * (Z * Z)) : list Z :=
  range seg.2.1 seg.2.2.

(** The candidate segments as the specification words them: all usable
    segments of the video, truncated to the first [n] of them. *)
Definition candidate_segments (n : Z) (r : Train.VideoRecord)
  : list (string * (Z * Z)) :=
  take (Z.to_nat n)
    (List.filter valid_segment
       (combine (Train.sentences r) (Train.timestamps r))).

(** The other order: the first [n] segments of the video, of which the
    usable ones are kept. *)
Definition usable_among_first (n : Z) (r : Train.VideoRecord)
  : list (string * (Z * Z)) :=
  List.filter valid_segment
    (take (Z.to_nat n) (combine (Train.sentences r) (Train.timestamps r))).

(** The three lists a list of segments stands for: sentences,
    timestamps, frame-index ranges. *)
Definition lists_of (segs : list (string * (Z * Z)))
  : list string * list (Z * Z) * list (list Z) :=
  (List.map fst segs, List.map snd segs, List.map segment_range segs).

(** The longest prefix of [l] all of whose members satisfy [present]. *)
Fixpoint present_prefix (present : Z -> bool) (l : list Z) : list Z :=
  match l with
  | [] => []
  | i :: l' => if present i then i :: present_prefix present l' else []
  end.

(** [int(sec * fps)]: a time in seconds as a frame number. *)
Definition seconds_to_frame (sec fpsv : number) : res Z :=
  p <- mul sec fpsv;; int p.

(** The frame pair of a [[start_sec, end_sec]] entry, clamped to the
    frames 1 to [duration]. *)
Definition clamped_pair (fpsv : number) (duration : Z) (t : list number)
    (p : Z * Z) : Prop :=
  exists start_sec end_sec i0 i1,
    t !! 0%nat = Some start_sec /\ t !! 1%nat = Some end_sec /\
    seconds_to_frame start_sec fpsv = Ok i0 /\
    seconds_to_frame end_sec fpsv = Ok i1 /\
    p = (Z.max 1 i0, Z.min duration i1).

End Spec.

(** The dictionary loop of [id_loader], from any dictionary. *)
Definition fill_keys (d : gmap string nat) (l : list (nat * string))
  : gmap string nat :=
  fold_left (fun (d : gmap string nat) '(index, videoid) =>
               <[videoid := index]> d) l d.




(** The epoch the assertion of line 123 compares with: the requested
    one when it is 0 or both its checkpoint files exist, else 0. *)
Definition effective_offset (a : TrainScript.Args) (fs : gset string) : Z :=
  let offset := TrainScript.start_from_ep a in
  if (offset =? 0)
     || (path_exists fs (TrainScript.enc_path a offset)
         && path_exists fs (TrainScript.dec_path a offset))
  then offset else 0.

(** The annotations [__init__] makes a record of: those with a frame
    rate and at least one sentence. *)
Definition kept_annotation (entry : string * Train.Annotation) : bool :=
  match Train.ann_fps entry.2 with
  | Some _ => negb (length (Train.ann_sentences entry.2) <? 1)%nat
  | None => false
  end.

(** A record agrees with the annotation it was made from, given the
    frame directory it was counted in. *)
Definition record_of (fs : gset string) (frm_path : string)
    (r : Train.VideoRecord) (entry : string * Train.Annotation) : Prop :=
  Train.id r = entry.1 /\
  Train.ann_fps entry.2 = Some (Train.fps r) /\
  Train.sentences r = List.map strip (Train.ann_sentences entry.2) /\
  length (Train.timestamps r) = length (Train.ann_timestamps entry.2) /\
  Train.last_frame_number fs (path_join frm_path entry.1)
    = Ok (Train.duration r).

Definition starts_with_slash (s : string) : bool :=
  match s with
  | String c _ => Ascii.eqb c "/"%char
  | EmptyString => false
  end.

(** [p] is the path [d] or the path of a directory above it: [d] is
    [p] followed by nothing, or by text that begins a new component. *)
Definition ancestor_or_self (p d : string) : Prop :=
  exists rest,
    d = p +:+ rest /\
    (rest = EmptyString \/ starts_with_slash rest = true
     \/ ends_with_slash p = true).



(** Strings made of decimal digits only. *)
Definition digits_only (s : string) : Prop :=
  Forall (fun c => is_digit c = true) (list_ascii_of_string s).

(** Reading back a number written by [format_0d] at the head of a
    string: an optional minus sign, then the leading run of digits. *)
Definition parse_int (s : string) : Z :=
  match s with
  | String c r =>
      if Ascii.eqb c "-" then - int_of_digits (take_digits r)
      else int_of_digits (take_digits s)
  | EmptyString => 0
  end.

(** The name of the frame file of index [i] inside its directory. *)
Definition frame_name (i : Z) : string :=
  "image_" +:+ format_0d 5 i +:+ ".jpg".

(* ===================================================================== *)
(** * Sample inputs                                                       *)
(* ===================================================================== *)

Definition demo_record : Train.VideoRecord :=
  {| Train.id := "v1"; Train.duration := 40;
     Train.sentences := ["a"; "b"; "c"]%string;
     Train.timestamps := [(5, 5); (1, 3); (2, 9)];
     Train.fps := PyFloat 5 |}.

(** A video directory holding frames 1 to 40. *)
Definition demo_fs : gset string :=
  list_to_set ("root"%string :: "root/frames"%string :: "root/frames/v1"%string
                 :: List.map (Train.frame_file "root/frames/v1") (range 1 41)).

(** A dataset of one video whose second segment runs past the last
    frame; clips are the first three frames of the drawn segment. *)
Definition demo_dataset : Train.Dataset (Image := string) :=
  {| Train.frm_path := "root/frames";
     Train.data :=
       [{| Train.id := "v1"; Train.duration := 40;
           Train.sentences := ["x"; "y"]%string;
           Train.timestamps := [(10, 30); (39, 45)];
           Train.fps := PyFloat 5 |}];
     Train.spatial_transform :=
       Some (fun params img => Ten (Transformed [3; 4; 4]%nat img params));
     Train.temporal_transform := Some (fun _ l => take 3 l);
     Train.sample_duration := 3;
     Train.n_actions := 10 |}.

Definition demo_oracle : list Train.Entropy :=
  [{| Train.rnd_segment := 1; Train.rnd_temporal := 0; Train.rnd_spatial := 0 |};
   {| Train.rnd_segment := 4; Train.rnd_temporal := 0; Train.rnd_spatial := 7 |}].

Definition demo_dataset_invalid : Train.Dataset (Image := string) :=
  {| Train.frm_path := "root/frames";
     Train.data :=
       [{| Train.id := "v1"; Train.duration := 40;
           Train.sentences := ["x"; "y"]%string;
           Train.timestamps := [(5, 5); (7, 3)];
           Train.fps := PyFloat 5 |}];
     Train.spatial_transform := None;
     Train.temporal_transform := None;
     Train.sample_duration := 16;
     Train.n_actions := 10 |}.

(** As [demo_dataset], without a spatial transform (the default). *)
Definition demo_dataset_plain : Train.Dataset (Image := string) :=
  {| Train.frm_path := "root/frames";
     Train.data :=
       [{| Train.id := "v1"; Train.duration := 40;
           Train.sentences := ["x"; "y"]%string;
           Train.timestamps := [(10, 30); (39, 45)];
           Train.fps := PyFloat 5 |}];
     Train.spatial_transform := None;
     Train.temporal_transform := Some (fun _ l => take 3 l);
     Train.sample_duration := 3;
     Train.n_actions := 10 |}.

Definition demo_fs_two_frames : gset string :=
  {[ "clips/v7/image_00001.jpg"; "clips/v7/image_00002.jpg";
     "clips/v7/000001.jpg"; "clips/v7/000002.jpg" ]}%string.

(** The defaults of the argument parser, with the given start epoch and
    epoch count. *)
Definition default_args (start_from_ep max_epochs : Z) : TrainScript.Args :=
  {| TrainScript.model_path := "../models";
     TrainScript.cnnmethod := "resnet";
     TrainScript.rnnmethod := "LSTM";
     TrainScript.start_from_ep := start_from_ep;
     TrainScript.num_layers := 10;
     TrainScript.lstm_stacks := 3;
     TrainScript.bs := 64;
     TrainScript.imsize := 224;
     TrainScript.clip_len := 16;
     TrainScript.max_epochs := max_epochs;
     TrainScript.dataparallel := true |}.


(** A file system in which only the parent directory is known. *)
Definition parent_only : gset string := {[ ".."%string ]}.



(** Metadata of two videos, and the key table [id_loader] builds for
    them. *)
Definition two_videos_meta : list Captions.MetaObj :=
  [{| Captions.video_id := "a"; Captions.framerate := PyFloat 30;
      Captions.num_frames := 100; Captions.width := 320;
      Captions.height := 240 |};
   {| Captions.video_id := "b"; Captions.framerate := PyFloat 25;
      Captions.num_frames := 50; Captions.width := 640;
      Captions.height := 480 |}].

Definition two_videos_keys : gmap string nat :=
  (Captions.id_loader ["v_a"; "v_b"]%string).2.

(** A dataset of one video of three frames. *)
Definition one_video_dataset : Captions.Dataset :=
  {| Captions.data := [Some 0%nat];
     Captions.store :=
       {| Captions.heap :=
            {[ 0%nat :=
                 {[ "video_id"%string := Captions.VStr "a";
                    "num_frames"%string := Captions.VNum (PyInt 3) ]} ]};
          Captions.next := 1%nat |};
     Captions.temporal_transform := None |}.

(** A continuation for line 213 onwards that would succeed. *)
Definition loads_fine (ds : Captions.Dataset) (idx : Z) (frames : list Z)
  : res (list Z) := Ok frames.

(** As [demo_dataset], with both segments inside the video. *)
Definition demo_dataset_inside : Train.Dataset (Image := string) :=
  {| Train.frm_path := "root/frames";
     Train.data :=
       [{| Train.id := "v1"; Train.duration := 40;
           Train.sentences := ["x"; "y"]%string;
           Train.timestamps := [(10, 30); (30, 40)];
           Train.fps := PyFloat 5 |}];
     Train.spatial_transform :=
       Some (fun params img => Ten (Transformed [3; 4; 4]%nat img params));
     Train.temporal_transform := Some (fun _ l => take 3 l);
     Train.sample_duration := 3;
     Train.n_actions := 10 |}.

(** Three annotations: one without frame rate, one without sentence,
    one complete. *)
Definition demo_annotations : list (string * Train.Annotation) :=
  [("v0"%string, {| Train.ann_fps := None;
                    Train.ann_sentences := ["no rate"%string];
                    Train.ann_timestamps := [[PyFloat 1; PyFloat 2]] |});
   ("v2"%string, {| Train.ann_fps := Some (PyFloat 5);
                    Train.ann_sentences := [];
                    Train.ann_timestamps := [] |});
   ("v1"%string, {| Train.ann_fps := Some (PyFloat 5);
                    Train.ann_sentences := [" a dog runs "%string];
                    Train.ann_timestamps := [[PyFloat 2; PyFloat 6]] |})].

(** An annotation of a video that has no frame directory in [demo_fs]. *)
Definition demo_annotation_v9 : Train.Annotation :=
  {| Train.ann_fps := Some (PyFloat 5);
     Train.ann_sentences := ["a cat sits"%string];
     Train.ann_timestamps := [[PyFloat 0; PyFloat 1]] |}.

(** The annotations [preprocess] uses: those whose video id is in the
    key table. *)
Definition known_annotation (key2idx : gmap string nat)
    (entry : string * Captions.PreObj) : bool :=
  bool_decide (is_Some (key2idx !! Captions.pre_video_id entry.2)).

(** Annotations of the known video "a" and of an unknown video. *)
Definition demo_predata : list (string * Captions.PreObj) :=
  [("v_zzz"%string,
    {| Captions.pre_video_id := "zzz";
       Captions.pre_timestamps := [[PyFloat 0; PyFloat 1]];
       Captions.pre_captions := ["unknown"%string] |});
   ("v_a"%string,
    {| Captions.pre_video_id := "a";
       Captions.pre_timestamps := [[PyFloat 1.5; PyFloat 2.5]];
       Captions.pre_captions := ["x"%string] |})].

(** The files of a root directory with ids, annotations and metadata of
    the two videos, for mode "train" and for a mode named "dev". *)
Definition demo_files : CaptionsDataset.Files :=
  {| CaptionsDataset.ids_files :=
       {[ "root/train_ids.json"%string := ["v_a"; "v_b"]%string;
          "root/dev_ids.json"%string := ["v_a"; "v_b"]%string;
          "root/test_ids.json"%string := ["v_a"; "v_b"]%string ]};
     CaptionsDataset.ann_files :=
       {[ "root/train.json"%string := demo_predata;
          "root/dev.json"%string := demo_predata ]};
     CaptionsDataset.meta_files :=
       {[ "root/meta.json"%string := two_videos_meta ]} |}.

(* ===================================================================== *)
(** * Properties                                                          *)
(* ===================================================================== *)

Section id_loader_facts.

Lemma fill_absent (l : list string) (s : nat) (d : gmap string nat) k :
  k ∉ l ->
  fill_keys d (combine (seq s (length l)) l) !! k = d !! k.
Proof.
  revert s d. induction l as [|x l IH]; intros s d Hk; [done|].
  apply not_elem_of_cons in Hk as [Hne Hk]. simpl.
  rewrite IH by done. by rewrite lookup_insert_ne.
Qed.

Lemma fill_lookup (l : list string) (s : nat) (d : gmap string nat) i k :
  NoDup l -> l !! i = Some k ->
  fill_keys d (combine (seq s (length l)) l) !! k = Some (s + i)%nat.
Proof.
  revert s d i. induction l as [|x l IH]; intros s d i Hnd Hi; [done|].
  apply NoDup_cons in Hnd as [Hx Hnd]. destruct i as [|i]; simpl in *.
  - injection Hi as ->. rewrite fill_absent by done.
    rewrite lookup_insert_eq. f_equal. lia.
  - rewrite (IH (S s) _ i) by done. f_equal. lia.
Qed.

End id_loader_facts.

(** C10. When the ids are pairwise distinct after losing their first two
  characters, [id_loader] returns a list holding at each position the
  input id without its first two characters, and a dictionary that
  sends every entry of that list back to its position. *)
Theorem id_loader_left_inverse (ids : list string) :
NoDup (List.map (str_drop 2) ids) ->
let '(id2key, key2id) := Captions.id_loader ids in
length id2key = length ids /\
forall (i : nat) (id : string),
  ids !! i = Some id ->
  id2key !! i = Some (str_drop 2 id) /\
  key2id !! str_drop 2 id = Some i.
Proof.
intros Hnd. unfold Captions.id_loader, enumerate.
split; [apply length_map|].
intros i id Hi.
assert (Hk : List.map (str_drop 2) ids !! i = Some (str_drop 2 id)).
{ change (List.map (str_drop 2) ids) with (str_drop 2 <$> ids).
  by rewrite list_lookup_fmap, Hi. }
split; [done|].
apply (fill_lookup _ 0 ∅ i _ Hnd Hk).
Qed.

Lemma id_loader_left_inverse_witness :
NoDup (List.map (str_drop 2) ["v_abc"; "v_xyz"]%string) /\
let '(id2key, key2id) := Captions.id_loader ["v_abc"; "v_xyz"]%string in
id2key !! 1%nat = Some "xyz"%string /\ key2id !! "xyz"%string = Some 1%nat.
Proof.
assert (Hnd : NoDup (List.map (str_drop 2) ["v_abc"; "v_xyz"]%string)).
{ simpl. apply NoDup_cons. split; [|apply NoDup_singleton].
  intros H. apply list_elem_of_singleton in H. discriminate H. }
split; [exact Hnd|].
pose proof (id_loader_left_inverse ["v_abc"; "v_xyz"]%string Hnd) as H.
destruct (Captions.id_loader ["v_abc"; "v_xyz"]%string) as [id2key key2id].
destruct H as [_ H]. exact (H 1%nat "v_xyz"%string eq_refl).
Defined.

(* --------------------------------------------------------------------- *)
(** ** Python fragments                                                   *)
(* --------------------------------------------------------------------- *)

Lemma range_length (a b : Z) : length (range a b) = Z.to_nat (b - a).
Proof. unfold range. by rewrite length_map, length_seq. Qed.

Lemma range_lookup (a b : Z) (k : nat) :
  (k < Z.to_nat (b - a))%nat -> range a b !! k = Some (a + Z.of_nat k).
Proof.
  intros Hk. unfold range.
  change (List.map ?f ?l) with (f <$> l).
  rewrite list_lookup_fmap, lookup_seq_lt by done. done.
Qed.

Lemma range_elem_of (a b x : Z) : x ∈ range a b <-> a <= x < b.
Proof.
  unfold range. rewrite list_elem_of_In, in_map_iff. split.
  - intros (k & <- & Hk). apply in_seq in Hk. lia.
  - intros Hx. exists (Z.to_nat (x - a)). split; [lia|].
    apply in_seq. lia.
Qed.

Lemma index_ok_lookup {A} (l : list A) (i : Z) (x : A) :
  index l i = Ok x ->
  exists k : nat, l !! k = Some x /\
    Z.of_nat k = (if i <? 0 then i + Z.of_nat (length l) else i).
Proof.
  unfold index. intros H.
  destruct ((0 <=? _) && (_ <? _)) eqn:Hr; [|discriminate].
  apply andb_prop in Hr as [H0 _]. apply Z.leb_le in H0.
  destruct (l !! Z.to_nat _) eqn:Hl; [|discriminate].
  injection H as ->. eexists. split; [exact Hl|]. lia.
Qed.

Lemma index_in_range {A} (l : list A) (i : Z) :
  0 <= i < Z.of_nat (length l) -> exists x, index l i = Ok x /\ l !! Z.to_nat i = Some x.
Proof.
  intros Hi. unfold index.
  destruct (Z.ltb_spec i 0); [lia|].
  destruct (Z.leb_spec 0 i); [|lia].
  destruct (Z.ltb_spec i (Z.of_nat (length l))); [|lia]. simpl.
  destruct (lookup_lt_is_Some_2 l (Z.to_nat i)) as [x Hx]; [lia|].
  rewrite Hx. eauto.
Qed.

Lemma mapM_Forall2 {A B} (f : A -> res B) (l : list A) (l' : list B) :
  mapM f l = Ok l' -> Forall2 (fun x y => f x = Ok y) l l'.
Proof.
  revert l'. induction l as [|x l IH]; intros l' H; simpl in H.
  - injection H as <-. constructor.
  - destruct (f x) as [y|] eqn:Hy; [|discriminate]. simpl in H.
    destruct (mapM f l) as [ys|]; [|discriminate]. simpl in H.
    injection H as <-. constructor; [done|]. by apply IH.
Qed.

(* --------------------------------------------------------------------- *)
(** ** The candidate segments                                             *)
(* --------------------------------------------------------------------- *)

Section candidates_facts.

Lemma collect_spec (n : Z) (segs : list (string * (Z * Z))) :
  forall num sa ta fa, 0 <= num <= n ->
    Train.collect n num segs sa ta fa =
      let c := List.filter Spec.valid_segment (take (Z.to_nat (n - num)) segs) in
      (sa ++ List.map fst c, ta ++ List.map snd c, fa ++ List.map Spec.segment_range c).
Proof.
  induction segs as [|[s t] segs IH]; intros num sa ta fa Hnum.
  - rewrite take_nil. simpl. by rewrite !app_nil_r.
  - simpl. destruct (Z.eqb_spec num n) as [->|Hne].
    + replace (n - n) with 0 by lia. simpl. by rewrite !app_nil_r.
    + replace (Z.to_nat (n - num)) with (S (Z.to_nat (n - (num + 1)))) by lia.
      simpl. change (Spec.valid_segment (s, t)) with (t.1 <? t.2).
      destruct (t.1 <? t.2); rewrite IH by lia; simpl;
        by rewrite <- ?app_assoc.
Qed.

Lemma collect_unbounded (n : Z) (segs : list (string * (Z * Z))) :
  forall num sa ta fa, n < num ->
    Train.collect n num segs sa ta fa =
      let c := List.filter Spec.valid_segment segs in
      (sa ++ List.map fst c, ta ++ List.map snd c, fa ++ List.map Spec.segment_range c).
Proof.
  induction segs as [|[s t] segs IH]; intros num sa ta fa Hnum.
  - simpl. by rewrite !app_nil_r.
  - simpl. destruct (Z.eqb_spec num n) as [->|Hne]; [lia|].
    change (Spec.valid_segment (s, t)) with (t.1 <? t.2).
    destruct (t.1 <? t.2); rewrite IH by lia; simpl;
      by rewrite <- ?app_assoc.
Qed.

Lemma collect_lengths (n : Z) (segs : list (string * (Z * Z))) :
  forall num sa ta fa sa' ta' fa',
    Train.collect n num segs sa ta fa = (sa', ta', fa') ->
    length sa = length ta -> length ta = length fa ->
    length sa' = length ta' /\ length ta' = length fa'.
Proof.
  induction segs as [|[s t] segs IH]; intros num sa ta fa sa' ta' fa' H HST HTF.
  - simpl in H. by simplify_eq.
  - simpl in H. destruct (num =? n); [by simplify_eq|].
    destruct (t.1 <? t.2); apply IH in H; try done;
      rewrite !length_app; simpl; lia.
Qed.

Lemma collect_invalid (n : Z) (segs : list (string * (Z * Z))) :
  forall num sa ta fa,
    Forall (fun seg => seg.2.2 <= seg.2.1) segs ->
    Train.collect n num segs sa ta fa = (sa, ta, fa).
Proof.
  induction segs as [|[s t] segs IH]; intros num sa ta fa Hall; [done|].
  apply Forall_cons in Hall as [Ht Hall]. simpl in *.
  destruct (num =? n); [done|].
  destruct (Z.ltb_spec t.1 t.2); [lia|]. by apply IH.
Qed.

End candidates_facts.

Lemma Forall_combine_snd {A B} (P : B -> Prop) (l : list A) (k : list B) :
  Forall P k -> Forall (fun x => P x.2) (combine l k).
Proof.
  revert k. induction l as [|a l IH]; intros [|b k] H; simpl; try constructor.
  - by apply Forall_cons in H as [? ?].
  - apply IH. by apply Forall_cons in H as [? ?].
Qed.

Lemma range_sorted (a b : Z) : StronglySorted Z.lt (range a b).
Proof.
  unfold range. generalize (Z.to_nat (b - a)) as n. generalize 0%nat as s.
  intros s n. revert s. induction n as [|n IH]; intros s; simpl.
  - constructor.
  - constructor; [apply IH|].
    apply Forall_forall. intros x Hx. apply list_elem_of_In, in_map_iff in Hx.
    destruct Hx as (k & <- & Hk). apply in_seq in Hk. lia.
Qed.

(** C3, amended: truncation comes before the validity test.  The
    candidate lists are built from the first [n_actions] segments of the
    record, in annotation order, keeping of these exactly the ones whose
    start frame is strictly below their end frame (so fewer than
    [n_actions] candidates may be found although usable segments
    follow); the three lists are aligned by position, and each
    frame-index range lists the integers from the start frame (included)
    to the end frame (excluded) in increasing order. *)
Theorem candidates_spec (n : Z) (r : Train.VideoRecord) :
  0 <= n ->
  let segs := Spec.usable_among_first n r in
  let '(sentences, timestamps, fidlist) := Train.candidates n r in
  sentences = List.map fst segs /\
  timestamps = List.map snd segs /\
  fidlist = List.map (fun t => range t.1 t.2) timestamps /\
  Forall (fun t => t.1 < t.2) timestamps /\
  forall (i : nat) (t : Z * Z),
    timestamps !! i = Some t ->
    exists s, sentences !! i = Some s /\
      (s, t) ∈ combine (Train.sentences r) (Train.timestamps r) /\
      fidlist !! i = Some (range t.1 t.2) /\
      StronglySorted Z.lt (range t.1 t.2) /\
      forall x, x ∈ range t.1 t.2 <-> t.1 <= x < t.2.
Proof.
  intros Hn. unfold Train.candidates.
  rewrite collect_spec by lia. rewrite Z.sub_0_r. simpl.
  fold (Spec.usable_among_first n r).
  set (segs := Spec.usable_among_first n r).
  assert (Hvalid : Forall (fun seg => Spec.valid_segment seg = true) segs).
  { apply Forall_forall. intros seg Hseg.
    apply list_elem_of_In, filter_In in Hseg. tauto. }
  split; [done|]. split; [done|]. split.
  { rewrite map_map. done. }
  split.
  { apply Forall_forall. intros t Ht.
    apply list_elem_of_In, in_map_iff in Ht as ([s t'] & <- & Hin).
    rewrite Forall_forall in Hvalid.
    apply list_elem_of_In, Hvalid in Hin. by apply Z.ltb_lt in Hin. }
  intros i t Hi.
  change (List.map ?f ?l) with (f <$> l) in *.
  rewrite list_lookup_fmap in Hi.
  destruct (segs !! i) as [[s t']|] eqn:Hseg; [|discriminate].
  simpl in Hi. injection Hi as <-.
  exists s. rewrite !list_lookup_fmap, Hseg. simpl.
  split; [done|]. split.
  { apply list_elem_of_lookup_2 in Hseg.
    apply list_elem_of_In, filter_In in Hseg as [Hseg _].
    apply list_elem_of_In in Hseg. by apply (subseteq_take (Z.to_nat n)). }
  split; [done|]. split; [apply range_sorted|]. intros x. apply range_elem_of.
Qed.

Lemma candidates_spec_witness :
  0 <= 2 /\ Train.candidates 2 demo_record = (["b"%string], [(1, 3)], [[1; 2]]).
Proof.
  split; [lia|].
  pose proof (candidates_spec 2 demo_record ltac:(lia)) as H.
  cbv zeta in H.
  destruct (Train.candidates 2 demo_record) as [[ss ts] fl].
  destruct H as (-> & -> & -> & _). reflexivity.
Defined.

(** C3 as worded, with the usable segments truncated to the first
    [n_actions] of them, fails: of the segments (5,5), (1,3), (2,9) and
    with [n_actions] = 2 the wording makes "b" and "c" candidates, while
    the loop stops after the second segment and finds "b" only. *)
Lemma candidates_order_counterexample :
  0 <= 2 /\
  Spec.candidate_segments 2 demo_record
    = [("b"%string, (1, 3)); ("c"%string, (2, 9))] /\
  Train.candidates 2 demo_record = (["b"%string], [(1, 3)], [[1; 2]]) /\
  Train.candidates 2 demo_record
    <> Spec.lists_of (Spec.candidate_segments 2 demo_record).
Proof.
  split; [lia|]. split; [reflexivity|]. split; [reflexivity|].
  vm_compute. discriminate.
Qed.

(** Truncation comes first: a usable segment beyond the first
    [n_actions] segments is not a candidate, even when fewer than
    [n_actions] candidates were found. *)
Remark candidates_truncate_then_filter :
  Train.candidates 1 demo_record = ([], [], []) /\
  Spec.candidate_segments 1 demo_record = [("b"%string, (1, 3))].
Proof. split; reflexivity. Qed.

(** Both orders keep usable segments of the record only. *)
Lemma usable_among_first_sublist (n : Z) (r : Train.VideoRecord) :
  Spec.usable_among_first n r
  ⊆ List.filter Spec.valid_segment
      (combine (Train.sentences r) (Train.timestamps r)).
Proof.
  intros seg Hseg. unfold Spec.usable_among_first in Hseg.
  apply list_elem_of_In, filter_In in Hseg as [Hin Hv].
  apply list_elem_of_In, filter_In. split; [|done].
  apply list_elem_of_In. apply list_elem_of_In in Hin.
  by apply (subseteq_take (Z.to_nat n)).
Qed.

(** A negative [n_actions] never equals the loop counter, so nothing is
    truncated. *)
Lemma candidates_negative (n : Z) (r : Train.VideoRecord) :
  n < 0 ->
  Train.candidates n r =
    let segs := List.filter Spec.valid_segment
                  (combine (Train.sentences r) (Train.timestamps r)) in
    (List.map fst segs, List.map snd segs,
     List.map (fun seg => range seg.2.1 seg.2.2) segs).
Proof.
  intros Hn. unfold Train.candidates. by rewrite collect_unbounded by lia.
Qed.

Lemma candidates_lengths (n : Z) (r : Train.VideoRecord) sa ta fa :
  Train.candidates n r = (sa, ta, fa) ->
  length sa = length ta /\ length ta = length fa.
Proof. intros H. by apply collect_lengths in H. Qed.

(* --------------------------------------------------------------------- *)
(** ** The sampling loop                                                  *)
(* --------------------------------------------------------------------- *)

Section sampling_facts.

Context {Image : Type} (image_loader : string -> Image).

Lemma mapM_length {A B} (f : A -> res B) (l : list A) (l' : list B) :
  mapM f l = Ok l' -> length l' = length l.
Proof. intros H. apply mapM_Forall2, Forall2_length in H. done. Qed.

Lemma stack_ok (clip : list (Frame Image)) (t : Tensor Image) :
  stack clip = Ok t ->
  exists t0 rest, t = Stack (t0 :: rest) /\ length (t0 :: rest) = length clip.
Proof.
  unfold stack. destruct (mapM as_tensor clip) as [ts|] eqn:Hts; [|discriminate].
  simpl. destruct ts as [|t0 rest]; [discriminate|].
  destruct (forallb _ rest); [|discriminate].
  intros [= <-]. exists t0, rest. split; [done|]. by apply mapM_length in Hts.
Qed.

(** A clip gets through lines 159-160 only as a four-dimensional
    tensor whose second dimension is the number of frames stacked, and
    only if that number is [sample_duration]. *)
Lemma assemble_ok (ds : Train.Dataset) (clip : list (Frame Image))
    (t : Tensor Image) :
  Train.assemble ds clip = Ok t ->
  exists c h w,
    size t = [c; length clip; h; w] /\
    Z.of_nat (length clip) = Train.sample_duration ds.
Proof.
  unfold Train.assemble.
  destruct (stack clip) as [stacked|] eqn:Hst; [|discriminate]. cbn [bind].
  apply stack_ok in Hst as (t0 & rest & -> & Hlen).
  unfold permute.
  destruct (bool_decide _ && _) eqn:Hp; [|discriminate]. cbn [bind].
  apply andb_prop in Hp as [Hp _]. apply bool_decide_eq_true in Hp.
  simpl in Hp. injection Hp as Hp.
  destruct (size t0) as [|c [|h [|w [|]]]] eqn:Ht0; try discriminate.
  assert (Hsz : size (Permute [1; 0; 2; 3]%nat (Stack (t0 :: rest)))
                = [c; length clip; h; w]).
  { rewrite <- Hlen. simpl. by rewrite Ht0. }
  unfold size_at. rewrite Hsz.
  change ([c; length clip; h; w] !! 1%nat) with (Some (length clip)).
  cbn [bind].
  destruct (Z.eqb_spec (Z.of_nat (length clip)) (Train.sample_duration ds))
    as [Heq|]; [|discriminate].
  intros [= <-]. by exists c, h, w.
Qed.

Lemma sample_loop_returned ds fs r sa ta fa oracle printed s :
  Train.sample_loop image_loader ds fs r sa ta fa oracle = (printed, Train.Returned s) ->
  exists c t h w,
    size (Train.s_clip s) = [c; t; h; w] /\
    Z.of_nat t = Train.sample_duration ds.
Proof.
  revert printed. induction oracle as [|e oracle IH]; intros printed H.
  - discriminate.
  - simpl in H. unfold Train.pass in H.
    destruct (Train.choose sa ta fa e) as [[[sentence timestamp] frames]|];
      [|discriminate].
    destruct (Train.video_loader _ _ _ _) as [out clip].
    destruct (Train.assemble _ _) as [t|] eqn:Hasm.
    + injection H as _ <-. simpl.
      apply assemble_ok in Hasm as (c & h & w & Hsz & Hd). eauto 6.
    + destruct (Train.sample_loop _ _ _ _ _ _ _ _) as [out' res].
      injection H as _ ->. by eapply IH.
Qed.

Lemma choose_nonempty sa ta fa e :
  sa <> [] -> length sa = length ta -> length ta = length fa ->
  exists (k : nat) sentence timestamp frames,
    sa !! k = Some sentence /\ ta !! k = Some timestamp /\
    fa !! k = Some frames /\
    Train.choose sa ta fa e = Ok (sentence, timestamp, frames).
Proof.
  intros Hne Hst Htf. unfold Train.choose, Train.randint.
  assert (0 < Z.of_nat (length sa)) by (destruct sa; [done|simpl; lia]).
  destruct (Z.leb_spec (Z.of_nat (length sa)) 0); [lia|]. simpl.
  set (k := 0 + Train.rnd_segment e mod (Z.of_nat (length sa) - 0)).
  assert (0 <= k < Z.of_nat (length sa)).
  { unfold k. pose proof (Z.mod_pos_bound (Train.rnd_segment e)
                            (Z.of_nat (length sa) - 0)). lia. }
  destruct (index_in_range sa k) as (sentence & -> & Hs); [lia|].
  destruct (index_in_range ta k) as (timestamp & -> & Ht); [lia|].
  destruct (index_in_range fa k) as (frames & -> & Hf); [lia|].
  simpl. exists (Z.to_nat k), sentence, timestamp, frames. done.
Qed.

End sampling_facts.

(** C1. At an index whose record has a non-empty candidate list:
    whenever [__getitem__] returns a sample, its clip has four
    dimensions and the second one, the temporal one, is
    [sample_duration]; and in every pass a segment of the candidate
    list is drawn, and either the clip assembled from it passes the
    check and is returned, or the failure is printed (message, video
    id, frame indices) and the call goes on as it would with the
    remaining randomness, that is with a newly drawn segment. *)
Theorem getitem_clip_duration {Image : Type} (image_loader : string -> Image)
    (ds : Train.Dataset) (fs : gset string) (idx : Z) (r : Train.VideoRecord)
    (sentences : list string) (timestamps : list (Z * Z))
    (fidlist : list (list Z)) :
  index (Train.data ds) idx = Ok r ->
  Train.candidates (Train.n_actions ds) r = (sentences, timestamps, fidlist) ->
  sentences <> [] ->
  (forall oracle printed s,
     Train.getitem image_loader ds fs idx oracle = (printed, Train.Returned s) ->
     exists c t h w,
       size (Train.s_clip s) = [c; t; h; w] /\
       Z.of_nat t = Train.sample_duration ds) /\
  (forall e oracle,
     exists (k : nat) sentence timestamp frames,
       sentences !! k = Some sentence /\
       timestamps !! k = Some timestamp /\
       fidlist !! k = Some frames /\
       let frame_indices := Train.transformed_indices ds e frames in
       let loaded :=
         Train.video_loader image_loader fs
           (path_join (Train.frm_path ds) (Train.id r)) frame_indices in
       let next := Train.getitem image_loader ds fs idx oracle in
       match Train.assemble ds (Train.transformed_clip ds e loaded.2) with
       | Ok clip =>
           Z.of_nat (length loaded.2) = Train.sample_duration ds /\
           Train.getitem image_loader ds fs idx (e :: oracle) =
             (loaded.1,
              Train.Returned
                {| Train.s_id := Train.id r;
                   Train.s_duration := Train.duration r;
                   Train.s_sentence := sentence;
                   Train.s_timestamp := timestamp;
                   Train.s_fps := Train.fps r;
                   Train.s_clip := clip |})
       | Raise _ =>
           Train.getitem image_loader ds fs idx (e :: oracle) =
             (loaded.1
                ++ ["stack failed or clip is not right size"%string;
                    Train.id r; Train.repr_list frame_indices]
                ++ next.1,
              next.2)
       end).
Proof.
  intros Hr Hc Hne. split.
  - intros oracle printed s. unfold Train.getitem. rewrite Hr, Hc.
    apply sample_loop_returned.
  - intros e oracle.
    destruct (candidates_lengths _ _ _ _ _ Hc) as [Hst Htf].
    destruct (choose_nonempty sentences timestamps fidlist e Hne Hst Htf)
      as (k & sentence & timestamp & frames & Hs & Ht & Hf & Hch).
    exists k, sentence, timestamp, frames.
    split; [done|]. split; [done|]. split; [done|].
    cbv zeta. unfold Train.getitem. rewrite Hr, Hc. simpl.
    unfold Train.pass. rewrite Hch.
    destruct (Train.video_loader _ _ _ _) as [out clip]. simpl.
    destruct (Train.assemble _ _) as [t|] eqn:Hasm.
    + split; [|done].
      apply assemble_ok in Hasm as (c & h & w & _ & Hd).
      rewrite <- Hd. f_equal. unfold Train.transformed_clip.
      destruct (Train.spatial_transform ds); by rewrite length_map.
    + destruct (Train.sample_loop _ _ _ _ _ _ _ _) as [out' res]. simpl.
      by rewrite <- app_assoc.
Qed.

(** C2. When every segment of the record starts at or after its end,
    the candidate lists are empty, and with randomness for at least one
    pass the call ends in the first pass with the [ValueError] of the
    segment draw: nothing is printed, nothing is retried. *)
Theorem no_valid_segment_is_fatal {Image : Type}
    (image_loader : string -> Image) (ds : Train.Dataset) (fs : gset string)
    (idx : Z) (r : Train.VideoRecord) :
  index (Train.data ds) idx = Ok r ->
  Forall (fun t => t.1 >= t.2) (Train.timestamps r) ->
  Train.candidates (Train.n_actions ds) r = ([], [], []) /\
  forall e oracle,
    Train.getitem image_loader ds fs idx (e :: oracle) = ([], Train.Raised ValueError).
Proof.
  intros Hr Hall.
  assert (Hc : Train.candidates (Train.n_actions ds) r = ([], [], [])).
  { unfold Train.candidates. apply collect_invalid.
    apply (Forall_combine_snd (fun t => t.2 <= t.1)).
    eapply Forall_impl; [exact Hall|]. simpl. intros. lia. }
  split; [done|]. intros e oracle.
  unfold Train.getitem. by rewrite Hr, Hc.
Qed.

(** The first pass draws the second segment, finds frame 41 missing and
    is retried; the second pass draws the first segment and returns. *)
Lemma getitem_clip_duration_witness :
  exists r printed s,
    index (Train.data demo_dataset) 0 = Ok r /\
    Train.candidates 10 r =
      (["x"; "y"]%string, [(10, 30); (39, 45)], [range 10 30; range 39 45]) /\
    Train.getitem (fun p => p) demo_dataset demo_fs 0 demo_oracle
      = (printed, Train.Returned s) /\
    printed = ["root/frames/v1/image_00041.jpg  does not exist!!!";
               "stack failed or clip is not right size"; "v1";
               "[39, 40, 41]"]%string /\
    exists c t h w, size (Train.s_clip s) = [c; t; h; w] /\ Z.of_nat t = 3.
Proof.
  pose proof (getitem_clip_duration (fun p : string => p) demo_dataset
                demo_fs 0 _ _ _ _ eq_refl eq_refl ltac:(discriminate))
    as [Hret _].
  eexists _, _, _.
  split; [reflexivity|]. split; [reflexivity|].
  split; [vm_compute; reflexivity|]. split; [reflexivity|].
  apply (Hret demo_oracle
           ["root/frames/v1/image_00041.jpg  does not exist!!!";
            "stack failed or clip is not right size"; "v1";
            "[39, 40, 41]"]%string).
  vm_compute. reflexivity.
Defined.

Lemma no_valid_segment_is_fatal_witness :
  Forall (fun t : Z * Z => t.1 >= t.2) [(5, 5); (7, 3)] /\
  Train.getitem (fun p => p) demo_dataset_invalid demo_fs 0 demo_oracle
    = ([], Train.Raised ValueError).
Proof.
  assert (H : Forall (fun t : Z * Z => t.1 >= t.2) [(5, 5); (7, 3)]).
  { repeat constructor; simpl; lia. }
  split; [exact H|].
  exact (proj2 (no_valid_segment_is_fatal (fun p : string => p)
                  demo_dataset_invalid demo_fs 0 _ eq_refl H) _ _).
Defined.

(* --------------------------------------------------------------------- *)
(** ** The frame loader                                                   *)
(* --------------------------------------------------------------------- *)

Lemma present_prefix_longest (present : Z -> bool) (l : list Z) :
  exists rest,
    l = Spec.present_prefix present l ++ rest /\
    Forall (fun i => present i = true) (Spec.present_prefix present l) /\
    (rest = [] \/ exists i rest', rest = i :: rest' /\ present i = false).
Proof.
  induction l as [|i l (rest & Hl & Hall & Hrest)]; simpl.
  - exists []. by repeat split; [constructor | left].
  - destruct (present i) eqn:Hi.
    + exists rest. split; [simpl; by f_equal|]. split; [by constructor|done].
    + exists (i :: l). split; [done|]. split; [constructor|]. right. eauto.
Qed.

Section loader_facts.

Context {Image : Type} (image_loader : string -> Image).
Variables (fs : gset string) (video_dir_path : string).

Lemma train_video_loader_from (l : list Z) (video : list Image) :
  (Train.video_loader_from image_loader fs video_dir_path l video).2 =
    video ++ List.map (fun i => image_loader (Train.frame_file video_dir_path i))
               (Spec.present_prefix
                  (fun i => path_exists fs (Train.frame_file video_dir_path i)) l).
Proof.
  revert video. induction l as [|i l IH]; intros video; simpl.
  - by rewrite app_nil_r.
  - destruct (path_exists fs _); simpl; [|by rewrite app_nil_r].
    by rewrite IH, <- app_assoc.
Qed.

Lemma captions_video_loader_from (l : list Z) (video : list Image) :
  Captions.video_loader_from image_loader fs video_dir_path l video =
    video ++ List.map (fun i => image_loader (Captions.frame_file video_dir_path i))
               (Spec.present_prefix
                  (fun i => path_exists fs (Captions.frame_file video_dir_path i)) l).
Proof.
  revert video. induction l as [|i l IH]; intros video; simpl.
  - by rewrite app_nil_r.
  - destruct (path_exists fs _); simpl; [|by rewrite app_nil_r].
    by rewrite IH, <- app_assoc.
Qed.

End loader_facts.

(** C4. Both frame loaders return, in input order, the decoded images
    of the longest prefix of the index list whose frame files all
    exist: the list splits into that prefix, all present, and a rest
    that is empty or starts at a missing frame.  They are total
    functions: no exception is raised.  With frames 1 and 2 present
    and frame 3 missing, indices [1, 2, 3] give exactly the images of
    frames 1 and 2. *)
Theorem video_loader_prefix {Image : Type} (image_loader : string -> Image)
    (fs : gset string) (video_dir_path : string) (frame_indices : list Z) :
  let train_file := Train.frame_file video_dir_path in
  let captions_file := Captions.frame_file video_dir_path in
  (exists prefix rest,
     frame_indices = prefix ++ rest /\
     Forall (fun i => path_exists fs (train_file i) = true) prefix /\
     (rest = [] \/
      exists i rest', rest = i :: rest' /\ path_exists fs (train_file i) = false) /\
     (Train.video_loader image_loader fs video_dir_path frame_indices).2
       = List.map (fun i => image_loader (train_file i)) prefix) /\
  (exists prefix rest,
     frame_indices = prefix ++ rest /\
     Forall (fun i => path_exists fs (captions_file i) = true) prefix /\
     (rest = [] \/
      exists i rest', rest = i :: rest' /\ path_exists fs (captions_file i) = false) /\
     Captions.video_loader image_loader fs video_dir_path frame_indices
       = List.map (fun i => image_loader (captions_file i)) prefix) /\
  (path_exists fs (train_file 1) = true ->
   path_exists fs (train_file 2) = true ->
   path_exists fs (train_file 3) = false ->
   (Train.video_loader image_loader fs video_dir_path [1; 2; 3]).2
     = [image_loader (train_file 1); image_loader (train_file 2)]) /\
  (path_exists fs (captions_file 1) = true ->
   path_exists fs (captions_file 2) = true ->
   path_exists fs (captions_file 3) = false ->
   Captions.video_loader image_loader fs video_dir_path [1; 2; 3]
     = [image_loader (captions_file 1); image_loader (captions_file 2)]).
Proof.
  cbv zeta. split; [|split; [|split]].
  - destruct (present_prefix_longest
                (fun i => path_exists fs (Train.frame_file video_dir_path i))
                frame_indices) as (rest & Hl & Hall & Hrest).
    eexists _, rest. split; [exact Hl|]. split; [exact Hall|].
    split; [exact Hrest|].
    unfold Train.video_loader. by rewrite train_video_loader_from.
  - destruct (present_prefix_longest
                (fun i => path_exists fs (Captions.frame_file video_dir_path i))
                frame_indices) as (rest & Hl & Hall & Hrest).
    eexists _, rest. split; [exact Hl|]. split; [exact Hall|].
    split; [exact Hrest|].
    unfold Captions.video_loader. by rewrite captions_video_loader_from.
  - intros H1 H2 H3. unfold Train.video_loader.
    rewrite train_video_loader_from. simpl. by rewrite H1, H2, H3.
  - intros H1 H2 H3. unfold Captions.video_loader.
    rewrite captions_video_loader_from. simpl. by rewrite H1, H2, H3.
Qed.

Lemma video_loader_prefix_witness :
  (Train.video_loader (fun p => p) demo_fs_two_frames "clips/v7" [1; 2; 3]).2
    = ["clips/v7/image_00001.jpg"; "clips/v7/image_00002.jpg"]%string /\
  Captions.video_loader (fun p => p) demo_fs_two_frames "clips/v7" [1; 2; 3]
    = ["clips/v7/000001.jpg"; "clips/v7/000002.jpg"]%string.
Proof.
  pose proof (video_loader_prefix (fun p : string => p) demo_fs_two_frames
                "clips/v7" [1; 2; 3]) as (_ & _ & Ht & Hc).
  split.
  - apply Ht; vm_compute; reflexivity.
  - apply Hc; vm_compute; reflexivity.
Defined.

(* --------------------------------------------------------------------- *)
(** ** Dataset construction                                               *)
(* --------------------------------------------------------------------- *)

Lemma index_0_lookup {A} (l : list A) (x : A) :
  index l 0 = Ok x -> l !! 0%nat = Some x.
Proof.
  intros H. apply index_ok_lookup in H as (k & Hk & Hz).
  simpl in Hz. by replace k with 0%nat in Hk by lia.
Qed.

Lemma index_1_lookup {A} (l : list A) (x : A) :
  index l 1 = Ok x -> l !! 1%nat = Some x.
Proof.
  intros H. apply index_ok_lookup in H as (k & Hk & Hz).
  simpl in Hz. by replace k with 1%nat in Hk by lia.
Qed.

Lemma frame_pair_clamped (fpsv : number) (d : Z) (t : list number) (p : Z * Z) :
  Train.frame_pair fpsv d t = Ok p -> Spec.clamped_pair fpsv d t p.
Proof.
  unfold Train.frame_pair, Spec.clamped_pair, Spec.seconds_to_frame.
  destruct (index t 0) as [t0|] eqn:H0; [|discriminate]. cbn [bind].
  destruct (mul t0 fpsv) as [p0|] eqn:Hp0; [|discriminate]. cbn [bind].
  destruct (int p0) as [i0|] eqn:Hi0; [|discriminate]. cbn [bind].
  destruct (index t 1) as [t1|] eqn:H1; [|discriminate]. cbn [bind].
  destruct (mul t1 fpsv) as [p1|] eqn:Hp1; [|discriminate]. cbn [bind].
  destruct (int p1) as [i1|] eqn:Hi1; [|discriminate]. cbn [bind].
  intros [= <-]. exists t0, t1, i0, i1.
  split; [by apply index_0_lookup|]. split; [by apply index_1_lookup|].
  rewrite Hp0, Hp1. done.
Qed.

Lemma make_record_ok fs frm_path vid obj fpsv r :
  Train.make_record fs frm_path vid obj fpsv = Ok r ->
  Train.id r = vid /\ Train.fps r = fpsv /\
  Forall2 (Spec.clamped_pair fpsv (Train.duration r))
          (Train.ann_timestamps obj) (Train.timestamps r).
Proof.
  unfold Train.make_record.
  destruct (Train.last_frame_number _ _) as [d|]; [|discriminate]. cbn [bind].
  destruct (mapM _ _) as [ts|] eqn:Hts; [|discriminate]. cbn [bind].
  intros [= <-]. simpl. split; [done|]. split; [done|].
  apply mapM_Forall2 in Hts.
  eapply Forall2_impl; [exact Hts|]. intros t p. apply frame_pair_clamped.
Qed.

Lemma init_data_fold fs frm_path (all : list (string * Train.Annotation))
    (P : Train.VideoRecord -> Prop) :
  (forall vid obj fpsv r,
     (vid, obj) ∈ all -> Train.ann_fps obj = Some fpsv ->
     Train.make_record fs frm_path vid obj fpsv = Ok r -> P r) ->
  forall ann data0 data,
    ann ⊆ all -> Forall P data0 ->
    foldM (fun data '(vid, obj) =>
             match Train.ann_fps obj with
             | None => Ok data
             | Some fpsv =>
                 if (length (Train.ann_sentences obj) <? 1)%nat then Ok data
                 else content <- Train.make_record fs frm_path vid obj fpsv;;
                      Ok (data ++ [content])
             end) ann data0 = Ok data ->
    Forall P data.
Proof.
  intros HP. induction ann as [|[vid obj] ann IH]; intros data0 data Hsub H0 H.
  - simpl in H. by injection H as <-.
  - simpl in H.
    assert (Hin : (vid, obj) ∈ all) by (apply Hsub; left).
    assert (Hsub' : ann ⊆ all) by (intros x Hx; apply Hsub; by right).
    destruct (Train.ann_fps obj) as [fpsv|] eqn:Hfps; cbn [bind] in H;
      [|by eapply IH].
    destruct (_ <? _)%nat; cbn [bind] in H; [by eapply IH|].
    destruct (Train.make_record _ _ _ _ _) as [r|] eqn:Hr; [|discriminate].
    cbn [bind] in H. eapply IH; [done| |exact H].
    apply Forall_app. split; [done|]. constructor; [|constructor]. eauto.
Qed.

Lemma scenario_frame_pair :
  Train.frame_pair (PyFloat 5) 40 [PyFloat 2; PyFloat 6] = Ok (10, 30).
Proof. vm_compute. reflexivity. Qed.

(** C5. Every record built at construction comes from an annotation
    with a frame rate, and its timestamps are, entry by entry, the
    pairs [max(1, int(start_sec*fps)), min(duration, int(end_sec*fps))];
    hence every start frame is at least 1 and every end frame at most
    the duration.  For a video whose last frame is number 40, the
    annotation with fps 5.0 and timestamps [[2.0, 6.0]] gives one record
    with timestamps [[10, 30]]. *)
Theorem init_frame_pairs :
  (forall fs root_path frame_path ann data,
     Train.init_data fs root_path frame_path ann = Ok data ->
     forall r, r ∈ data ->
       exists obj fpsv,
         (Train.id r, obj) ∈ ann /\
         Train.ann_fps obj = Some fpsv /\
         Forall2 (Spec.clamped_pair fpsv (Train.duration r))
                 (Train.ann_timestamps obj) (Train.timestamps r) /\
         Forall (fun p => 1 <= p.1 /\ p.2 <= Train.duration r)
                (Train.timestamps r)) /\
  (forall fs root_path frame_path vid,
     Train.last_frame_number fs (path_join (path_join root_path frame_path) vid)
       = Ok 40 ->
     Train.init_data fs root_path frame_path
       [(vid, {| Train.ann_fps := Some (PyFloat 5);
                 Train.ann_sentences := ["a dog runs"%string];
                 Train.ann_timestamps := [[PyFloat 2; PyFloat 6]] |})]
     = Ok [{| Train.id := vid; Train.duration := 40;
              Train.sentences := ["a dog runs"%string];
              Train.timestamps := [(10, 30)];
              Train.fps := PyFloat 5 |}]).
Proof.
  split.
  - intros fs root_path frame_path ann data H r Hr.
    unfold Train.init_data in H.
    eapply (init_data_fold fs _ ann
              (fun r => exists obj fpsv,
                   (Train.id r, obj) ∈ ann /\
                   Train.ann_fps obj = Some fpsv /\
                   Forall2 (Spec.clamped_pair fpsv (Train.duration r))
                           (Train.ann_timestamps obj) (Train.timestamps r) /\
                   Forall (fun p => 1 <= p.1 /\ p.2 <= Train.duration r)
                          (Train.timestamps r))) in H.
    + rewrite Forall_forall in H. by apply H.
    + intros vid obj fpsv r' Hin Hfps Hmk.
      apply make_record_ok in Hmk as (<- & _ & Hts).
      exists obj, fpsv. split; [done|]. split; [done|]. split; [done|].
      clear -Hts. induction Hts as [|t p ts ps Hp _ IH]; constructor; [|done].
      destruct Hp as (? & ? & i0 & i1 & _ & _ & _ & _ & ->). simpl. lia.
    + done.
    + constructor.
  - intros fs root_path frame_path vid Hlast.
    unfold Train.init_data. simpl. unfold Train.make_record.
    rewrite Hlast. cbn [bind mapM Train.ann_timestamps].
    rewrite scenario_frame_pair. reflexivity.
Qed.

Lemma init_frame_pairs_witness :
  Train.last_frame_number demo_fs
    (path_join (path_join "root" "frames") "v1") = Ok 40 /\
  Train.init_data demo_fs "root" "frames"
    [("v1"%string, {| Train.ann_fps := Some (PyFloat 5);
                      Train.ann_sentences := ["a dog runs"%string];
                      Train.ann_timestamps := [[PyFloat 2; PyFloat 6]] |})]
  = Ok [{| Train.id := "v1"; Train.duration := 40;
           Train.sentences := ["a dog runs"%string];
           Train.timestamps := [(10, 30)];
           Train.fps := PyFloat 5 |}].
Proof.
  assert (H : Train.last_frame_number demo_fs
                (path_join (path_join "root" "frames") "v1") = Ok 40)
    by (vm_compute; reflexivity).
  split; [exact H|].
  exact (proj2 init_frame_pairs demo_fs "root"%string "frames"%string
               "v1"%string H).
Defined.

(* --------------------------------------------------------------------- *)
(** ** Resume and the epoch-count precondition                            *)
(* --------------------------------------------------------------------- *)


Lemma resume_effective (a : TrainScript.Args) (fs : gset string) :
  (TrainScript.resume a fs).1 = effective_offset a fs.
Proof.
  unfold TrainScript.resume, effective_offset.
  destruct (Z.eqb_spec (TrainScript.start_from_ep a) 0) as [->|]; [done|].
  simpl. by destruct (_ && _).
Qed.






(** When the epoch the resume step settled on is below [max_epochs],
    the assertion holds and the first epoch run is that one. *)
Lemma starts_at_effective_offset (a : TrainScript.Args)
    (rt : TrainScript.Runtime) (fs : gset string) :
  effective_offset a fs < TrainScript.max_epochs a ->
  exists rest,
    TrainScript.trace (TrainScript.main a rt fs)
    = (TrainScript.resume a fs).2
        ++ [TrainScript.CountParams; TrainScript.Print "start training";
            TrainScript.TrainEpoch (effective_offset a fs)]
        ++ rest.
Proof.
  intros Hlt. unfold TrainScript.main.
  pose proof (resume_effective a fs) as Heff.
  destruct (TrainScript.resume a fs) as [offset resumed].
  simpl in Heff. subst offset.
  destruct (Z.ltb_spec (effective_offset a fs) (TrainScript.max_epochs a));
    [|lia].
  assert (Hr : range (effective_offset a fs) (TrainScript.max_epochs a)
               = effective_offset a fs
                   :: range (effective_offset a fs + 1) (TrainScript.max_epochs a)).
  { unfold range.
    replace (Z.to_nat (TrainScript.max_epochs a - effective_offset a fs))
      with (S (Z.to_nat (TrainScript.max_epochs a - (effective_offset a fs + 1))))
      by lia.
    simpl. f_equal; [lia|]. rewrite <- seq_shift, map_map.
    apply map_ext. intros k. lia. }
  rewrite Hr. cbn [TrainScript.epochs_loop TrainScript.trace snd].
  destruct (TrainScript.epoch_error rt _).
  - eexists. cbn [TrainScript.trace]. rewrite <- app_assoc. reflexivity.
  - destruct (TrainScript.ensure_dir _ _) as [made1 fs1].
    destruct (TrainScript.ensure_dir fs1 _) as [made2 fs2].
    destruct (TrainScript.has_module _ _); eexists;
      cbn [TrainScript.trace]; rewrite <- !app_assoc; reflexivity.
Qed.



(* --------------------------------------------------------------------- *)
(** ** [preprocess] and the records it shares                             *)
(* --------------------------------------------------------------------- *)

Lemma foldM_invariant {A B} (f : A -> B -> res A) (P : A -> Prop) :
  (forall a x a', P a -> f a x = Ok a' -> P a') ->
  forall l a a', P a -> foldM f l a = Ok a' -> P a'.
Proof.
  intros Hstep. induction l as [|x l IH]; intros a a' Ha H; simpl in H.
  - by injection H as <-.
  - destruct (f a x) as [a1|] eqn:Hf; [|discriminate]. cbn [bind] in H.
    eapply IH; [|exact H]. by eapply Hstep.
Qed.

Lemma foldM_snoc {A B} (f : A -> B -> res A) (l : list B) (x : B) (a : A) :
  foldM f (l ++ [x]) a = (a' <- foldM f l a;; f a' x).
Proof.
  revert a. induction l as [|y l IH]; intros a; simpl.
  - by destruct (f a x).
  - destruct (f a y) as [a1|]; [|done]. cbn [bind]. apply IH.
Qed.

(** After the first loop every filled slot holds the one reference. *)
Lemma preprocess_meta_slots key2idx tmp metadata data st data' st' :
  Captions.preprocess_meta key2idx tmp metadata data st = Ok (data', st') ->
  Forall (fun slot => slot = None \/ slot = Some tmp) data ->
  Forall (fun slot => slot = None \/ slot = Some tmp) data'.
Proof.
  intros H Hdata. unfold Captions.preprocess_meta in H.
  eapply (foldM_invariant _
            (fun s : list (option Captions.loc) * Captions.Store =>
               Forall (fun slot => slot = None \/ slot = Some tmp) s.1))
    in H; [exact H| |exact Hdata].
  intros [d s] obj [d' s'] Hd Hstep. simpl in *.
  destruct (Captions.key2idx_get _ _) as [idx|]; [|discriminate].
  cbn [bind] in Hstep. unfold Captions.list_set in Hstep.
  destruct (_ <? _)%nat; [|discriminate]. cbn [bind] in Hstep.
  injection Hstep as <- _. apply Forall_insert; [done|by right].
Qed.

(** Any two filled slots of the list returned by [preprocess] hold the
    same reference. *)
Lemma preprocess_slots_alias predata metadata vidnum key2idx data st :
  Captions.preprocess predata metadata vidnum key2idx = Ok (data, st) ->
  forall (i j : nat) l1 l2,
    data !! i = Some (Some l1) -> data !! j = Some (Some l2) -> l1 = l2.
Proof.
  unfold Captions.preprocess. simpl.
  destruct (Captions.preprocess_meta _ _ _ _ _) as [[d s]|] eqn:Hmeta;
    [|discriminate].
  cbn [bind].
  destruct (Captions.preprocess_pre _ _ _ _) as [s'|]; [|discriminate].
  cbn [bind]. intros [= <- <-] i j l1 l2 Hi Hj.
  apply preprocess_meta_slots in Hmeta.
  - rewrite Forall_forall in Hmeta.
    apply list_elem_of_lookup_2, Hmeta in Hi.
    apply list_elem_of_lookup_2, Hmeta in Hj.
    destruct Hi as [|Hi]; [done|]. destruct Hj as [|Hj]; [done|]. congruence.
  - apply Forall_forall. intros slot Hslot.
    apply elem_of_replicate in Hslot as [-> _]. by left.
Qed.

Lemma setitem_heap_is_Some l k v st tmp :
  is_Some (Captions.heap st !! tmp) ->
  is_Some (Captions.heap (Captions.setitem l k v st) !! tmp).
Proof.
  intros [d Hd]. unfold Captions.setitem. simpl.
  destruct (decide (l = tmp)) as [->|Hne].
  - rewrite lookup_alter_eq, Hd. by eexists.
  - rewrite lookup_alter_ne by done. by eexists.
Qed.

Lemma preprocess_meta_keeps_tmp key2idx tmp metadata data st data' st' :
  Captions.preprocess_meta key2idx tmp metadata data st = Ok (data', st') ->
  is_Some (Captions.heap st !! tmp) ->
  is_Some (Captions.heap st' !! tmp).
Proof.
  intros H Htmp. unfold Captions.preprocess_meta in H.
  eapply (foldM_invariant _
            (fun s : list (option Captions.loc) * Captions.Store =>
               is_Some (Captions.heap s.2 !! tmp)))
    in H; [exact H| |exact Htmp].
  intros [d s] obj [d' s'] Hd Hstep. simpl in *.
  destruct (Captions.key2idx_get _ _) as [idx|]; [|discriminate].
  cbn [bind] in Hstep.
  destruct (Captions.list_set _ _ _); [|discriminate]. cbn [bind] in Hstep.
  injection Hstep as _ <-. by do 5 apply setitem_heap_is_Some.
Qed.

(** The one dict ends up with the fields of the last metadata entry. *)
Lemma preprocess_meta_last key2idx tmp ms m data st data' st' :
  Captions.preprocess_meta key2idx tmp (ms ++ [m]) data st = Ok (data', st') ->
  is_Some (Captions.heap st !! tmp) ->
  Captions.getfield st' tmp "video_id"
    = Ok (Captions.VStr (Captions.video_id m)) /\
  Captions.getfield st' tmp "num_frames"
    = Ok (Captions.VNum (PyInt (Captions.num_frames m))).
Proof.
  intros H Htmp. unfold Captions.preprocess_meta in H.
  rewrite foldM_snoc in H.
  destruct (foldM _ ms (data, st)) as [[d1 s1]|] eqn:Hms; [|discriminate].
  apply preprocess_meta_keeps_tmp in Hms as [d Hd]; [|done].
  cbn [bind] in H.
  destruct (Captions.key2idx_get _ _) as [idx|]; [|discriminate].
  cbn [bind] in H.
  destruct (Captions.list_set _ _ _); [|discriminate]. cbn [bind] in H.
  injection H as _ <-. unfold Captions.getfield, Captions.setitem. simpl.
  rewrite !lookup_alter_eq, Hd. simpl.
  split; by simplify_map_eq.
Qed.

(** Without annotations: every filled slot of the returned list reads
    the video id of the last metadata entry. *)
Lemma preprocess_last_entry_wins ms m vidnum key2idx r (i : nat) l :
  Captions.preprocess [] (ms ++ [m]) vidnum key2idx = Ok r ->
  r.1 !! i = Some (Some l) ->
  Captions.read r (Z.of_nat i) "video_id"
    = Ok (Captions.VStr (Captions.video_id m)).
Proof.
  intros H Hi.
  assert (Hl : l = 0%nat).
  { destruct r as [data st]. unfold Captions.preprocess in H. simpl in H.
    destruct (Captions.preprocess_meta _ _ _ _ _) as [[d s]|] eqn:Hmeta;
      [|discriminate].
    cbn [bind Captions.preprocess_pre foldM] in H. injection H as <- <-.
    apply preprocess_meta_slots in Hmeta.
    - rewrite Forall_forall in Hmeta.
      apply list_elem_of_lookup_2, Hmeta in Hi. by destruct Hi as [|[= ->]].
    - apply Forall_forall. intros slot Hslot.
      apply elem_of_replicate in Hslot as [-> _]. by left. }
  subst l. unfold Captions.preprocess in H. simpl in H.
  destruct (Captions.preprocess_meta _ _ _ _ _) as [[d s]|] eqn:Hmeta;
    [|discriminate].
  cbn [bind Captions.preprocess_pre foldM] in H. injection H as <-.
  simpl in Hi. unfold Captions.read, Captions.slot_field. simpl.
  destruct (index_in_range d (Z.of_nat i)) as (x & -> & Hx).
  { apply lookup_lt_Some in Hi. lia. }
  rewrite Nat2Z.id, Hi in Hx. injection Hx as <-. cbn [bind].
  apply preprocess_meta_last in Hmeta as [Hid _]; [done|].
  simpl. rewrite lookup_insert_eq. by eexists.
Qed.

(** C8, on the code.  For two videos "a" (index 0) and "b" (index 1),
    both slots of the list returned by [preprocess] hold the same
    dict, and reading the record of "a" yields the values of "b". *)
Theorem preprocess_shares_one_record :
  let result := Captions.preprocess [] two_videos_meta 2 two_videos_keys in
  two_videos_keys !! "a"%string = Some 0%nat /\
  (r <- result;; Ok r.1) = Ok [Some 0%nat; Some 0%nat] /\
  (r <- result;; Captions.read r 0 "video_id") = Ok (Captions.VStr "b") /\
  (r <- result;; Captions.read r 0 "num_frames")
    = Ok (Captions.VNum (PyInt 50)) /\
  (r <- result;; Captions.read r 0 "width") = Ok (Captions.VNum (PyInt 640)) /\
  (r <- result;; Captions.read r 1 "video_id") = Ok (Captions.VStr "b").
Proof. cbv zeta. repeat split; vm_compute; reflexivity. Qed.

(* --------------------------------------------------------------------- *)
(** ** [ActivityNetCaptions.__getitem__]                                  *)
(* --------------------------------------------------------------------- *)

(** The claim of C9 as it is worded fails: an index past the end of
    the data raises [IndexError] on line 206, before [path] is met. *)
Lemma getitem_index_error_counterexample :
  Captions.getitem loads_fine one_video_dataset 1 = Raise IndexError /\
  Captions.getitem loads_fine one_video_dataset 1 <> Raise (NameError "path").
Proof. split; [vm_compute; reflexivity|vm_compute; discriminate]. Qed.

Lemma path_is_undefined :
  (if bool_decide ("path"%string ∈ Captions.getitem_locals) then Ok tt
   else Captions.load_global "path") = Raise (NameError "path").
Proof. vm_compute. reflexivity. Qed.

(** C9, amended.  No call of [__getitem__] returns.  A call that gets
    through lines 206-212 fails on line 213 with the [NameError] of
    [path], whatever the rest of the method would do; this is so at
    every index that selects a record with a video id and an integer
    frame count when no temporal transform is set.  A call that fails
    earlier raises that earlier exception. *)
Theorem getitem_never_returns {Result : Type}
    (load_and_stack : Captions.Dataset -> Z -> list Z -> res Result)
    (ds : Captions.Dataset) (idx : Z) :
  (forall r, Captions.getitem load_and_stack ds idx <> Ok r) /\
  (forall frame_indices,
     Captions.frame_indices_of ds idx = Ok frame_indices ->
     Captions.getitem load_and_stack ds idx = Raise (NameError "path")) /\
  (forall e,
     Captions.frame_indices_of ds idx = Raise e ->
     Captions.getitem load_and_stack ds idx = Raise e) /\
  (forall l d v n,
     0 <= idx ->
     Captions.data ds !! Z.to_nat idx = Some (Some l) ->
     Captions.heap (Captions.store ds) !! l = Some d ->
     d !! "video_id"%string = Some v ->
     d !! "num_frames"%string = Some (Captions.VNum (PyInt n)) ->
     Captions.temporal_transform ds = None ->
     Captions.getitem load_and_stack ds idx = Raise (NameError "path")).
Proof.
  assert (Hreach : forall frame_indices,
             Captions.frame_indices_of ds idx = Ok frame_indices ->
             Captions.getitem load_and_stack ds idx = Raise (NameError "path")).
  { intros frame_indices H. unfold Captions.getitem.
    rewrite H. cbn [bind]. by rewrite path_is_undefined. }
  assert (Hearly : forall e,
             Captions.frame_indices_of ds idx = Raise e ->
             Captions.getitem load_and_stack ds idx = Raise e).
  { intros e H. unfold Captions.getitem. by rewrite H. }
  split; [|split; [done|split; [done|]]].
  - intros r Hr.
    destruct (Captions.frame_indices_of ds idx) as [fi|e] eqn:Hfi.
    + rewrite (Hreach fi eq_refl) in Hr. discriminate.
    + rewrite (Hearly e eq_refl) in Hr. discriminate.
  - intros l d v n Hidx Hslot Hheap Hid Hnum Htt.
    apply (Hreach (range 0 n)).
    unfold Captions.frame_indices_of, Captions.slot_field.
    assert (Hix : index (Captions.data ds) idx = Ok (Some l)).
    { destruct (index_in_range (Captions.data ds) idx) as (x & Hx & Hl).
      - apply lookup_lt_Some in Hslot. lia.
      - rewrite Hx. congruence. }
    rewrite Hix. cbn [bind]. unfold Captions.getfield.
    rewrite Hheap, Hid, Hnum. cbn [bind Captions.as_int]. by rewrite Htt.
Qed.

Lemma getitem_never_returns_witness :
  Captions.frame_indices_of one_video_dataset 0 = Ok [0; 1; 2] /\
  Captions.getitem loads_fine one_video_dataset 0 = Raise (NameError "path").
Proof.
  assert (H : Captions.frame_indices_of one_video_dataset 0 = Ok [0; 1; 2])
    by (vm_compute; reflexivity).
  split; [exact H|].
  exact (proj1 (proj2 (getitem_never_returns loads_fine one_video_dataset 0))
               _ H).
Defined.

(* ===================================================================== *)
(** * Further properties of the modelled code                             *)
(* ===================================================================== *)

(* --------------------------------------------------------------------- *)
(** ** [id_loader] without the distinctness assumption                    *)
(* --------------------------------------------------------------------- *)

Lemma fill_keys_present (l : list string) (s : nat) (d : gmap string nat) k :
  k ∈ l -> is_Some (fill_keys d (combine (seq s (length l)) l) !! k).
Proof.
  revert s d. induction l as [|x l IH]; intros s d Hk.
  - by apply elem_of_nil in Hk.
  - simpl. destruct (decide (k ∈ l)) as [Hin|Hout]; [by apply IH|].
    apply elem_of_cons in Hk as [->|Hk]; [|done].
    rewrite fill_absent by done. rewrite lookup_insert_eq. by eexists.
Qed.

Lemma fill_keys_origin (l : list string) (s : nat) (d : gmap string nat) k i :
  fill_keys d (combine (seq s (length l)) l) !! k = Some i ->
  (d !! k = Some i /\ k ∉ l)
  \/ (exists j, l !! j = Some k /\ i = (s + j)%nat /\
                forall j', l !! j' = Some k -> (j' <= j)%nat).
Proof.
  revert s d. induction l as [|x l IH]; intros s d H.
  - left. split; [done|]. apply not_elem_of_nil.
  - simpl in H. apply IH in H as [[Hd Hout]|(j & Hj & -> & Hmax)].
    + destruct (decide (x = k)) as [->|Hne].
      * rewrite lookup_insert_eq in Hd. injection Hd as <-.
        right. exists 0%nat. split; [done|]. split; [lia|].
        intros [|j'] Hj'; [lia|]. simpl in Hj'.
        by apply list_elem_of_lookup_2 in Hj'.
      * rewrite lookup_insert_ne in Hd by done. left. split; [done|].
        by apply not_elem_of_cons.
    + right. exists (S j). split; [done|]. split; [lia|].
      intros [|j'] Hj'; [lia|]. simpl in Hj'. apply Hmax in Hj'. lia.
Qed.

(** Whatever the ids, also with repetitions: a key is in the dictionary
    exactly when it occurs in the list, and the dictionary sends it to
    the last position at which it occurs, so reading the list at the
    stored position gives the key back. *)
Theorem id_loader_right_inverse (ids : list string) :
  let '(id2key, key2id) := Captions.id_loader ids in
  (forall k, k ∈ id2key <-> is_Some (key2id !! k)) /\
  forall k (i : nat),
    key2id !! k = Some i ->
    id2key !! i = Some k /\
    forall j : nat, id2key !! j = Some k -> (j <= i)%nat.
Proof.
  unfold Captions.id_loader, enumerate.
  fold (fill_keys ∅ (combine (seq 0 (length (List.map (str_drop 2) ids)))
                             (List.map (str_drop 2) ids))).
  set (keys := List.map (str_drop 2) ids).
  split.
  - intros k. split; [apply fill_keys_present|].
    intros [i Hi]. apply fill_keys_origin in Hi as [[Hd _]|(j & Hj & _)].
    + by rewrite lookup_empty in Hd.
    + by apply list_elem_of_lookup_2 in Hj.
  - intros k i Hi. apply fill_keys_origin in Hi as [[Hd _]|(j & Hj & -> & Hmax)].
    + by rewrite lookup_empty in Hd.
    + done.
Qed.

Lemma id_loader_right_inverse_witness :
  let '(id2key, key2id) := Captions.id_loader ["v_a"; "v_b"; "x_a"]%string in
  key2id !! "a"%string = Some 2%nat /\ id2key !! 2%nat = Some "a"%string.
Proof.
  pose proof (id_loader_right_inverse ["v_a"; "v_b"; "x_a"]%string) as H.
  destruct (Captions.id_loader ["v_a"; "v_b"; "x_a"]%string)
    as [id2key key2id] eqn:Hload.
  assert (Hk : key2id !! "a"%string = Some 2%nat).
  { injection Hload as <- <-. vm_compute. reflexivity. }
  split; [exact Hk|]. exact (proj1 (proj2 H _ _ Hk)).
Defined.

Lemma str_drop_prefix (k : string) : str_drop 2 ("v_" +:+ k) = k.
Proof. reflexivity. Qed.

(** Ids written as "v_" followed by pairwise distinct keys are read
    back as those keys, and the dictionary holds a key at a position
    exactly when the list does. *)
Theorem id_loader_prefixed_keys (keys : list string) :
  NoDup keys ->
  let '(id2key, key2id) :=
    Captions.id_loader (List.map (String.append "v_") keys) in
  id2key = keys /\
  forall k (i : nat), key2id !! k = Some i <-> keys !! i = Some k.
Proof.
  intros Hnd. unfold Captions.id_loader, enumerate.
  rewrite map_map.
  rewrite (map_ext _ (fun k => k) str_drop_prefix), map_id.
  split; [done|]. intros k i.
  fold (fill_keys ∅ (combine (seq 0 (length keys)) keys)). split.
  - intros Hi. apply fill_keys_origin in Hi as [[Hd _]|(j & Hj & -> & _)];
      [by rewrite lookup_empty in Hd|done].
  - intros Hi. by apply (fill_lookup keys 0 ∅ i k Hnd).
Qed.

Lemma id_loader_prefixed_keys_witness :
  NoDup ["abc"; "xyz"]%string /\
  (Captions.id_loader (List.map (String.append "v_") ["abc"; "xyz"]%string)).1
    = ["abc"; "xyz"]%string.
Proof.
  assert (Hnd : NoDup ["abc"; "xyz"]%string).
  { apply NoDup_cons. split; [|apply NoDup_singleton].
    intros H. apply list_elem_of_singleton in H. discriminate H. }
  split; [exact Hnd|].
  pose proof (id_loader_prefixed_keys _ Hnd) as H.
  destruct (Captions.id_loader _) as [id2key key2id].
  exact (proj1 H).
Defined.

(* --------------------------------------------------------------------- *)
(** ** Short clips                                                        *)
(* --------------------------------------------------------------------- *)

Lemma present_prefix_length (present : Z -> bool) (l : list Z) :
  (length (Spec.present_prefix present l) <= length l)%nat.
Proof.
  induction l as [|i l IH]; simpl; [lia|].
  destruct (present i); simpl; lia.
Qed.

Lemma present_prefix_full (present : Z -> bool) (l : list Z) :
  length (Spec.present_prefix present l) = length l
  <-> Forall (fun i => present i = true) l.
Proof.
  induction l as [|i l IH]; simpl.
  - split; [constructor|done].
  - destruct (present i) eqn:Hi; simpl.
    + rewrite Forall_cons. split.
      * intros [= H]. split; [done|]. by apply IH.
      * intros [_ H]. f_equal. by apply IH.
    + split; [discriminate|]. intros [H _]%Forall_cons. congruence.
Qed.

Lemma present_prefix_next (present : Z -> bool) (l : list Z) (i : Z) :
  l !! length (Spec.present_prefix present l) = Some i -> present i = false.
Proof.
  induction l as [|j l IH]; simpl; [done|].
  destruct (present j) eqn:Hj; simpl; [done|]. by intros [= <-].
Qed.

Lemma train_video_loader_printed {Image : Type} (image_loader : string -> Image)
    (fs : gset string) (dir : string) (l : list Z) (video : list Image) :
  (Train.video_loader_from image_loader fs dir l video).1 =
    match l !! length (Spec.present_prefix
                         (fun i => path_exists fs (Train.frame_file dir i)) l) with
    | Some i => [Train.frame_file dir i +:+ " " +:+ " does not exist!!!"]
    | None => []
    end.
Proof.
  revert video. induction l as [|i l IH]; intros video; simpl; [done|].
  destruct (path_exists fs _) eqn:Hi; simpl; [apply IH|done].
Qed.

(** The train loader returns as many images as it was given indices
    exactly when every frame file exists; otherwise the index at which
    it stopped is that of a missing file, and the one line it prints
    names that file.  The loader of the captions variant stops the same
    way. *)
Theorem video_loader_short_iff_missing {Image : Type}
    (image_loader : string -> Image) (fs : gset string) (dir : string)
    (frame_indices : list Z) :
  let '(printed, video) :=
    Train.video_loader image_loader fs dir frame_indices in
  let video' := Captions.video_loader image_loader fs dir frame_indices in
  (length video <= length frame_indices)%nat /\
  (length video = length frame_indices <->
   Forall (fun i => path_exists fs (Train.frame_file dir i) = true)
          frame_indices) /\
  match frame_indices !! length video with
  | Some i =>
      path_exists fs (Train.frame_file dir i) = false /\
      printed = [Train.frame_file dir i +:+ " " +:+ " does not exist!!!"]
  | None => printed = []
  end /\
  (length video' <= length frame_indices)%nat /\
  (length video' = length frame_indices <->
   Forall (fun i => path_exists fs (Captions.frame_file dir i) = true)
          frame_indices) /\
  forall i, frame_indices !! length video' = Some i ->
            path_exists fs (Captions.frame_file dir i) = false.
Proof.
  pose proof (train_video_loader_from image_loader fs dir frame_indices [])
    as Hv.
  pose proof (train_video_loader_printed image_loader fs dir frame_indices [])
    as Hp.
  unfold Train.video_loader.
  destruct (Train.video_loader_from _ _ _ _ _) as [printed video].
  simpl in Hv, Hp. subst video printed. cbv zeta.
  unfold Captions.video_loader. rewrite captions_video_loader_from. simpl.
  rewrite !length_map.
  split; [apply present_prefix_length|].
  split; [apply present_prefix_full|].
  split.
  { destruct (frame_indices !! _) as [i|] eqn:Hi; [|done].
    split; [|done]. by apply present_prefix_next in Hi. }
  split; [apply present_prefix_length|].
  split; [apply present_prefix_full|].
  intros i Hi. by apply present_prefix_next in Hi.
Qed.

Lemma video_loader_short_iff_missing_witness :
  Train.video_loader (fun p => p) demo_fs_two_frames "clips/v7" [1; 2; 3; 4]
  = (["clips/v7/image_00003.jpg  does not exist!!!"%string],
     ["clips/v7/image_00001.jpg"; "clips/v7/image_00002.jpg"]%string).
Proof.
  pose proof (video_loader_short_iff_missing (fun p : string => p)
                demo_fs_two_frames "clips/v7" [1; 2; 3; 4]) as H.
  destruct (Train.video_loader _ _ _ _) as [printed video] eqn:Hrun.
  assert (Hvideo : video = ["clips/v7/image_00001.jpg";
                            "clips/v7/image_00002.jpg"]%string).
  { vm_compute in Hrun. by injection Hrun as _ <-. }
  subst video. destruct H as (_ & _ & H & _). simpl in H.
  destruct H as [_ ->]. reflexivity.
Defined.

(* --------------------------------------------------------------------- *)
(** ** More on the candidate lists and on [__getitem__]                   *)
(* --------------------------------------------------------------------- *)

Lemma combine_lookup {A B} (l : list A) (k : list B) (i : nat) a b :
  combine l k !! i = Some (a, b) -> l !! i = Some a /\ k !! i = Some b.
Proof.
  revert k i. induction l as [|x l IH]; intros [|y k] [|i] H;
    simpl in *; try done.
  - by injection H as -> ->.
  - by apply IH.
Qed.

Lemma candidates_segments (n : Z) (r : Train.VideoRecord) :
  exists segs,
    Train.candidates n r =
      (List.map fst segs, List.map snd segs,
       List.map Spec.segment_range segs) /\
    forall seg, seg ∈ segs ->
      Spec.valid_segment seg = true /\
      exists k : nat,
        combine (Train.sentences r) (Train.timestamps r) !! k = Some seg /\
        (0 <= n -> Z.of_nat k < n).
Proof.
  unfold Train.candidates. destruct (Z.lt_ge_cases n 0) as [Hn|Hn].
  - rewrite collect_unbounded by lia. eexists. split; [done|].
    intros seg Hseg. apply list_elem_of_In, filter_In in Hseg as [Hseg Hv].
    split; [done|]. apply list_elem_of_In, list_elem_of_lookup in Hseg as [k Hk].
    exists k. split; [done|lia].
  - rewrite collect_spec by lia. rewrite Z.sub_0_r. eexists. split; [done|].
    intros seg Hseg. apply list_elem_of_In, filter_In in Hseg as [Hseg Hv].
    split; [done|].
    apply list_elem_of_In, elem_of_take in Hseg as (k & Hk & Hlt).
    exists k. split; [done|lia].
Qed.

(** The candidate lists have one common length, at most the number of
    sentences, of timestamps and (when it is not negative) [n_actions];
    and every frame-index range is non-empty: it holds end minus start
    indices, the first of which is the start frame. *)
Theorem candidates_bounds (n : Z) (r : Train.VideoRecord) :
  let '(sentences, timestamps, fidlist) := Train.candidates n r in
  length sentences = length timestamps /\
  length timestamps = length fidlist /\
  (length sentences <= length (Train.sentences r))%nat /\
  (length sentences <= length (Train.timestamps r))%nat /\
  (0 <= n -> Z.of_nat (length sentences) <= n) /\
  Forall2 (fun t frames =>
             0 < t.2 - t.1 /\
             Z.of_nat (length frames) = t.2 - t.1 /\
             frames !! 0%nat = Some t.1)
          timestamps fidlist.
Proof.
  unfold Train.candidates.
  assert (Hlen : forall segs : list (string * (Z * Z)),
             (length (List.filter Spec.valid_segment segs) <= length segs)%nat).
  { intros segs. induction segs as [|x segs IH]; simpl; [lia|].
    destruct (Spec.valid_segment x); simpl; lia. }
  assert (Hranges : forall segs : list (string * (Z * Z)),
             Forall2 (fun t frames =>
                        0 < t.2 - t.1 /\
                        Z.of_nat (length frames) = t.2 - t.1 /\
                        frames !! 0%nat = Some t.1)
                     (List.map snd (List.filter Spec.valid_segment segs))
                     (List.map Spec.segment_range
                               (List.filter Spec.valid_segment segs))).
  { intros segs. induction segs as [|[s t] segs IH]; simpl; [constructor|].
    destruct (Spec.valid_segment (s, t)) eqn:Hv; [|done]. simpl.
    constructor; [|done]. unfold Spec.valid_segment in Hv. simpl in Hv.
    apply Z.ltb_lt in Hv. unfold Spec.segment_range. simpl.
    split; [lia|]. split; [rewrite range_length; lia|].
    rewrite range_lookup by lia. f_equal. lia. }
  pose proof (length_combine (Train.sentences r) (Train.timestamps r)) as Hc.
  destruct (Z.lt_ge_cases n 0) as [Hn|Hn].
  - rewrite collect_unbounded by lia. simpl. rewrite !length_map.
    pose proof (Hlen (combine (Train.sentences r) (Train.timestamps r))).
    repeat split; try done; try lia; apply Hranges.
  - rewrite collect_spec by lia. rewrite Z.sub_0_r. simpl. rewrite !length_map.
    pose proof (Hlen (take (Z.to_nat n)
                           (combine (Train.sentences r) (Train.timestamps r)))) as H.
    rewrite length_take in H.
    repeat split; try done; try lia; apply Hranges.
Qed.

Lemma candidates_bounds_witness :
  0 <= 2 /\ Z.of_nat (length (Train.candidates 2 demo_record).1.1) <= 2.
Proof.
  assert (H0 : 0 <= 2) by lia. split; [exact H0|].
  pose proof (candidates_bounds 2 demo_record) as H.
  destruct (Train.candidates 2 demo_record) as [[ss ts] fl].
  exact (proj1 (proj2 (proj2 (proj2 (proj2 H)))) H0).
Defined.

Lemma index_out_of_range {A} (l : list A) (i : Z) :
  i < - Z.of_nat (length l) \/ Z.of_nat (length l) <= i ->
  index l i = Raise IndexError.
Proof.
  intros Hi. unfold index.
  destruct (Z.ltb_spec i 0).
  - destruct (Z.leb_spec 0 (i + Z.of_nat (length l))); [lia|done].
  - destruct (Z.leb_spec 0 i); [|lia].
    destruct (Z.ltb_spec i (Z.of_nat (length l))); [lia|done].
Qed.

Lemma index_negative {A} (l : list A) (i : Z) :
  - Z.of_nat (length l) <= i < 0 -> index l i = index l (i + Z.of_nat (length l)).
Proof.
  intros Hi. unfold index.
  destruct (Z.ltb_spec i 0); [|lia].
  destruct (Z.ltb_spec (i + Z.of_nat (length l)) 0); [lia|]. done.
Qed.

(** An index outside [-len, len) ends [__getitem__] with [IndexError]
    before anything is drawn or printed; an index in [-len, 0) selects
    the same record as that index plus [len]. *)
Theorem getitem_index_range {Image : Type} (image_loader : string -> Image)
    (ds : Train.Dataset) (fs : gset string) (idx : Z)
    (oracle : list Train.Entropy) :
  let len := Z.of_nat (length (Train.data ds)) in
  (idx < - len \/ len <= idx ->
   Train.getitem image_loader ds fs idx oracle = ([], Train.Raised IndexError)) /\
  (- len <= idx < 0 ->
   Train.getitem image_loader ds fs idx oracle
   = Train.getitem image_loader ds fs (idx + len) oracle).
Proof.
  cbv zeta. split; intros Hi; unfold Train.getitem.
  - by rewrite index_out_of_range.
  - by rewrite index_negative.
Qed.

Lemma getitem_index_range_witness :
  (-1 < - 1 \/ 1 <= 1) /\
  Train.getitem (fun p => p) demo_dataset demo_fs 1 demo_oracle
    = ([], Train.Raised IndexError) /\
  Train.getitem (fun p => p) demo_dataset demo_fs (-1) demo_oracle
    = Train.getitem (fun p => p) demo_dataset demo_fs 0 demo_oracle.
Proof.
  assert (H : 1 < - Z.of_nat (length (Train.data demo_dataset))
              \/ Z.of_nat (length (Train.data demo_dataset)) <= 1)
    by (right; simpl; lia).
  split; [right; lia|]. split.
  - exact (proj1 (getitem_index_range (fun p : string => p) demo_dataset
                    demo_fs 1 demo_oracle) H).
  - apply (proj2 (getitem_index_range (fun p : string => p) demo_dataset
                    demo_fs (-1) demo_oracle)).
    simpl. lia.
Defined.

Section getitem_facts.

Context {Image : Type} (image_loader : string -> Image).

Lemma sample_loop_done ds fs r sa ta fa oracle printed s :
  Train.sample_loop image_loader ds fs r sa ta fa oracle
    = (printed, Train.Returned s) ->
  exists e printed',
    e ∈ oracle /\
    Train.pass image_loader ds fs r sa ta fa e = Train.Done printed' s.
Proof.
  revert printed. induction oracle as [|e oracle IH]; intros printed H;
    [discriminate|].
  simpl in H.
  destruct (Train.pass _ _ _ _ _ _ _ e) as [x|out|out s'] eqn:Hpass.
  - discriminate.
  - destruct (Train.sample_loop _ _ _ _ _ _ _ _) as [out' res].
    injection H as _ ->.
    destruct (IH _ eq_refl) as (e' & p' & He' & Hp').
    exists e', p'. split; [by right|done].
  - injection H as _ <-. exists e, out. split; [by left|done].
Qed.

Lemma choose_ok sa ta fa e sentence timestamp frames :
  Train.choose sa ta fa e = Ok (sentence, timestamp, frames) ->
  length sa = length ta -> length ta = length fa ->
  exists j : nat,
    sa !! j = Some sentence /\ ta !! j = Some timestamp /\
    fa !! j = Some frames.
Proof.
  unfold Train.choose. intros H Hst Htf.
  destruct (Train.randint _ _ _) as [a|]; [|discriminate]. cbn [bind] in H.
  destruct (index sa a) as [s|] eqn:Hs; [|discriminate]. cbn [bind] in H.
  destruct (index ta a) as [t|] eqn:Ht; [|discriminate]. cbn [bind] in H.
  destruct (index fa a) as [f|] eqn:Hf; [|discriminate]. cbn [bind] in H.
  injection H as -> -> ->.
  apply index_ok_lookup in Hs as (j & Hj & Hjz).
  apply index_ok_lookup in Ht as (j' & Hj' & Hjz').
  apply index_ok_lookup in Hf as (j'' & Hj'' & Hjz'').
  rewrite <- Hst in Hjz'. rewrite <- Htf, <- Hst in Hjz''.
  assert (j' = j) as -> by lia. assert (j'' = j) as -> by lia.
  by exists j.
Qed.

Lemma pass_done_fields ds fs r sa ta fa e printed s :
  Train.pass image_loader ds fs r sa ta fa e = Train.Done printed s ->
  Train.s_id s = Train.id r /\ Train.s_duration s = Train.duration r /\
  Train.s_fps s = Train.fps r /\
  exists frames,
    Train.choose sa ta fa e
      = Ok (Train.s_sentence s, Train.s_timestamp s, frames).
Proof.
  unfold Train.pass.
  destruct (Train.choose sa ta fa e) as [[[sentence timestamp] frames]|];
    [|discriminate].
  destruct (Train.video_loader _ _ _ _) as [out clip].
  destruct (Train.assemble _ _) as [t|]; [|discriminate].
  intros [= _ <-]. simpl. eauto.
Qed.

(** Without a spatial transform the clip is a list of decoded images,
    which [torch.stack] refuses. *)
Lemma assemble_pictures ds (imgs : list Image) :
  exists x, Train.assemble ds (List.map Pic imgs) = Raise x.
Proof.
  unfold Train.assemble, stack. destruct imgs as [|img imgs]; simpl; eauto.
Qed.

Lemma pass_without_spatial ds fs r sa ta fa e printed s :
  Train.spatial_transform ds = None ->
  Train.pass image_loader ds fs r sa ta fa e <> Train.Done printed s.
Proof.
  intros Hnone. unfold Train.pass.
  destruct (Train.choose sa ta fa e) as [[[sentence timestamp] frames]|];
    [|discriminate].
  destruct (Train.video_loader _ _ _ _) as [out clip].
  unfold Train.transformed_clip. rewrite Hnone.
  destruct (assemble_pictures ds clip) as [x ->]. discriminate.
Qed.

End getitem_facts.

(** A returned sample carries the id, duration and frame rate of the
    record at the index, and its sentence and timestamp are the ones the
    record holds at one and the same position, which lies among the
    first [n_actions] (when that is not negative) and where the start
    frame is below the end frame. *)
Theorem getitem_sample_fields {Image : Type} (image_loader : string -> Image)
    (ds : Train.Dataset) (fs : gset string) (idx : Z)
    (oracle : list Train.Entropy) (printed : list string) (s : Train.Sample) :
  Train.getitem image_loader ds fs idx oracle = (printed, Train.Returned s) ->
  exists r (k : nat),
    index (Train.data ds) idx = Ok r /\
    Train.s_id s = Train.id r /\
    Train.s_duration s = Train.duration r /\
    Train.s_fps s = Train.fps r /\
    Train.sentences r !! k = Some (Train.s_sentence s) /\
    Train.timestamps r !! k = Some (Train.s_timestamp s) /\
    (Train.s_timestamp s).1 < (Train.s_timestamp s).2 /\
    (0 <= Train.n_actions ds -> Z.of_nat k < Train.n_actions ds).
Proof.
  unfold Train.getitem.
  destruct (index (Train.data ds) idx) as [r|] eqn:Hr; [|discriminate].
  destruct (candidates_segments (Train.n_actions ds) r) as (segs & Hc & Hsegs).
  rewrite Hc. intros H.
  apply sample_loop_done in H as (e & printed' & _ & Hpass).
  apply pass_done_fields in Hpass as (Hid & Hdur & Hfps & frames & Hch).
  apply choose_ok in Hch as (j & Hs & Ht & _); [|by rewrite !length_map..].
  change (List.map ?f ?l) with (f <$> l) in Hs.
  change (List.map ?f ?l) with (f <$> l) in Ht.
  rewrite list_lookup_fmap in Hs. rewrite list_lookup_fmap in Ht.
  destruct (segs !! j) as [[s' t']|] eqn:Hj; [|discriminate].
  simpl in Hs, Ht. injection Hs as ->. injection Ht as ->.
  apply list_elem_of_lookup_2, Hsegs in Hj as (Hv & k & Hk & Hn).
  apply combine_lookup in Hk as [Hks Hkt].
  exists r, k. repeat split; try done.
  unfold Spec.valid_segment in Hv. by apply Z.ltb_lt in Hv.
Qed.

Lemma getitem_sample_fields_witness :
  exists printed s,
    Train.getitem (fun p => p) demo_dataset demo_fs 0 demo_oracle
      = (printed, Train.Returned s) /\
    Train.s_id s = "v1"%string /\
    (Train.s_timestamp s).1 < (Train.s_timestamp s).2.
Proof.
  destruct (Train.getitem (fun p => p) demo_dataset demo_fs 0 demo_oracle)
    as [printed [s| |]] eqn:Hrun; try (vm_compute in Hrun; discriminate Hrun).
  exists printed, s. split; [reflexivity|].
  destruct (getitem_sample_fields _ _ _ _ _ _ _ Hrun)
    as (r & k & Hr & Hid & _ & _ & _ & _ & Hlt & _).
  split; [|exact Hlt].
  rewrite Hid. vm_compute in Hr. by injection Hr as <-.
Defined.

(** With no spatial transform configured, which is the default, no pass
    ever gets through [torch.stack]: the call never returns a sample,
    and at an index with candidates it is still retrying however much
    randomness it is given. *)
Theorem getitem_without_spatial_transform {Image : Type}
    (image_loader : string -> Image) (ds : Train.Dataset) (fs : gset string)
    (idx : Z) :
  Train.spatial_transform ds = None ->
  (forall oracle printed s,
     Train.getitem image_loader ds fs idx oracle <> (printed, Train.Returned s)) /\
  (forall r,
     index (Train.data ds) idx = Ok r ->
     (Train.candidates (Train.n_actions ds) r).1.1 <> [] ->
     forall oracle,
       (Train.getitem image_loader ds fs idx oracle).2 = Train.Retrying /\
       (3 * length oracle
        <= length (Train.getitem image_loader ds fs idx oracle).1)%nat).
Proof.
  intros Hnone. split.
  - intros oracle printed s H. unfold Train.getitem in H.
    destruct (index (Train.data ds) idx) as [r|]; [|discriminate].
    destruct (Train.candidates _ r) as [[sa ta] fa].
    apply sample_loop_done in H as (e & p & _ & Hp).
    by apply pass_without_spatial in Hp.
  - intros r Hr Hne oracle. unfold Train.getitem. rewrite Hr.
    destruct (Train.candidates _ r) as [[sa ta] fa] eqn:Hc. simpl in Hne.
    destruct (candidates_lengths _ _ _ _ _ Hc) as [Hst Htf].
    induction oracle as [|e oracle [IH1 IH2]]; [split; [done|simpl; lia]|].
    cbn [Train.sample_loop].
    destruct (choose_nonempty sa ta fa e Hne Hst Htf)
      as (k & sentence & timestamp & frames & _ & _ & _ & Hch).
    unfold Train.pass. rewrite Hch.
    destruct (Train.video_loader _ _ _ _) as [out clip].
    unfold Train.transformed_clip. rewrite Hnone.
    destruct (assemble_pictures ds clip) as [x ->].
    destruct (Train.sample_loop _ _ _ _ _ _ _ _) as [out' res].
    simpl in *. split; [done|]. rewrite !length_app. simpl. lia.
Qed.

Lemma getitem_without_spatial_transform_witness :
  Train.spatial_transform demo_dataset_plain = None /\
  (exists r, index (Train.data demo_dataset_plain) 0 = Ok r /\
     (Train.candidates (Train.n_actions demo_dataset_plain) r).1.1 <> []) /\
  (forall printed s,
     Train.getitem (fun p => p) demo_dataset_plain demo_fs 0 demo_oracle
     <> (printed, Train.Returned s)) /\
  (Train.getitem (fun p => p) demo_dataset_plain demo_fs 0 demo_oracle).2
    = Train.Retrying /\
  (3 * length demo_oracle
   <= length (Train.getitem (fun p => p) demo_dataset_plain demo_fs 0
                demo_oracle).1)%nat.
Proof.
  destruct (getitem_without_spatial_transform (fun p : string => p)
              demo_dataset_plain demo_fs 0 eq_refl) as [Hnever Hretry].
  assert (Hidx : index (Train.data demo_dataset_plain) 0
                 = Ok {| Train.id := "v1"; Train.duration := 40;
                         Train.sentences := ["x"; "y"]%string;
                         Train.timestamps := [(10, 30); (39, 45)];
                         Train.fps := PyFloat 5 |})
    by reflexivity.
  assert (Hcand : (Train.candidates (Train.n_actions demo_dataset_plain)
                     {| Train.id := "v1"; Train.duration := 40;
                        Train.sentences := ["x"; "y"]%string;
                        Train.timestamps := [(10, 30); (39, 45)];
                        Train.fps := PyFloat 5 |}).1.1 <> [])
    by (vm_compute; discriminate).
  split; [reflexivity|]. split; [eauto|]. split; [exact (Hnever demo_oracle)|].
  exact (Hretry _ Hidx Hcand demo_oracle).
Defined.

Lemma present_prefix_all (present : Z -> bool) (l : list Z) :
  Forall (fun i => present i = true) l -> Spec.present_prefix present l = l.
Proof.
  induction 1 as [|i l Hi _ IH]; simpl; [done|]. by rewrite Hi, IH.
Qed.

Lemma mapM_as_tensor_uniform {Image : Type} (clip : list (Frame Image))
    (shape : list nat) :
  Forall (fun f => exists t, f = Ten t /\ size t = shape) clip ->
  exists ts,
    mapM as_tensor clip = Ok ts /\ length ts = length clip /\
    Forall (fun t => size t = shape) ts.
Proof.
  induction 1 as [|f clip (t & -> & Ht) _ (ts & Hts & Hlen & Hall)].
  - exists []. by repeat split.
  - exists (t :: ts). simpl. rewrite Hts. simpl.
    split; [done|]. split; [by rewrite Hlen|by constructor].
Qed.

(** A non-empty clip of three-dimensional tensors of one common size,
    as many as [sample_duration], gets through lines 159-160. *)
Lemma assemble_uniform {Image : Type} (ds : Train.Dataset)
    (clip : list (Frame Image)) (c h w : nat) :
  Forall (fun f => exists t, f = Ten t /\ size t = [c; h; w]) clip ->
  clip <> [] ->
  Z.of_nat (length clip) = Train.sample_duration ds ->
  exists t,
    Train.assemble ds clip = Ok t /\ size t = [c; length clip; h; w].
Proof.
  intros Hall Hne Hlen.
  apply mapM_as_tensor_uniform in Hall as (ts & Hts & Hl & Hsz).
  unfold Train.assemble, stack. rewrite Hts. cbn [bind].
  destruct ts as [|t0 rest]; [by destruct clip|].
  apply Forall_cons in Hsz as [Ht0 Hrest].
  assert (Hsame : forallb (fun t => bool_decide (size t = size t0)) rest = true).
  { apply forallb_forall. intros t Ht. apply bool_decide_eq_true.
    rewrite Forall_forall in Hrest. rewrite Ht0.
    apply Hrest. by apply list_elem_of_In. }
  rewrite Hsame. cbn [bind].
  assert (Hstacked : size (Stack (t0 :: rest)) = [length clip; c; h; w]).
  { rewrite <- Hl. simpl. by rewrite Ht0. }
  unfold permute. rewrite Hstacked.
  change (bool_decide (length [1; 0; 2; 3]%nat = length [length clip; c; h; w])
          && forallb (fun d => bool_decide (d ∈ [1; 0; 2; 3]%nat))
                     (seq 0 (length [1; 0; 2; 3]%nat)))
    with true.
  cbn [bind].
  assert (Hperm : size (Permute [1; 0; 2; 3]%nat (Stack (t0 :: rest)))
                  = [c; length clip; h; w]).
  { change (size (Permute [1; 0; 2; 3]%nat (Stack (t0 :: rest))))
      with (List.map (fun d => nth d (size (Stack (t0 :: rest))) 0%nat)
                     [1; 0; 2; 3]%nat).
    by rewrite Hstacked. }
  unfold size_at. rewrite Hperm.
  change ([c; length clip; h; w] !! 1%nat) with (Some (length clip)).
  cbn [bind]. rewrite Hlen, Z.eqb_refl. eauto.
Qed.

(** A pass returns at once when things are in order: a spatial
    transform that yields three-dimensional tensors of one size, a
    positive [sample_duration], and for every candidate a transformed
    index list of that length whose frame files all exist.  Nothing is
    printed, and the clip has size (C, [sample_duration], H, W). *)
Theorem getitem_returns_when_frames_present {Image : Type}
    (image_loader : string -> Image) (ds : Train.Dataset) (fs : gset string)
    (idx : Z) (r : Train.VideoRecord)
    (transform : nat -> Image -> Frame Image) (c h w : nat)
    (e : Train.Entropy) (oracle : list Train.Entropy) :
  index (Train.data ds) idx = Ok r ->
  (Train.candidates (Train.n_actions ds) r).1.1 <> [] ->
  0 < Train.sample_duration ds ->
  Train.spatial_transform ds = Some transform ->
  (forall img, exists t,
      transform (Train.rnd_spatial e) img = Ten t /\ size t = [c; h; w]) ->
  (forall frames,
     frames ∈ (Train.candidates (Train.n_actions ds) r).2 ->
     let frame_indices := Train.transformed_indices ds e frames in
     Z.of_nat (length frame_indices) = Train.sample_duration ds /\
     Forall (fun i =>
               path_exists fs
                 (Train.frame_file (path_join (Train.frm_path ds) (Train.id r)) i)
               = true)
            frame_indices) ->
  exists s,
    Train.getitem image_loader ds fs idx (e :: oracle) = ([], Train.Returned s) /\
    size (Train.s_clip s) = [c; Z.to_nat (Train.sample_duration ds); h; w].
Proof.
  intros Hr Hne Hpos Hsp Htr Hframes.
  unfold Train.getitem. rewrite Hr.
  destruct (Train.candidates _ r) as [[sa ta] fa] eqn:Hc. simpl in Hne, Hframes.
  destruct (candidates_lengths _ _ _ _ _ Hc) as [Hst Htf].
  destruct (choose_nonempty sa ta fa e Hne Hst Htf)
    as (k & sentence & timestamp & frames & _ & _ & Hf & Hch).
  apply list_elem_of_lookup_2, Hframes in Hf as [Hlen Hall]. cbv zeta in *.
  cbn [Train.sample_loop]. unfold Train.pass. rewrite Hch.
  set (fi := Train.transformed_indices ds e frames) in *.
  set (dir := path_join (Train.frm_path ds) (Train.id r)) in *.
  pose proof (train_video_loader_from image_loader fs dir fi []) as Hv.
  pose proof (train_video_loader_printed image_loader fs dir fi []) as Hp.
  rewrite (present_prefix_all _ _ Hall) in Hv, Hp.
  rewrite lookup_ge_None_2 in Hp by lia.
  unfold Train.video_loader.
  destruct (Train.video_loader_from _ _ _ _ _) as [printed clip].
  simpl in Hv, Hp. subst printed clip.
  unfold Train.transformed_clip. rewrite Hsp.
  destruct (assemble_uniform ds
              (List.map (transform (Train.rnd_spatial e))
                 (List.map (fun i => image_loader (Train.frame_file dir i)) fi))
              c h w) as (t & -> & Hsz).
  - apply Forall_forall. intros f Hf. apply list_elem_of_In, in_map_iff in Hf.
    destruct Hf as (img & <- & _). apply Htr.
  - destruct fi; [simpl in Hlen; lia|done].
  - by rewrite !length_map.
  - eexists. split; [done|]. simpl. rewrite Hsz, !length_map.
    by rewrite <- Hlen, Nat2Z.id.
Qed.

Lemma getitem_returns_when_frames_present_witness :
  exists s,
    Train.getitem (fun p => p) demo_dataset_inside demo_fs 0
      [{| Train.rnd_segment := 1; Train.rnd_temporal := 0;
          Train.rnd_spatial := 7 |}]
    = ([], Train.Returned s) /\
    size (Train.s_clip s) = [3; 3; 4; 4]%nat.
Proof.
  apply (getitem_returns_when_frames_present (fun p : string => p)
           demo_dataset_inside demo_fs 0 _
           (fun params img => Ten (Transformed [3; 4; 4]%nat img params))
           3 4 4 _ [] eq_refl).
  - discriminate.
  - reflexivity.
  - reflexivity.
  - intros img. eexists. split; reflexivity.
  - intros frames Hin.
    assert (Hcases : frames = range 10 30 \/ frames = range 30 40).
    { apply elem_of_cons in Hin as [->|Hin]; [by left|].
      apply list_elem_of_singleton in Hin as ->. by right. }
    destruct Hcases as [-> | ->].
    + split; [reflexivity|].
      repeat constructor; vm_compute; reflexivity.
    + split; [reflexivity|].
      repeat constructor; vm_compute; reflexivity.
Defined.

(* --------------------------------------------------------------------- *)
(** ** Which annotations become records                                   *)
(* --------------------------------------------------------------------- *)

Lemma foldM_app {A B} (f : A -> B -> res A) (l1 l2 : list B) (a : A) :
  foldM f (l1 ++ l2) a = (a' <- foldM f l1 a;; foldM f l2 a').
Proof.
  revert a. induction l1 as [|x l1 IH]; intros a; simpl; [done|].
  destruct (f a x) as [a1|]; [|done]. cbn [bind]. apply IH.
Qed.

Lemma make_record_fields fs frm_path vid obj fpsv r :
  Train.ann_fps obj = Some fpsv ->
  Train.make_record fs frm_path vid obj fpsv = Ok r ->
  record_of fs frm_path r (vid, obj).
Proof.
  intros Hfps. unfold Train.make_record, record_of.
  destruct (Train.last_frame_number _ _) as [d|]; [|discriminate]. cbn [bind].
  destruct (mapM _ _) as [ts|] eqn:Hts; [|discriminate]. cbn [bind].
  intros [= <-]. simpl. repeat split; try done.
  by apply mapM_length in Hts.
Qed.

Lemma init_data_kept_fold fs frm_path (ann : list (string * Train.Annotation)) :
  forall data0 data,
    foldM (fun data '(vid, obj) =>
             match Train.ann_fps obj with
             | None => Ok data
             | Some fpsv =>
                 if (length (Train.ann_sentences obj) <? 1)%nat then Ok data
                 else content <- Train.make_record fs frm_path vid obj fpsv;;
                      Ok (data ++ [content])
             end) ann data0 = Ok data ->
    exists recs,
      data = data0 ++ recs /\
      Forall2 (record_of fs frm_path) recs (List.filter kept_annotation ann).
Proof.
  induction ann as [|[vid obj] ann IH]; intros data0 data H.
  - simpl in H. injection H as <-. exists []. by rewrite app_nil_r.
  - simpl in H. unfold kept_annotation at 1. simpl.
    destruct (Train.ann_fps obj) as [fpsv|] eqn:Hfps; cbn [bind] in H;
      [|by apply IH].
    destruct (_ <? _)%nat; cbn [bind negb] in H |- *; [by apply IH|].
    destruct (Train.make_record _ _ _ _ _) as [r|] eqn:Hr; [|discriminate].
    cbn [bind] in H. apply IH in H as (recs & -> & Hrecs).
    exists (r :: recs). split; [by rewrite <- app_assoc|].
    constructor; [|done]. by eapply make_record_fields.
Qed.

(** When construction succeeds, the records are, in annotation order,
    those of the annotations that have a frame rate and at least one
    sentence: same id and frame rate, the sentences stripped, as many
    timestamps, and the duration read from the frame directory.  The
    others leave no record. *)
Theorem init_data_keeps_annotated (fs : gset string)
    (root_path frame_path : string) (ann : list (string * Train.Annotation))
    (data : list Train.VideoRecord) :
  Train.init_data fs root_path frame_path ann = Ok data ->
  Forall2 (record_of fs (path_join root_path frame_path)) data
          (List.filter kept_annotation ann) /\
  (length data <= length ann)%nat.
Proof.
  intros H. unfold Train.init_data in H.
  apply init_data_kept_fold in H as (recs & -> & Hrecs). simpl.
  split; [done|]. apply Forall2_length in Hrecs. rewrite Hrecs.
  clear. induction ann as [|x ann IH]; simpl; [lia|].
  destruct (kept_annotation x); simpl; lia.
Qed.

(** A kept annotation whose frame directory is missing, or holds no
    entry, stops construction: [FileNotFoundError] from [os.listdir], or
    [IndexError] from taking the last of no names. *)
Theorem init_data_needs_frames (fs : gset string)
    (root_path frame_path : string) (pre post : list (string * Train.Annotation))
    (vid : string) (obj : Train.Annotation) (data0 : list Train.VideoRecord) :
  Train.init_data fs root_path frame_path pre = Ok data0 ->
  kept_annotation (vid, obj) = true ->
  let dir := path_join (path_join root_path frame_path) vid in
  let run := Train.init_data fs root_path frame_path (pre ++ (vid, obj) :: post) in
  (path_exists fs dir = false -> run = Raise (FileNotFoundError dir)) /\
  (listdir fs dir = Ok [] -> run = Raise IndexError).
Proof.
  intros Hpre Hkept. cbv zeta. unfold Train.init_data in *.
  rewrite foldM_app, Hpre. cbn [bind foldM].
  unfold kept_annotation in Hkept. simpl in Hkept.
  destruct (Train.ann_fps obj) as [fpsv|]; [|discriminate].
  destruct (_ <? _)%nat; [discriminate|].
  unfold Train.make_record, Train.last_frame_number. split.
  - intros Hdir. unfold listdir. by rewrite Hdir.
  - intros Hdir. by rewrite Hdir.
Qed.

Lemma init_data_keeps_annotated_witness :
  exists data,
    Train.init_data demo_fs "root" "frames" demo_annotations = Ok data /\
    List.map Train.id data = ["v1"%string] /\
    Forall2 (record_of demo_fs (path_join "root" "frames")) data
            (List.filter kept_annotation demo_annotations).
Proof.
  eexists. split; [vm_compute; reflexivity|]. split; [reflexivity|].
  apply (init_data_keeps_annotated demo_fs "root" "frames" demo_annotations).
  vm_compute. reflexivity.
Defined.

Lemma init_data_needs_frames_witness :
  Train.init_data demo_fs "root" "frames"
    (demo_annotations ++ [("v9"%string, demo_annotation_v9)])
  = Raise (FileNotFoundError "root/frames/v9").
Proof.
  refine (proj1 (init_data_needs_frames demo_fs "root" "frames"
                   demo_annotations [] "v9" demo_annotation_v9 _ _ _) _).
  - vm_compute. reflexivity.
  - reflexivity.
  - vm_compute. reflexivity.
Defined.

(* --------------------------------------------------------------------- *)
(** ** [preprocess]: slots, unknown ids, shared fields                    *)
(* --------------------------------------------------------------------- *)

Lemma key2idx_get_ok key2idx k i :
  Captions.key2idx_get key2idx k = Ok i <-> key2idx !! k = Some i.
Proof.
  unfold Captions.key2idx_get. destruct (key2idx !! k); split; congruence.
Qed.

Lemma preprocess_meta_filled key2idx tmp metadata :
  forall data st data' st',
    Captions.preprocess_meta key2idx tmp metadata data st = Ok (data', st') ->
    length data' = length data /\
    forall i : nat,
      (exists l, data' !! i = Some (Some l)) <->
      (exists l, data !! i = Some (Some l))
      \/ ((i < length data)%nat /\
          exists m, m ∈ metadata /\ key2idx !! Captions.video_id m = Some i).
Proof.
  unfold Captions.preprocess_meta.
  induction metadata as [|m metadata IH]; intros data st data' st' H.
  - simpl in H. injection H as <- <-. split; [done|]. intros i. split; [auto|].
    intros [H|(_ & m & Hm & _)]; [done|]. by apply elem_of_nil in Hm.
  - simpl in H.
    destruct (Captions.key2idx_get _ _) as [idx|] eqn:Hidx; [|discriminate].
    apply key2idx_get_ok in Hidx. cbn [bind] in H.
    unfold Captions.list_set in H.
    destruct (Nat.ltb_spec idx (length data)); [|discriminate].
    cbn [bind] in H. apply IH in H as [Hlen Hfilled].
    rewrite length_insert in Hlen, Hfilled. split; [done|].
    intros i. rewrite Hfilled. split.
    + intros [[l Hl]|(Hi & m' & Hm' & Hk)].
      * destruct (decide (i = idx)) as [->|Hne].
        -- right. split; [done|]. exists m. split; [by left|done].
        -- rewrite list_lookup_insert_ne in Hl by done. left. eauto.
      * right. split; [done|]. exists m'. split; [by right|done].
    + intros [[l Hl]|(Hi & m' & Hm' & Hk)].
      * left. destruct (decide (i = idx)) as [->|Hne].
        -- exists tmp. by rewrite list_lookup_insert_eq.
        -- exists l. by rewrite list_lookup_insert_ne.
      * apply elem_of_cons in Hm' as [->|Hm'].
        -- left. assert (i = idx) as -> by congruence.
           exists tmp. by rewrite list_lookup_insert_eq.
        -- right. split; [done|]. eauto.
Qed.

(** The list [preprocess] returns has [vidnum] slots, and a slot holds
    a record exactly when some metadata entry's video id is mapped to
    its index; the other slots keep [None]. *)
Theorem preprocess_slots predata metadata (vidnum : nat) key2idx data st :
  Captions.preprocess predata metadata vidnum key2idx = Ok (data, st) ->
  length data = vidnum /\
  forall i : nat,
    (i < vidnum)%nat ->
    ((exists l, data !! i = Some (Some l)) <->
     exists m, m ∈ metadata /\ key2idx !! Captions.video_id m = Some i) /\
    (data !! i = Some None <->
     forall m, m ∈ metadata -> key2idx !! Captions.video_id m <> Some i).
Proof.
  unfold Captions.preprocess. simpl.
  destruct (Captions.preprocess_meta _ _ _ _ _) as [[d s]|] eqn:Hmeta;
    [|discriminate].
  cbn [bind].
  destruct (Captions.preprocess_pre _ _ _ _) as [s'|]; [|discriminate].
  cbn [bind]. intros [= <- <-].
  apply preprocess_meta_filled in Hmeta as [Hlen Hfilled].
  rewrite length_replicate in Hlen, Hfilled. split; [done|].
  intros i Hi.
  assert (Hiff : (exists l, d !! i = Some (Some l)) <->
                 exists m, m ∈ metadata /\ key2idx !! Captions.video_id m = Some i).
  { rewrite Hfilled. split.
    - intros [[l Hl]|[_ H]]; [|done].
      apply lookup_replicate in Hl as [Hl _]. discriminate.
    - intros H. right. by split. }
  split; [done|].
  destruct (lookup_lt_is_Some_2 d i) as [slot Hslot]; [lia|].
  rewrite Hslot. split.
  - intros [= ->] m Hm Hk.
    destruct (proj2 Hiff (ex_intro _ m (conj Hm Hk))) as [l Hl]. congruence.
  - intros Hnone. destruct slot as [l|]; [|done].
    destruct (proj1 Hiff (ex_intro _ l Hslot)) as (m & Hm & Hk).
    by destruct (Hnone m Hm).
Qed.

Lemma preprocess_slots_witness :
  exists data st,
    Captions.preprocess [] two_videos_meta 3 two_videos_keys = Ok (data, st) /\
    length data = 3%nat /\ data !! 2%nat = Some None.
Proof.
  destruct (Captions.preprocess [] two_videos_meta 3 two_videos_keys)
    as [[data st]|] eqn:Hrun; [|vm_compute in Hrun; discriminate Hrun].
  exists data, st. split; [reflexivity|].
  destruct (preprocess_slots _ _ _ _ _ _ Hrun) as [Hlen Hslots].
  split; [exact Hlen|].
  apply (Hslots 2%nat); [lia|].
  intros m Hm.
  apply elem_of_cons in Hm as [->|Hm]; [vm_compute; discriminate|].
  apply list_elem_of_singleton in Hm as ->. vm_compute. discriminate.
Defined.

Lemma preprocess_pre_known key2idx predata data :
  forall st,
    Captions.preprocess_pre key2idx predata data st
    = Captions.preprocess_pre key2idx
        (List.filter (known_annotation key2idx) predata) data st.
Proof.
  unfold Captions.preprocess_pre.
  induction predata as [|[v_id obj] predata IH]; intros st; [done|].
  simpl. unfold known_annotation at 1. simpl.
  unfold Captions.key2idx_get at 1.
  destruct (key2idx !! Captions.pre_video_id obj) as [idx|] eqn:Hk.
  - rewrite bool_decide_eq_true_2 by by eexists. simpl.
    unfold Captions.key2idx_get at 2. rewrite Hk.
    destruct (_ <- Captions.slot_field _ _ _ _;; _) as [st1|]; [|done].
    cbn [bind]. apply IH.
  - rewrite bool_decide_eq_false_2 by by intros [? ?]. cbn [bind]. apply IH.
Qed.

(** Annotations whose video id is not in the key table are skipped
    without a trace: [preprocess] gives the same result with them
    removed. *)
Theorem preprocess_skips_unknown predata metadata vidnum key2idx :
  Captions.preprocess predata metadata vidnum key2idx
  = Captions.preprocess (List.filter (known_annotation key2idx) predata)
      metadata vidnum key2idx.
Proof.
  unfold Captions.preprocess. simpl.
  destruct (Captions.preprocess_meta _ _ _ _ _) as [[d s]|]; [|done].
  cbn [bind]. by rewrite preprocess_pre_known.
Qed.

Lemma preprocess_meta_progress key2idx tmp metadata :
  forall data st,
    Forall (fun m => exists i : nat,
                key2idx !! Captions.video_id m = Some i /\
                (i < length data)%nat) metadata ->
    exists data' st',
      Captions.preprocess_meta key2idx tmp metadata data st = Ok (data', st') /\
      length data' = length data.
Proof.
  unfold Captions.preprocess_meta.
  induction metadata as [|m metadata IH]; intros data st Hall.
  - by exists data, st.
  - apply Forall_cons in Hall as [(i & Hk & Hi) Hall]. simpl.
    apply key2idx_get_ok in Hk. rewrite Hk. cbn [bind].
    unfold Captions.list_set.
    destruct (Nat.ltb_spec i (length data)); [|lia]. cbn [bind].
    edestruct IH as (data' & st' & -> & Hlen).
    + rewrite length_insert. exact Hall.
    + exists data', st'. split; [done|]. by rewrite Hlen, length_insert.
Qed.

(** Unlike an annotation, a metadata entry must be in the key table and
    inside the list: the first entry whose video id is unknown makes
    [preprocess] raise [KeyError] for that id, the first one mapped to an
    index not below [vidnum] makes it raise [IndexError]. *)
Theorem preprocess_metadata_errors predata (pre post : list Captions.MetaObj)
    (m : Captions.MetaObj) (vidnum : nat) (key2idx : gmap string nat) :
  Forall (fun m' => exists i : nat,
              key2idx !! Captions.video_id m' = Some i /\ (i < vidnum)%nat)
         pre ->
  let run := Captions.preprocess predata (pre ++ m :: post) vidnum key2idx in
  (key2idx !! Captions.video_id m = None ->
   run = Raise (KeyError (Captions.video_id m))) /\
  (forall i : nat,
     key2idx !! Captions.video_id m = Some i -> (vidnum <= i)%nat ->
     run = Raise IndexError).
Proof.
  intros Hpre. cbv zeta. unfold Captions.preprocess. simpl.
  destruct (preprocess_meta_progress key2idx 0%nat pre (replicate vidnum None)
              {| Captions.heap := {[0%nat := ∅]}; Captions.next := 1%nat |})
    as (d & s & Hd & Hlen).
  { by rewrite length_replicate. }
  rewrite length_replicate in Hlen.
  unfold Captions.preprocess_meta in *. rewrite foldM_app.
  change (<[0%nat:=∅]> ∅) with ({[0%nat := ∅]} : gmap Captions.loc (gmap string Captions.value)).
  rewrite Hd. cbn [bind foldM]. split.
  - intros Hk. unfold Captions.key2idx_get. by rewrite Hk.
  - intros i Hk Hi. unfold Captions.key2idx_get. rewrite Hk. cbn [bind].
    unfold Captions.list_set.
    destruct (Nat.ltb_spec i (length d)); [lia|]. done.
Qed.

Lemma preprocess_metadata_errors_witness :
  Captions.preprocess [] two_videos_meta 2 {[ "a"%string := 0%nat ]}
    = Raise (KeyError "b") /\
  Captions.preprocess [] two_videos_meta 1 two_videos_keys
    = Raise IndexError.
Proof.
  pose (mb := {| Captions.video_id := "b"; Captions.framerate := PyFloat 25;
                 Captions.num_frames := 50; Captions.width := 640;
                 Captions.height := 480 |}).
  assert (Hpre : forall (vidnum : nat) (keys : gmap string nat),
             keys !! "a"%string = Some 0%nat -> (0 < vidnum)%nat ->
             Forall (fun m' => exists i : nat,
                         keys !! Captions.video_id m' = Some i /\ (i < vidnum)%nat)
                    (take 1 two_videos_meta)).
  { intros vidnum keys Hk Hv. constructor; [|constructor].
    exists 0%nat. by split. }
  assert (Ha : ({[ "a"%string := 0%nat ]} : gmap string nat) !! "a"%string
               = Some 0%nat) by (vm_compute; reflexivity).
  assert (Ha' : two_videos_keys !! "a"%string = Some 0%nat)
    by (vm_compute; reflexivity).
  split.
  - refine (proj1 (preprocess_metadata_errors [] (take 1 two_videos_meta) []
                     mb 2 {[ "a"%string := 0%nat ]}
                     (Hpre 2%nat _ Ha ltac:(lia))) _).
    vm_compute. reflexivity.
  - refine (proj2 (preprocess_metadata_errors [] (take 1 two_videos_meta) []
                     mb 1 two_videos_keys
                     (Hpre 1%nat _ Ha' ltac:(lia))) 1%nat _ _).
    + vm_compute. reflexivity.
    + lia.
Defined.

Lemma getfield_setitem_ne st tmp l k k' v :
  k <> k' ->
  Captions.getfield (Captions.setitem l k' v st) tmp k
  = Captions.getfield st tmp k.
Proof.
  intros Hne. unfold Captions.getfield, Captions.setitem. simpl.
  destruct (decide (l = tmp)) as [->|Hl].
  - rewrite lookup_alter_eq.
    destruct (Captions.heap st !! tmp) as [d|]; simpl; [|done].
    by rewrite lookup_insert_ne.
  - by rewrite lookup_alter_ne.
Qed.

Lemma slot_setitem_keeps st data idx k' v st' tmp k :
  k <> k' ->
  Captions.slot_setitem st data idx k' v = Ok st' ->
  Captions.getfield st' tmp k = Captions.getfield st tmp k.
Proof.
  intros Hne. unfold Captions.slot_setitem.
  destruct (index data idx) as [[l|]|]; cbn [bind]; try discriminate.
  intros [= <-]. by apply getfield_setitem_ne.
Qed.

(** The second loop writes "regions", "captions" and "segments" only. *)
Lemma preprocess_pre_keeps key2idx predata data tmp k :
  k <> "regions"%string -> k <> "captions"%string -> k <> "segments"%string ->
  forall st st',
    Captions.preprocess_pre key2idx predata data st = Ok st' ->
    Captions.getfield st' tmp k = Captions.getfield st tmp k.
Proof.
  intros H1 H2 H3 st st' H. unfold Captions.preprocess_pre in H.
  eapply (foldM_invariant _
            (fun s => Captions.getfield s tmp k = Captions.getfield st tmp k))
    in H; [exact H| |done].
  intros s [v_id obj] s' Hs Hstep.
  destruct (Captions.key2idx_get _ _) as [idx|[]]; try discriminate;
    try (by injection Hstep as <-).
  destruct (Captions.slot_field _ _ _ _) as [f|]; [|discriminate].
  cbn [bind] in Hstep.
  destruct (Captions.as_number f) as [fpsv|]; [|discriminate].
  cbn [bind] in Hstep.
  destruct (Captions.convert_regions _ _) as [regs|]; [|discriminate].
  cbn [bind] in Hstep.
  destruct (Captions.slot_setitem s _ _ _ _) as [s1|] eqn:E1; [|discriminate].
  cbn [bind] in Hstep.
  destruct (Captions.slot_setitem s1 _ _ _ _) as [s2|] eqn:E2; [|discriminate].
  cbn [bind] in Hstep.
  apply (slot_setitem_keeps _ _ _ _ _ _ tmp k H3) in Hstep.
  apply (slot_setitem_keeps _ _ _ _ _ _ tmp k H2) in E2.
  apply (slot_setitem_keeps _ _ _ _ _ _ tmp k H1) in E1.
  congruence.
Qed.

Lemma preprocess_meta_last_fields key2idx tmp ms m data st data' st' :
  Captions.preprocess_meta key2idx tmp (ms ++ [m]) data st = Ok (data', st') ->
  is_Some (Captions.heap st !! tmp) ->
  Captions.getfield st' tmp "video_id"
    = Ok (Captions.VStr (Captions.video_id m)) /\
  Captions.getfield st' tmp "framerate"
    = Ok (Captions.VNum (Captions.framerate m)) /\
  Captions.getfield st' tmp "num_frames"
    = Ok (Captions.VNum (PyInt (Captions.num_frames m))) /\
  Captions.getfield st' tmp "width"
    = Ok (Captions.VNum (PyInt (Captions.width m))) /\
  Captions.getfield st' tmp "height"
    = Ok (Captions.VNum (PyInt (Captions.height m))).
Proof.
  intros H Htmp. unfold Captions.preprocess_meta in H.
  rewrite foldM_snoc in H.
  destruct (foldM _ ms (data, st)) as [[d1 s1]|] eqn:Hms; [|discriminate].
  apply preprocess_meta_keeps_tmp in Hms as [d Hd]; [|done].
  cbn [bind] in H.
  destruct (Captions.key2idx_get _ _) as [idx|]; [|discriminate].
  cbn [bind] in H.
  destruct (Captions.list_set _ _ _); [|discriminate]. cbn [bind] in H.
  injection H as _ <-. unfold Captions.getfield, Captions.setitem. simpl.
  rewrite !lookup_alter_eq, Hd. simpl.
  repeat split; by simplify_map_eq.
Qed.

(** Whatever the annotations: when [preprocess] returns, every filled
    slot reads the video id, frame rate, frame count, width and height
    of the last metadata entry. *)
Theorem preprocess_fields_of_last predata ms m vidnum key2idx r (i : nat) l :
  Captions.preprocess predata (ms ++ [m]) vidnum key2idx = Ok r ->
  r.1 !! i = Some (Some l) ->
  Captions.read r (Z.of_nat i) "video_id"
    = Ok (Captions.VStr (Captions.video_id m)) /\
  Captions.read r (Z.of_nat i) "framerate"
    = Ok (Captions.VNum (Captions.framerate m)) /\
  Captions.read r (Z.of_nat i) "num_frames"
    = Ok (Captions.VNum (PyInt (Captions.num_frames m))) /\
  Captions.read r (Z.of_nat i) "width"
    = Ok (Captions.VNum (PyInt (Captions.width m))) /\
  Captions.read r (Z.of_nat i) "height"
    = Ok (Captions.VNum (PyInt (Captions.height m))).
Proof.
  intros H Hi. destruct r as [data st].
  unfold Captions.preprocess in H. simpl in H.
  destruct (Captions.preprocess_meta _ _ _ _ _) as [[d s]|] eqn:Hmeta;
    [|discriminate].
  cbn [bind] in H.
  destruct (Captions.preprocess_pre _ _ _ _) as [s'|] eqn:Hpre; [|discriminate].
  cbn [bind] in H. injection H as <- <-. simpl in Hi.
  assert (Hl : l = 0%nat).
  { pose proof Hmeta as Hslots. apply preprocess_meta_slots in Hslots.
    - rewrite Forall_forall in Hslots.
      apply list_elem_of_lookup_2, Hslots in Hi. by destruct Hi as [|[= ->]].
    - apply Forall_forall. intros slot Hslot.
      apply elem_of_replicate in Hslot as [-> _]. by left. }
  subst l.
  apply preprocess_meta_last_fields in Hmeta
    as (H1 & H2 & H3 & H4 & H5); [|simpl; rewrite lookup_insert_eq; by eexists].
  unfold Captions.read, Captions.slot_field. simpl.
  destruct (index_in_range d (Z.of_nat i)) as (x & -> & Hx).
  { apply lookup_lt_Some in Hi. lia. }
  rewrite Nat2Z.id, Hi in Hx. injection Hx as <-. cbn [bind].
  assert (Hkeep : forall k,
             k <> "regions"%string -> k <> "captions"%string ->
             k <> "segments"%string ->
             Captions.getfield s' 0%nat k = Captions.getfield s 0%nat k).
  { intros k K1 K2 K3. by eapply preprocess_pre_keeps. }
  rewrite !Hkeep by discriminate. done.
Qed.

Lemma preprocess_fields_of_last_witness :
  exists r,
    Captions.preprocess demo_predata two_videos_meta 2 two_videos_keys = Ok r /\
    r.1 !! 0%nat = Some (Some 0%nat) /\
    Captions.read r 0 "framerate" = Ok (Captions.VNum (PyFloat 25)) /\
    Captions.read r 0 "regions"
      = Ok (Captions.VList
              [Captions.VList [Captions.VNum (PyInt 37);
                              Captions.VNum (PyInt 62)]]).
Proof.
  destruct (Captions.preprocess demo_predata two_videos_meta 2 two_videos_keys)
    as [r|] eqn:Hrun; [|vm_compute in Hrun; discriminate Hrun].
  assert (Hslot : r.1 !! 0%nat = Some (Some 0%nat)).
  { vm_compute in Hrun. by injection Hrun as <-. }
  exists r. split; [reflexivity|]. split; [exact Hslot|]. split.
  - exact (proj1 (proj2 (preprocess_fields_of_last demo_predata
                           (take 1 two_videos_meta) _ 2 two_videos_keys r
                           0%nat 0%nat Hrun Hslot))).
  - vm_compute in Hrun. injection Hrun as <-. vm_compute. reflexivity.
Defined.

(* --------------------------------------------------------------------- *)
(** ** The epoch loop: what runs, what is written                         *)
(* --------------------------------------------------------------------- *)


Lemma append_assoc (s t u : string) : (s +:+ t) +:+ u = s +:+ (t +:+ u).
Proof.
  induction s as [|c s IH]; [done|].
  change (String c ((s +:+ t) +:+ u) = String c (s +:+ (t +:+ u))).
  by f_equal.
Qed.

Lemma append_empty_r (s : string) : s +:+ EmptyString = s.
Proof.
  induction s as [|c s IH]; [done|].
  change (String c (s +:+ EmptyString) = String c s).
  by f_equal.
Qed.

Lemma length_append (s t : string) :
  String.length (s +:+ t) = (String.length s + String.length t)%nat.
Proof.
  induction s as [|c s IH]; [done|].
  change (S (String.length (s +:+ t)) = S (String.length s + String.length t)).
  by f_equal.
Qed.

Lemma starts_with_slash_append (s t : string) :
  starts_with_slash s = true -> starts_with_slash (s +:+ t) = true.
Proof. by destruct s. Qed.


Lemma ancestor_or_self_trans (p q d : string) :
  ancestor_or_self p q -> ancestor_or_self q d -> ancestor_or_self p d.
Proof.
  intros (r1 & -> & H1) (r2 & -> & H2).
  exists (r1 +:+ r2). split; [apply append_assoc|].
  destruct H1 as [->|[H1|H1]].
  - rewrite append_empty_r in H2. exact H2.
  - right; left. by apply starts_with_slash_append.
  - by right; right.
Qed.

(** [rsplit_slash] cuts after the last slash. *)
Lemma rsplit_slash_facts (p : string) :
  p = (rsplit_slash p).1 +:+ (rsplit_slash p).2 /\
  (has_slash p = true -> ends_with_slash (rsplit_slash p).1 = true) /\
  (has_slash p = false -> (rsplit_slash p).1 = EmptyString).
Proof.
  induction p as [|c p (IH1 & IH2 & IH3)]; [done|].
  simpl. destruct (has_slash p) eqn:Hp.
  - destruct (rsplit_slash p) as [h t]. simpl in *.
    split; [change (String c p = String c (h +:+ t)); by rewrite <- IH1|].
    split; [|by rewrite orb_true_r].
    intros _. specialize (IH2 eq_refl). destruct h; [done|exact IH2].
  - destruct (Ascii.eqb c "/") eqn:Hc; simpl.
    + split; [done|]. split; [done|discriminate].
    + split; [done|]. split; [discriminate|done].
Qed.

(** [rstrip_slash] drops slashes only. *)
Lemma rstrip_slash_facts (s : string) :
  exists rest,
    s = rstrip_slash s +:+ rest /\
    (rest = EmptyString \/ starts_with_slash rest = true).
Proof.
  induction s as [|c s (rest & Hs & Hrest)]; [exists EmptyString; by split; [|left]|].
  simpl. destruct (rstrip_slash s) as [|a r] eqn:Hr.
  - change (s = rest) in Hs. destruct (Ascii.eqb c "/") eqn:Hc.
    + exists (String c s). split; [done|]. by right.
    + exists rest. split; [|done].
      change (String c s = String c rest). by rewrite <- Hs.
  - exists rest. split; [|done].
    change (String c s = String c (String a r +:+ rest)). by rewrite <- Hs.
Qed.

(** The head of [os.path.split], when there is one, is the path of a
    directory above the path that was split. *)
Lemma path_split_facts (name : string) :
  (nonempty (path_split name).1 = true ->
   ancestor_or_self (path_split name).1 name) /\
  (String.length (path_split name).1 + String.length (path_split name).2
   <= String.length name)%nat.
Proof.
  unfold path_split.
  destruct (rsplit_slash_facts name) as (Hname & Hends & Hnone).
  destruct (rsplit_slash name) as [h t]. simpl in Hname, Hends, Hnone.
  assert (Hh : nonempty h = true -> ends_with_slash h = true).
  { intros Hne. destruct (has_slash name); [by apply Hends|].
    rewrite Hnone in Hne by done. discriminate Hne. }
  assert (Hlen : String.length name = (String.length h + String.length t)%nat).
  { rewrite <- length_append. by f_equal. }
  destruct (rstrip_slash_facts h) as (rest & Hstrip & Hrest).
  assert (Hlen' : String.length h
                  = (String.length (rstrip_slash h) + String.length rest)%nat).
  { rewrite <- length_append. by f_equal. }
  destruct (rstrip_slash h) as [|a r] eqn:Hr; simpl.
  - split; [|lia].
    intros Hne. exists t. split; [done|]. right; right. by apply Hh.
  - split; [|simpl in Hlen'; lia].
    intros _. exists (rest +:+ t).
    split; [by rewrite <- append_assoc, <- Hstrip|].
    destruct Hrest as [->|Hrest].
    + rewrite append_empty_r in Hstrip. right; right.
      rewrite <- Hstrip. apply Hh. by rewrite Hstrip.
    + right; left. by apply starts_with_slash_append.
Qed.

(** [os.path.split] on the shapes of path it tells apart. *)
Lemma path_split_examples :
  path_split "a/b" = ("a", "b")%string /\
  path_split "a//b" = ("a", "b")%string /\
  path_split "a/b/" = ("a/b", "")%string /\
  path_split "ab" = ("", "ab")%string /\
  path_split "/a" = ("/", "a")%string /\
  path_split "//a" = ("//", "a")%string /\
  path_split "./m" = (".", "m")%string /\
  path_split "" = ("", "")%string.
Proof. repeat split. Qed.

(** The head [os.makedirs] recurses on. *)
Lemma makedirs_head_facts (name head tail : string) :
  (let '(head, tail) := path_split name in
   if nonempty tail then (head, tail) else path_split head) = (head, tail) ->
  (nonempty head = true -> ancestor_or_self head name) /\
  (nonempty tail = true -> (String.length head < String.length name)%nat).
Proof.
  destruct (path_split_facts name) as [Hanc Hlen].
  destruct (path_split name) as [h1 t1]. simpl in Hanc, Hlen.
  destruct (nonempty t1) eqn:Ht1.
  - intros [= <- <-]. split; [done|]. intros _. destruct t1; [done|]. simpl in Hlen. lia.
  - intros Hsplit.
    destruct (path_split_facts h1) as [Hanc' Hlen'].
    rewrite Hsplit in Hanc', Hlen'. simpl in Hanc', Hlen'.
    split.
    + intros Hne. eapply ancestor_or_self_trans; [by apply Hanc'|].
      apply Hanc. destruct h1; [|done]. by destruct head.
    + intros Hne. destruct tail; [done|]. simpl in Hlen'. lia.
Qed.


(** The recursion of [os.makedirs] ends within the length of the path:
    more fuel changes nothing. *)
Lemma makedirs_from_fuel (n : nat) :
  forall (m : nat) (fs : gset string) (name : string),
    (String.length name <= n)%nat -> (String.length name <= m)%nat ->
    makedirs_from n fs name = makedirs_from m fs name.
Proof.
  induction n as [|n IH]; intros [|m] fs name Hn Hm; [done| | |].
  - destruct name; [done|simpl in Hn; lia].
  - destruct name; [done|simpl in Hm; lia].
  - cbn [makedirs_from].
    pose proof (makedirs_head_facts name) as Hhead.
    destruct (let '(head, tail) := path_split name in
              if nonempty tail then (head, tail) else path_split head)
      as [head tail].
    destruct (Hhead head tail eq_refl) as [_ Hlen].
    destruct (nonempty head && nonempty tail && negb (path_exists fs head))
      eqn:Hcond; [|done].
    apply andb_true_iff in Hcond as [Hcond _].
    apply andb_true_iff in Hcond as [_ Hne].
    specialize (Hlen Hne).
    by rewrite (IH m fs head) by lia.
Qed.

Lemma makedirs_enough_fuel (fuel : nat) (fs : gset string) (name : string) :
  (String.length name <= fuel)%nat ->
  makedirs_from fuel fs name = makedirs fs name.
Proof. intros H. unfold makedirs. by apply makedirs_from_fuel. Qed.

(** Below an existing '..', every missing level is made. *)
Lemma makedirs_nested :
  makedirs parent_only "../x/models/resnet_10/b064_s224_l016"
  = {[ ".."; "../x"; "../x/models"; "../x/models/resnet_10";
       "../x/models/resnet_10/b064_s224_l016" ]}%string.
Proof. apply (bool_decide_unpack _). vm_compute. exact I. Qed.




Section epochs_loop_facts.

Variables (a : TrainScript.Args) (rt : TrainScript.Runtime).


End epochs_loop_facts.










(* --------------------------------------------------------------------- *)
(** ** File names: numbers written and read back                          *)
(* --------------------------------------------------------------------- *)

Lemma list_ascii_append (s t : string) :
  list_ascii_of_string (s +:+ t)
  = list_ascii_of_string s ++ list_ascii_of_string t.
Proof. induction s as [|c s IH]; simpl; [done|]. by rewrite IH. Qed.

Lemma digits_fold_acc (d : Decimal.uint) (acc : positive) :
  fold_left (fun acc c => 10 * acc + (Z.of_nat (nat_of_ascii c) - 48))
            (list_ascii_of_string (NilEmpty.string_of_uint d)) (Z.pos acc)
  = Z.pos (Pos.of_uint_acc d acc).
Proof.
  revert acc. induction d as [|d IH|d IH|d IH|d IH|d IH|d IH|d IH|d IH|d IH|d IH];
    intros acc; [done|..];
    simpl NilEmpty.string_of_uint; cbn [list_ascii_of_string fold_left Pos.of_uint_acc];
    rewrite <- IH; f_equal;
    try (match goal with
         | |- context [Z.of_nat (nat_of_ascii ?c)] =>
             let v := eval vm_compute in (Z.of_nat (nat_of_ascii c)) in
             change (Z.of_nat (nat_of_ascii c)) with v
         end; lia).
Qed.

Lemma digits_fold (d : Decimal.uint) :
  int_of_digits (NilEmpty.string_of_uint d) = Z.of_N (Pos.of_uint d).
Proof.
  unfold int_of_digits.
  induction d as [|d IH|d IH|d IH|d IH|d IH|d IH|d IH|d IH|d IH|d IH];
    [done|exact IH|..];
    simpl NilEmpty.string_of_uint; cbn [list_ascii_of_string fold_left Pos.of_uint];
    simpl Z.of_N; rewrite <- digits_fold_acc; f_equal.
Qed.

Lemma digits_of_N (n : N) :
  int_of_digits (NilZero.string_of_uint (N.to_uint n)) = Z.of_N n.
Proof.
  rewrite <- (DecimalN.Unsigned.of_to n) at 2. unfold N.of_uint.
  destruct (N.to_uint n) eqn:Hd; try apply digits_fold. reflexivity.
Qed.

Lemma digits_only_uint (d : Decimal.uint) :
  digits_only (NilZero.string_of_uint d) /\ NilZero.string_of_uint d <> ""%string.
Proof.
  assert (H : digits_only (NilEmpty.string_of_uint d)).
  { unfold digits_only. induction d; simpl; constructor; done. }
  destruct d; simpl in *; try (split; [exact H|discriminate]).
  split; [|discriminate]. repeat constructor.
Qed.

Lemma digits_only_zeros (k : nat) : digits_only (zeros k).
Proof. unfold digits_only. induction k; simpl; constructor; done. Qed.

Lemma digits_only_append (s t : string) :
  digits_only s -> digits_only t -> digits_only (s +:+ t).
Proof.
  unfold digits_only. rewrite list_ascii_append. intros. by apply Forall_app.
Qed.

Lemma int_of_digits_zeros (k : nat) (s : string) :
  int_of_digits (zeros k +:+ s) = int_of_digits s.
Proof.
  unfold int_of_digits. rewrite list_ascii_append, fold_left_app.
  f_equal. induction k as [|k IH]; [done|].
  cbn [zeros list_ascii_of_string fold_left]. exact IH.
Qed.

Lemma take_digits_stop (s rest : string) :
  digits_only s ->
  match rest with
  | String c _ => is_digit c = false
  | EmptyString => True
  end ->
  take_digits (s +:+ rest) = s.
Proof.
  unfold digits_only. intros Hs Hrest.
  induction s as [|c s IH]; simpl in *.
  - destruct rest as [|c r]; [done|]. simpl. by rewrite Hrest.
  - apply Forall_cons in Hs as [Hc Hs]. rewrite Hc. f_equal. by apply IH.
Qed.

Lemma is_digit_not_minus (c : ascii) :
  is_digit c = true -> Ascii.eqb c "-" = false.
Proof.
  intros Hc. destruct (Ascii.eqb_spec c "-") as [->|]; [|done].
  discriminate Hc.
Qed.

(** The digits [format_0d] writes: zero padding, then the decimal
    numeral of the absolute value. *)
Lemma format_0d_digits (w : nat) (z : Z) :
  exists ds,
    digits_only ds /\ ds <> ""%string /\ int_of_digits ds = Z.abs z /\
    format_0d w z = if z <? 0 then String "-" ds else ds.
Proof.
  unfold format_0d.
  set (digits := NilZero.string_of_uint (N.to_uint (Z.to_N (Z.abs z)))).
  destruct (digits_only_uint (N.to_uint (Z.to_N (Z.abs z)))) as [Hd Hne].
  fold digits in Hd, Hne.
  assert (Hval : int_of_digits digits = Z.abs z).
  { unfold digits. rewrite digits_of_N. lia. }
  assert (Hpad : forall k, digits_only (zeros k +:+ digits)
                           /\ zeros k +:+ digits <> ""%string
                           /\ int_of_digits (zeros k +:+ digits) = Z.abs z).
  { intros k. split; [apply digits_only_append; [apply digits_only_zeros|done]|].
    split; [|by rewrite int_of_digits_zeros].
    destruct k; simpl; [done|discriminate]. }
  destruct (z <? 0).
  - exists (zeros (w - 1 - String.length digits) +:+ digits).
    destruct (Hpad (w - 1 - String.length digits)%nat) as (? & ? & ?). done.
  - exists (zeros (w - String.length digits) +:+ digits).
    destruct (Hpad (w - String.length digits)%nat) as (? & ? & ?). done.
Qed.

Lemma parse_int_format (w : nat) (z : Z) (rest : string) :
  match rest with
  | String c _ => is_digit c = false
  | EmptyString => True
  end ->
  parse_int (format_0d w z +:+ rest) = z.
Proof.
  intros Hrest.
  destruct (format_0d_digits w z) as (ds & Hd & Hne & Hval & ->).
  destruct (Z.ltb_spec z 0).
  - simpl. rewrite take_digits_stop, Hval by done. lia.
  - destruct ds as [|c r] eqn:Hds; [done|]. rewrite <- Hds in *.
    assert (Hc : is_digit c = true).
    { unfold digits_only in Hd. rewrite Hds in Hd. simpl in Hd.
      by apply Forall_cons in Hd as [? _]. }
    unfold parse_int. rewrite Hds at 1. simpl.
    rewrite (is_digit_not_minus c Hc).
    rewrite take_digits_stop, Hval by done. lia.
Qed.

Lemma first_digits_head (s : string) (c : ascii) (r : string) :
  s = String c r -> is_digit c = true -> first_digits s = Ok (take_digits s).
Proof. intros -> Hc. simpl. by rewrite Hc. Qed.

Lemma format_0d_inj (w : nat) (i j : Z) (rest : string) :
  match rest with
  | String c _ => is_digit c = false
  | EmptyString => True
  end ->
  format_0d w i +:+ rest = format_0d w j +:+ rest -> i = j.
Proof.
  intros Hrest H.
  rewrite <- (parse_int_format w i rest Hrest),
          <- (parse_int_format w j rest Hrest).
  by rewrite H.
Qed.

Lemma append_inj_prefix (p s t : string) : p +:+ s = p +:+ t -> s = t.
Proof. induction p as [|c p IH]; simpl; [done|]. intros [= H]. by apply IH. Qed.

(** Joining one directory with two relative names gives the same path
    only for the same name. *)
Lemma path_join_inj (dir : string) (c1 c2 : ascii) (n1 n2 : string) :
  Ascii.eqb c1 "/" = false -> Ascii.eqb c2 "/" = false ->
  path_join dir (String c1 n1) = path_join dir (String c2 n2) ->
  String c1 n1 = String c2 n2.
Proof.
  intros H1 H2.
  assert (Hjoin : forall c n, Ascii.eqb c "/" = false ->
             path_join dir (String c n) =
               match dir with
               | EmptyString => String c n
               | _ => if ends_with_slash dir then dir +:+ String c n
                      else dir +:+ "/" +:+ String c n
               end).
  { intros c n Hc. unfold path_join.
    destruct c as [[] [] [] [] [] [] [] []]; try reflexivity.
    vm_compute in Hc. discriminate Hc. }
  rewrite !Hjoin by done.
  destruct dir as [|d dir]; [done|].
  destruct (ends_with_slash (String d dir)).
  - apply append_inj_prefix.
  - intros H. apply append_inj_prefix in H. by apply append_inj_prefix in H.
Qed.

(** Reading the frame number back from the name the loader uses for
    frame [i], as [__init__] does with the last file of a directory,
    gives [i] for a frame number that is not negative (and in general
    its absolute value: the sign is not read). *)
Theorem frame_number_read_back (i : Z) :
  (digits <- first_digits (frame_name i);; Ok (int_of_digits digits))
    = Ok (Z.abs i) /\
  forall fs dir names,
    listdir fs dir = Ok names ->
    index (sorted names) (-1) = Ok (frame_name i) ->
    Train.last_frame_number fs dir = Ok (Z.abs i).
Proof.
  assert (Hread : (digits <- first_digits (frame_name i);;
                   Ok (int_of_digits digits)) = Ok (Z.abs i)).
  { unfold frame_name.
    destruct (format_0d_digits 5 i) as (ds & Hd & Hne & Hval & ->).
    assert (Hfirst : first_digits (ds +:+ ".jpg") = Ok ds).
    { destruct ds as [|c r] eqn:Hds; [done|]. rewrite <- Hds in *.
      assert (Hc : is_digit c = true).
      { unfold digits_only in Hd. rewrite Hds in Hd. simpl in Hd.
        by apply Forall_cons in Hd as [? _]. }
      rewrite (first_digits_head (ds +:+ ".jpg") c (r +:+ ".jpg"));
        [by rewrite take_digits_stop|by rewrite Hds|done]. }
    destruct (i <? 0).
    - change (first_digits ("image_" +:+ String "-" ds +:+ ".jpg"))
        with (first_digits (ds +:+ ".jpg")).
      rewrite Hfirst. cbn [bind]. by rewrite Hval.
    - change (first_digits ("image_" +:+ ds +:+ ".jpg"))
        with (first_digits (ds +:+ ".jpg")).
      rewrite Hfirst. cbn [bind]. by rewrite Hval. }
  split; [exact Hread|].
  intros fs dir names Hls Hlast. unfold Train.last_frame_number.
  rewrite Hls. cbn [bind]. rewrite Hlast. cbn [bind].
  destruct (first_digits (frame_name i)) as [digits|]; [|discriminate].
  cbn [bind] in *. exact Hread.
Qed.

Lemma frame_number_read_back_witness :
  index (sorted ["image_00002.jpg"; "image_00040.jpg"; "image_00007.jpg"]%string)
        (-1) = Ok (frame_name 40) /\
  Train.last_frame_number demo_fs "root/frames/v1" = Ok 40.
Proof.
  split; [reflexivity|].
  destruct (listdir demo_fs "root/frames/v1") as [names|] eqn:Hls;
    [|vm_compute in Hls; discriminate Hls].
  refine (proj2 (frame_number_read_back 40) demo_fs _ names Hls _).
  vm_compute in Hls. injection Hls as <-. vm_compute. reflexivity.
Defined.

(** Different frame indices never share a frame file, in either
    loader, and different epochs never share a checkpoint file: saving
    after one epoch does not overwrite what another epoch saved. *)
Theorem file_names_distinct (dir : string) (a : TrainScript.Args) (i j : Z) :
  (Train.frame_file dir i = Train.frame_file dir j -> i = j) /\
  (Captions.frame_file dir i = Captions.frame_file dir j -> i = j) /\
  (TrainScript.enc_path a i = TrainScript.enc_path a j -> i = j) /\
  (TrainScript.dec_path a i = TrainScript.dec_path a j -> i = j).
Proof.
  assert (Hjpg : match ".jpg"%string with
                 | String c _ => is_digit c = false
                 | EmptyString => True
                 end) by reflexivity.
  assert (Hckpt : match ".ckpt"%string with
                  | String c _ => is_digit c = false
                  | EmptyString => True
                  end) by reflexivity.
  assert (Hfmt : forall w z rest, exists c r,
             format_0d w z +:+ rest = String c r /\ Ascii.eqb c "/" = false).
  { intros w z rest.
    destruct (format_0d_digits w z) as (ds & Hd & Hne & _ & ->).
    destruct (z <? 0); [by exists "-"%char, (ds +:+ rest)|].
    destruct ds as [|c r]; [done|]. exists c, (r +:+ rest). split; [done|].
    unfold digits_only in Hd. simpl in Hd. apply Forall_cons in Hd as [Hc _].
    destruct (Ascii.eqb_spec c "/") as [->|]; [discriminate Hc|done]. }
  split; [|split; [|split]].
  - unfold Train.frame_file.
    change ("image_" +:+ format_0d 5 ?z +:+ ".jpg")
      with (String "i" ("mage_" +:+ format_0d 5 z +:+ ".jpg")).
    intros H. apply path_join_inj in H; [|done..].
    injection H as H. apply append_inj_prefix in H.
    by apply format_0d_inj in H.
  - unfold Captions.frame_file. intros H.
    destruct (Hfmt 6%nat i ".jpg"%string) as (c1 & r1 & E1 & Hc1).
    destruct (Hfmt 6%nat j ".jpg"%string) as (c2 & r2 & E2 & Hc2).
    rewrite E1, E2 in H. apply path_join_inj in H; [|done..].
    rewrite <- E1, <- E2 in H. by apply format_0d_inj in H.
  - unfold TrainScript.enc_path, TrainScript.ckpt_name.
    change ("ep" +:+ format_0d 4 ?z +:+ ".ckpt")
      with (String "e" ("p" +:+ format_0d 4 z +:+ ".ckpt")).
    intros H. apply path_join_inj in H; [|done..].
    injection H as H. apply append_inj_prefix in H.
    by apply format_0d_inj in H.
  - unfold TrainScript.dec_path, TrainScript.ckpt_name.
    change ("ep" +:+ format_0d 4 ?z +:+ ".ckpt")
      with (String "e" ("p" +:+ format_0d 4 z +:+ ".ckpt")).
    intros H. apply path_join_inj in H; [|done..].
    injection H as H. apply append_inj_prefix in H.
    by apply format_0d_inj in H.
Qed.

Lemma file_names_distinct_witness :
  Train.frame_file "root/frames/v1" 1 <> Train.frame_file "root/frames/v1" 2 /\
  TrainScript.enc_path (default_args 0 20) 3
    <> TrainScript.enc_path (default_args 0 20) 5.
Proof.
  split; intros H.
  - apply (proj1 (file_names_distinct "root/frames/v1" (default_args 0 20) 1 2))
      in H. discriminate H.
  - apply (proj1 (proj2 (proj2 (file_names_distinct "" (default_args 0 20) 3 5))))
      in H. discriminate H.
Defined.

(* --------------------------------------------------------------------- *)
(** ** Constructing the captions dataset                                  *)
(* --------------------------------------------------------------------- *)

Lemma init_ok files same_object root_path metadata mode frame_path out obj :
  CaptionsDataset.init files same_object root_path metadata mode frame_path
    = (out, Ok obj) ->
  exists ids,
    CaptionsDataset.open_json (CaptionsDataset.ids_files files)
      (path_join root_path (mode +:+ "_ids.json")) = Ok ids /\
    (CaptionsDataset.idx2key obj, CaptionsDataset.key2idx obj)
      = Captions.id_loader ids /\
    CaptionsDataset.py_is same_object mode "test" = false /\
    CaptionsDataset.open_json (CaptionsDataset.meta_files files)
      (path_join root_path metadata) = Ok (CaptionsDataset.meta obj) /\
    CaptionsDataset.vidnum obj = length (CaptionsDataset.meta obj) /\
    Captions.preprocess (CaptionsDataset.predata obj) (CaptionsDataset.meta obj)
      (CaptionsDataset.vidnum obj) (CaptionsDataset.key2idx obj)
    = Ok (CaptionsDataset.data obj, CaptionsDataset.store obj) /\
    out = CaptionsDataset.check_mode mode
            ++ [CaptionsDataset.DataList (CaptionsDataset.data obj)
                  (CaptionsDataset.store obj)].
Proof.
  unfold CaptionsDataset.init.
  destruct (CaptionsDataset.open_json (CaptionsDataset.ids_files files) _)
    as [ids|] eqn:Hids; [|discriminate].
  destruct (Captions.id_loader ids) as [i2k k2i] eqn:Hload.
  destruct (CaptionsDataset.py_is same_object mode "test") eqn:Htest;
    cbn [negb bind].
  - destruct (CaptionsDataset.open_json (CaptionsDataset.meta_files files) _);
      cbn [bind]; discriminate.
  - destruct (CaptionsDataset.open_json (CaptionsDataset.ann_files files) _)
      as [doc|]; cbn [bind]; [|discriminate].
    destruct (CaptionsDataset.open_json (CaptionsDataset.meta_files files) _)
      as [meta|] eqn:Hmeta; cbn [bind]; [|discriminate].
    destruct (Captions.preprocess doc meta (length meta) k2i)
      as [[d st]|] eqn:Hpre; cbn [bind]; [|discriminate].
    intros [= <- <-]. exists ids. simpl. by repeat split.
Qed.

Lemma preprocess_length predata metadata (vidnum : nat) key2idx data st :
  Captions.preprocess predata metadata vidnum key2idx = Ok (data, st) ->
  length data = vidnum.
Proof.
  unfold Captions.preprocess. simpl.
  destruct (Captions.preprocess_meta _ _ _ _ _) as [[d s]|] eqn:Hmeta;
    [|discriminate].
  cbn [bind].
  destruct (Captions.preprocess_pre _ _ _ _) as [s'|]; [|discriminate].
  cbn [bind]. intros [= <- <-].
  apply preprocess_meta_filled in Hmeta as [Hlen _].
  by rewrite length_replicate in Hlen.
Qed.

(** A dataset that was constructed has as many items, by [__len__], as
    the metadata file has entries, and as many slots, whatever the id
    list holds; and [__getitem__] returns none of them. *)
Theorem constructed_dataset_length (files : CaptionsDataset.Files)
    (same_object : bool) (root_path metadata mode frame_path : string)
    (out : list CaptionsDataset.printed) (obj : CaptionsDataset.Object) :
  CaptionsDataset.init files same_object root_path metadata mode frame_path
    = (out, Ok obj) ->
  CaptionsDataset.meta_files files !! path_join root_path metadata
    = Some (CaptionsDataset.meta obj) /\
  CaptionsDataset.len obj = length (CaptionsDataset.meta obj) /\
  length (CaptionsDataset.data obj) = CaptionsDataset.len obj /\
  forall (Result : Type)
         (load_and_stack : Captions.Dataset -> Z -> list Z -> res Result)
         (idx : Z) (r : Result),
    Captions.getitem load_and_stack (CaptionsDataset.as_dataset obj) idx <> Ok r.
Proof.
  intros H. apply init_ok in H
    as (ids & _ & _ & _ & Hmeta & Hvid & Hpre & _).
  split.
  { unfold CaptionsDataset.open_json in Hmeta.
    destruct (_ !! _); [by injection Hmeta as ->|discriminate]. }
  split; [done|]. split.
  { by apply preprocess_length in Hpre. }
  intros Result load_and_stack idx r.
  unfold Captions.getitem.
  destruct (Captions.frame_indices_of _ idx); cbn [bind]; [|discriminate].
  rewrite path_is_undefined. discriminate.
Qed.

Lemma constructed_dataset_length_witness :
  exists out obj,
    CaptionsDataset.init demo_files false "root" "meta.json" "train" "frames"
      = (out, Ok obj) /\
    CaptionsDataset.len obj = 2%nat.
Proof.
  destruct (CaptionsDataset.init demo_files false "root" "meta.json" "train"
              "frames") as [out [obj|e]] eqn:Hrun;
    [|vm_compute in Hrun; discriminate Hrun].
  exists out, obj. split; [reflexivity|].
  destruct (constructed_dataset_length _ _ _ _ _ _ _ _ Hrun)
    as (Hmeta & -> & _).
  assert (Hm : CaptionsDataset.meta_files demo_files
                 !! path_join "root" "meta.json" = Some two_videos_meta)
    by (vm_compute; reflexivity).
  rewrite Hm in Hmeta. by injection Hmeta as <-.
Defined.

(** When [mode] is the very object of the literal 'test', no
    annotation file is read and [self.predata] is never set: the
    constructor cannot return, and with the id and metadata files in
    place it raises [AttributeError] for [predata]. *)
Theorem test_mode_never_constructs (files : CaptionsDataset.Files)
    (root_path metadata frame_path : string) :
  let run :=
    CaptionsDataset.init files true root_path metadata "test" frame_path in
  (forall obj, run.2 <> Ok obj) /\
  (forall ids meta,
     CaptionsDataset.ids_files files !! path_join root_path "test_ids.json"
       = Some ids ->
     CaptionsDataset.meta_files files !! path_join root_path metadata
       = Some meta ->
     run = ([], Raise (AttributeError "predata"))).
Proof.
  cbv zeta. split.
  - intros obj H.
    destruct (CaptionsDataset.init files true root_path metadata "test"
                frame_path) as [out r] eqn:Hrun.
    simpl in H. subst r. apply init_ok in Hrun as (_ & _ & _ & Htest & _).
    discriminate Htest.
  - intros ids meta Hids Hmeta. unfold CaptionsDataset.init.
    change ("test" +:+ "_ids.json") with "test_ids.json"%string.
    unfold CaptionsDataset.open_json at 1. rewrite Hids.
    destruct (Captions.id_loader ids) as [i2k k2i].
    change (CaptionsDataset.py_is true "test" "test") with true.
    cbn [negb bind]. unfold CaptionsDataset.open_json. rewrite Hmeta.
    cbn [bind]. reflexivity.
Qed.

Lemma test_mode_never_constructs_witness :
  CaptionsDataset.init demo_files true "root" "meta.json" "test" "frames"
  = ([], Raise (AttributeError "predata")).
Proof.
  refine (proj2 (test_mode_never_constructs demo_files "root" "meta.json"
                   "frames") ["v_a"; "v_b"]%string two_videos_meta _ _);
    vm_compute; reflexivity.
Defined.

(** A mode outside 'train', 'val' and 'test' is reported but not
    refused: after the message the constructor goes on with the
    annotation file named after the mode, and returns a dataset when
    that file, the metadata and [preprocess] allow it. *)
Theorem invalid_mode_is_not_refused (files : CaptionsDataset.Files)
    (same_object : bool) (root_path metadata mode frame_path : string)
    ids doc meta built :
  mode ∉ ["train"; "val"; "test"]%string ->
  CaptionsDataset.ids_files files !! path_join root_path (mode +:+ "_ids.json")
    = Some ids ->
  CaptionsDataset.ann_files files !! path_join root_path (mode +:+ ".json")
    = Some doc ->
  CaptionsDataset.meta_files files !! path_join root_path metadata = Some meta ->
  Captions.preprocess doc meta (length meta) (Captions.id_loader ids).2
    = Ok built ->
  exists obj,
    CaptionsDataset.init files same_object root_path metadata mode frame_path
    = ([CaptionsDataset.Line CaptionsDataset.mode_message;
        CaptionsDataset.DataList built.1 built.2], Ok obj) /\
    CaptionsDataset.annfile obj = Some (mode +:+ ".json") /\
    CaptionsDataset.data obj = built.1.
Proof.
  intros Hmode Hids Hdoc Hmeta Hpre. unfold CaptionsDataset.init.
  unfold CaptionsDataset.open_json at 1. rewrite Hids.
  destruct (Captions.id_loader ids) as [i2k k2i]. simpl in Hpre.
  unfold CaptionsDataset.check_mode. rewrite bool_decide_eq_false_2 by done.
  assert (Hne : forall lit, lit ∈ ["train"; "val"; "test"]%string ->
                  CaptionsDataset.py_is same_object mode lit = false).
  { intros lit Hlit. unfold CaptionsDataset.py_is.
    destruct (String.eqb_spec mode lit) as [->|]; [done|].
    by rewrite andb_false_r. }
  rewrite !Hne by (rewrite !elem_of_cons; auto).
  cbn [negb bind]. unfold CaptionsDataset.open_json.
  rewrite Hdoc, Hmeta. cbn [bind]. rewrite Hpre. cbn [bind].
  eexists. split; [reflexivity|]. by split.
Qed.

Lemma invalid_mode_is_not_refused_witness :
  exists obj,
    (CaptionsDataset.init demo_files true "root" "meta.json" "dev" "frames").2
      = Ok obj /\
    CaptionsDataset.annfile obj = Some "dev.json"%string.
Proof.
  destruct (Captions.preprocess demo_predata two_videos_meta
              (length two_videos_meta)
              (Captions.id_loader ["v_a"; "v_b"]%string).2)
    as [built|] eqn:Hpre; [|vm_compute in Hpre; discriminate Hpre].
  destruct (invalid_mode_is_not_refused demo_files true "root" "meta.json"
              "dev" "frames" ["v_a"; "v_b"]%string demo_predata
              two_videos_meta built) as (obj & Hrun & Hann & _).
  - rewrite !elem_of_cons. intros [H|[H|[H|H]]]; try discriminate H.
    by apply elem_of_nil in H.
  - vm_compute. reflexivity.
  - vm_compute. reflexivity.
  - vm_compute. reflexivity.
  - exact Hpre.
  - exists obj. rewrite Hrun. by split.
Defined.

Lemma candidates_negative_witness :
  -1 < 0 /\
  Train.candidates (-1) demo_record
  = (["b"; "c"]%string, [(1, 3); (2, 9)], [range 1 3; range 2 9]).
Proof.
  assert (H : -1 < 0) by lia. split; [exact H|].
  rewrite (candidates_negative (-1) demo_record H). reflexivity.
Defined.
